(** * Caixa de Senhas: access control and record normalisation

    A shallow embedding of [app.py] and [database.py]: the Flask handlers
    [login], [adicionar_registro], [visualizar_registros],
    [admin_dashboard], [criar_usuario] and [exportar_dados], the
    [DatabaseManager] methods they call, and the count by unit of
    [database_backup.py].

    Modelling decisions.
    - Python strings are [string]; a character is an 8-bit code point and
      [isspace] is [str.isspace] restricted to that range.
    - The two tables are lists of typed rows.  A cursor row whose columns
      are read inside the selected width is a typed row; the grouped count
      query keeps its rows as lists of cells, because its loop reads a
      position by number.
    - Timestamps ([CURRENT_TIMESTAMP]) are integers, read from a clock
      argument [now].
    - A Python exception is a value of [result]; [try ... except] is
      [try_except].  Which database step raises is given by a fault plan.
    - The connection commits by itself: a statement that writes takes
      effect when it is executed, and an exception raised later in the
      session, by [commit] included, leaves that write in the store.
    - [json.dumps], [json.loads] and the werkzeug hash functions are
      parameters of the development; [json.loads] may raise any
      exception, [RecursionError] on deep nesting for one. *)

From Stdlib Require Import ZArith Ascii String Lia.
From stdpp Require Import base option list sorting strings countable gmap.

Local Open Scope Z_scope.

(** ** Exceptions *)

Inductive exn : Type :=
  | ConnectionError
  | DatabaseError
  | IntegrityError
  | IndexError
  | TypeError
  | ValueError
  | JSONDecodeError
  | RecursionError.

Inductive result (A : Type) : Type :=
  | Ok (a : A)
  | Raise (e : exn).
Arguments Ok {A} a.
Arguments Raise {A} e.

#[global] Instance result_ret : MRet result := fun A a => Ok a.

#[global] Instance result_bind : MBind result := fun A B k m =>
  match m with
  | Ok a => k a
  | Raise e => Raise e
  end.

(** [try: body except Exception: handler] *)
Definition try_except {A} (body : result A) (handler : exn -> A) : A :=
  match body with
  | Ok a => a
  | Raise e => handler e
  end.

(** ** Python string methods *)

Module PyStr.

(** [str.isspace] on one character, for code points below 256. *)
Definition isspace (c : ascii) : bool :=
  let n := nat_of_ascii c in
  ((9 <=? n) && (n <=? 13) || (28 <=? n) && (n <=? 32)
   || (n =? 133) || (n =? 160))%nat.

(** [s.lstrip()] *)
Fixpoint lstrip (s : string) : string :=
  match s with
  | EmptyString => EmptyString
  | String c s' => if isspace c then lstrip s' else s
  end.

(** [s.rstrip()] *)
Fixpoint rstrip (s : string) : string :=
  match s with
  | EmptyString => EmptyString
  | String c s' =>
      match rstrip s' with
      | EmptyString => if isspace c then EmptyString else String c EmptyString
      | t => String c t
      end
  end.

(** [s.strip()] *)
Definition strip (s : string) : string := rstrip (lstrip s).

(** [s.split(sep)] for a one-character separator.  The result is never
    empty: [''.split(',')] is [['']]. *)
Fixpoint split (sep : ascii) (s : string) : list string :=
  match s with
  | EmptyString => [EmptyString]
  | String c s' =>
      if Ascii.eqb c sep then EmptyString :: split sep s'
      else match split sep s' with
           | [] => [String c EmptyString]
           | w :: ws => String c w :: ws
           end
  end.

(** Truth value of a string: [bool(s)]. *)
Definition truthy (s : string) : bool :=
  match s with
  | EmptyString => false
  | String _ _ => true
  end.

(** [sep.join(l)] *)
Fixpoint join (sep : string) (l : list string) : string :=
  match l with
  | [] => EmptyString
  | [x] => x
  | x :: l' => x +:+ sep +:+ join sep l'
  end.

(** [c in s] for a character. *)
Fixpoint contains (c : ascii) (s : string) : bool :=
  match s with
  | EmptyString => false
  | String d s' => Ascii.eqb d c || contains c s'
  end.

End PyStr.

(** ** Values exchanged with the platform libraries *)

Set Warnings "-register-all".

(** What [json.loads] can return.  A number keeps its lexeme: no code here
    reads its value. *)
Inductive json : Type :=
  | JNull
  | JBool (b : bool)
  | JNumber (lexeme : string)
  | JStr (s : string)
  | JList (l : list json)
  | JObj (kvs : list (string * json)).

(** The library functions the code calls.  [json_loads] raises what
    [json.loads] raises: [JSONDecodeError] on a text that is not JSON,
    [RecursionError] on one nested too deep.  The salt of
    [generate_password_hash] belongs to the instance. *)
Class Plataforma : Type := {
  json_dumps : list string -> string;
  json_loads : string -> result json;
  generate_password_hash : string -> string;
  check_password_hash : string -> string -> bool
}.

(** [len(v)] *)
Definition py_len (v : json) : result nat :=
  match v with
  | JStr s => Ok (String.length s)
  | JList l => Ok (length l)
  | JObj kvs => Ok (length kvs)
  | JNull | JBool _ | JNumber _ => Raise TypeError
  end.

(** An item of the iterable given to [str.join] must be a [str]. *)
Definition item_str (v : json) : result string :=
  match v with
  | JStr s => Ok s
  | _ => Raise TypeError
  end.

(** [sep.join(v)]: a list is joined item by item, a string character by
    character, a dict key by key. *)
Definition py_join (sep : string) (v : json) : result string :=
  match v with
  | JList l => items ← mapM item_str l; Ok (PyStr.join sep items)
  | JStr s =>
      Ok (PyStr.join sep
            ((fun c => String c EmptyString) <$> list_ascii_of_string s))
  | JObj kvs => Ok (PyStr.join sep (fst <$> kvs))
  | JNull | JBool _ | JNumber _ => Raise TypeError
  end.

(** ** The store *)

(** A cell of a cursor row. *)
Inductive sqlval : Type :=
  | SNull
  | SInt (z : Z)
  | SText (s : string).

#[global] Instance sqlval_eq_dec : EqDecision sqlval.
Proof. solve_decision. Defined.

#[global] Instance sqlval_countable : Countable sqlval.
Proof.
  refine (inj_countable'
    (fun v => match v with
              | SNull => inl ()
              | SInt z => inr (inl z)
              | SText s => inr (inr s)
              end)
    (fun x => match x with
              | inl _ => SNull
              | inr (inl z) => SInt z
              | inr (inr s) => SText s
              end) _).
  intros []; reflexivity.
Defined.

(** [row[i]] on a tuple: [IndexError] outside its width. *)
Definition row_index (row : list sqlval) (i : nat) : result sqlval :=
  match row !! i with
  | Some v => Ok v
  | None => Raise IndexError
  end.

(** Table [usuarios]. *)
Record linha_usuario : Type := {
  u_id : Z;
  u_username : string;
  u_password_hash : string;
  u_nome_completo : string;
  u_unidade : string;
  u_tipo_usuario : string;
  u_ativo : Z;
  u_data_criacao : Z;
  u_ultimo_login : option Z
}.

(** Table [registros]; [r_senhas] is the JSON text of the password list. *)
Record linha_registro : Type := {
  r_id : Z;
  r_carteirinha : string;
  r_unidade : string;
  r_senhas : string;
  r_usuario_id : Z;
  r_data_criacao : Z
}.

Record banco : Type := {
  usuarios : list linha_usuario;
  registros : list linha_registro
}.

#[global] Instance linha_usuario_eq_dec : EqDecision linha_usuario.
Proof. solve_decision. Defined.

#[global] Instance linha_registro_eq_dec : EqDecision linha_registro.
Proof. solve_decision. Defined.

(** The steps of a database session that can raise. *)
Inductive passo : Type :=
  | Conectar
  | Consultar
  | Inserir
  | Atualizar
  | Confirmar.

(** A fault plan: [f p = true] when step [p] raises in this request. *)
Definition falhas : Type := passo -> bool.

Definition sem_falhas : falhas := fun _ => false.

Definition executar (f : falhas) (p : passo) (e : exn) : result unit :=
  if f p then Raise e else Ok tt.

(** [INTEGER PRIMARY KEY AUTOINCREMENT]: one more than the largest key; no
    row is ever deleted. *)
Definition proximo_id (ids : list Z) : Z := 1 + foldr Z.max 0 ids.

(** ** Sessions that write

    The body of a [with self.get_connection() as conn] block that
    writes: it runs on the store and leaves the store its statements
    have made, with its value or with the exception that stopped it. *)

Definition sessao (A : Type) : Type := banco -> result A * banco.

#[global] Instance sessao_ret : MRet sessao := fun A a db => (Ok a, db).

#[global] Instance sessao_bind : MBind sessao := fun A B k m db =>
  match m db with
  | (Ok a, db') => k a db'
  | (Raise e, db') => (Raise e, db')
  end.

(** A step that reads or fails and does not write. *)
Definition sem_escrita {A} (r : result A) : sessao A := fun db => (r, db).

(** A query on the store as it stands. *)
Definition consultar {A} (q : banco -> A) : sessao A :=
  fun db => (Ok (q db), db).

(** A statement that writes: it raises and changes nothing, or it takes
    effect. *)
Definition escrever (w : banco -> result banco) : sessao unit :=
  fun db =>
    match w db with
    | Ok db' => (Ok (), db')
    | Raise e => (Raise e, db)
    end.

(** [try: body except Exception: handler] around a session. *)
Definition try_except_sessao {A} (body : sessao A) (handler : exn -> A)
    (db : banco) : A * banco :=
  match body db with
  | (Ok a, db') => (a, db')
  | (Raise e, db') => (handler e, db')
  end.

(** ** [database.py]: class [DatabaseManager] *)

Module DatabaseManager.
Section Metodos.
Context `{plataforma : Plataforma}.

(** The dict built for one record by the listing methods. *)
Record registro : Type := {
  reg_id : Z;
  reg_carteirinha : string;
  reg_unidade : string;
  reg_senhas : json;
  reg_usuario_id : Z;
  reg_data_criacao : Z;
  reg_total_senhas : nat
}.

(** The dict returned by [validar_login]. *)
Record dados_usuario : Type := {
  du_id : Z;
  du_username : string;
  du_nome_completo : string;
  du_unidade : string;
  du_tipo_usuario : string
}.

(** [get_connection]: [sqlitecloud.connect] raises when the store cannot
    be reached. *)
Definition get_connection (f : falhas) : result unit :=
  executar f Conectar ConnectionError.

(** [inserir_registro], lines 132-181. *)
Definition inserir_registro (f : falhas) (now : Z) (db : banco)
    (carteirinha unidade : string) (senhas : list string) (usuario_id : Z)
    : bool * banco :=
  try_except_sessao
    (if negb (PyStr.truthy carteirinha) || negb (PyStr.truthy unidade)
        || bool_decide (senhas = []) || bool_decide (usuario_id = 0)
     then mret false
     else if bool_decide (5 < length senhas)%nat
     then mret false
     else
       let senhas_json := json_dumps senhas in
       sem_escrita (get_connection f);;
       escrever (fun db =>
         executar f Inserir DatabaseError;;
         Ok {| usuarios := usuarios db;
               registros := registros db ++
                 [ {| r_id := proximo_id (r_id <$> registros db);
                      r_carteirinha := carteirinha;
                      r_unidade := unidade;
                      r_senhas := senhas_json;
                      r_usuario_id := usuario_id;
                      r_data_criacao := now |} ] |});;
       sem_escrita (executar f Confirmar DatabaseError);;
       mret true)
    (fun _ => false) db.

(** [ORDER BY data_criacao DESC] *)
Definition mais_recente_primeiro (a b : linha_registro) : Prop :=
  r_data_criacao b <= r_data_criacao a.

#[global] Instance mais_recente_primeiro_dec :
  RelDecision mais_recente_primeiro.
Proof. intros a b; unfold mais_recente_primeiro; apply _. Defined.

(** [SELECT id, carteirinha, unidade, senhas, usuario_id, data_criacao
    FROM registros ORDER BY data_criacao DESC] *)
Definition select_todos (db : banco) : list linha_registro :=
  merge_sort mais_recente_primeiro (registros db).

(** The same with [WHERE unidade = ?]. *)
Definition select_por_unidade (db : banco) (unidade : string)
    : list linha_registro :=
  merge_sort mais_recente_primeiro
    (filter (fun r => r_unidade r = unidade) (registros db)).

(** The body of the inner [try] of the listing loops: decode the
    password text and build the dict. *)
Definition decodificar (row : linha_registro) : result registro :=
  senhas ← json_loads (r_senhas row);
  total ← py_len senhas;
  Ok {| reg_id := r_id row;
        reg_carteirinha := r_carteirinha row;
        reg_unidade := r_unidade row;
        reg_senhas := senhas;
        reg_usuario_id := r_usuario_id row;
        reg_data_criacao := r_data_criacao row;
        reg_total_senhas := total |}.

(** [except (json.JSONDecodeError, TypeError, ValueError)] *)
Definition erro_de_decodificacao (e : exn) : bool :=
  match e with
  | JSONDecodeError | TypeError | ValueError => true
  | _ => false
  end.

(** [for row in rows: try: ... registros.append(registro)
    except (...): continue] *)
Fixpoint laco_registros (rows : list linha_registro)
    (registros : list registro) : result (list registro) :=
  match rows with
  | [] => Ok registros
  | row :: rows' =>
      match decodificar row with
      | Ok registro => laco_registros rows' (registros ++ [registro])
      | Raise e =>
          if erro_de_decodificacao e then laco_registros rows' registros
          else Raise e
      end
  end.

(** [obter_todos_registros], lines 183-232. *)
Definition obter_todos_registros (f : falhas) (db : banco)
    : list registro :=
  try_except
    (get_connection f;;
     executar f Consultar DatabaseError;;
     let rows := select_todos db in
     laco_registros rows [])
    (fun _ => []).

(** [obter_registros_por_unidade], lines 295-349. *)
Definition obter_registros_por_unidade (f : falhas) (db : banco)
    (unidade : string) : list registro :=
  try_except
    (get_connection f;;
     executar f Consultar DatabaseError;;
     let rows := select_por_unidade db unidade in
     laco_registros rows [])
    (fun _ => []).

(** [ORDER BY unidade] *)
Definition ordem_unidade (a b : string) : Prop := Is_true (String.leb a b).

#[global] Instance ordem_unidade_dec : RelDecision ordem_unidade.
Proof. intros a b; unfold ordem_unidade; apply _. Defined.

(** [SELECT unidade, COUNT( * ) as total FROM registros GROUP BY unidade
    ORDER BY unidade]: one row of two cells per unit present. *)
Definition select_contagem (db : banco) : list (list sqlval) :=
  (fun u =>
     [ SText u;
       SInt (Z.of_nat
               (length (filter (fun r => r_unidade r = u) (registros db)))) ])
  <$> merge_sort ordem_unidade (remove_dups (r_unidade <$> registros db)).

(** [for row in rows: contagem[row[2]] = row[1]]: the value is evaluated
    before the key. *)
Fixpoint laco_contagem (rows : list (list sqlval))
    (contagem : gmap sqlval sqlval) : result (gmap sqlval sqlval) :=
  match rows with
  | [] => Ok contagem
  | row :: rows' =>
      total ← row_index row 1;
      chave ← row_index row 2;
      laco_contagem rows' (<[chave := total]> contagem)
  end.

(** [contar_registros_por_unidade], lines 351-382. *)
Definition contar_registros_por_unidade (f : falhas) (db : banco)
    : gmap sqlval sqlval :=
  try_except
    (get_connection f;;
     executar f Consultar DatabaseError;;
     let rows := select_contagem db in
     laco_contagem rows ∅)
    (fun _ => ∅).

(** [INSERT INTO usuarios ...]: [username] is [UNIQUE]; [ativo] takes its
    default 1 and [ultimo_login] is left null. *)
Definition insert_usuario (f : falhas) (now : Z) (db : banco)
    (username password_hash nome_completo unidade tipo_usuario : string)
    : result banco :=
  executar f Inserir DatabaseError;;
  if bool_decide (username ∈ u_username <$> usuarios db)
  then Raise IntegrityError
  else Ok {| usuarios := usuarios db ++
               [ {| u_id := proximo_id (u_id <$> usuarios db);
                    u_username := username;
                    u_password_hash := password_hash;
                    u_nome_completo := nome_completo;
                    u_unidade := unidade;
                    u_tipo_usuario := tipo_usuario;
                    u_ativo := 1;
                    u_data_criacao := now;
                    u_ultimo_login := None |} ];
             registros := registros db |}.

(** [criar_usuario], lines 384-437. *)
Definition criar_usuario (f : falhas) (now : Z) (db : banco)
    (username password nome_completo unidade tipo_usuario : string)
    : bool * banco :=
  try_except_sessao
    (sem_escrita (get_connection f);;
     sem_escrita (executar f Consultar DatabaseError);;
     count ← consultar (fun db =>
       length (filter (fun r => u_username r = username) (usuarios db)));
     if bool_decide (0 < count)%nat
     then mret false
     else
       let password_hash := generate_password_hash password in
       escrever (fun db =>
         insert_usuario f now db username password_hash nome_completo
           unidade tipo_usuario);;
       sem_escrita (executar f Confirmar DatabaseError);;
       mret true)
    (fun _ => false) db.

(** [UPDATE usuarios SET ultimo_login = CURRENT_TIMESTAMP WHERE id = ?] *)
Definition update_ultimo_login (now : Z) (id : Z) (db : banco) : banco :=
  {| usuarios :=
       (fun r =>
          if bool_decide (u_id r = id)
          then {| u_id := u_id r;
                  u_username := u_username r;
                  u_password_hash := u_password_hash r;
                  u_nome_completo := u_nome_completo r;
                  u_unidade := u_unidade r;
                  u_tipo_usuario := u_tipo_usuario r;
                  u_ativo := u_ativo r;
                  u_data_criacao := u_data_criacao r;
                  u_ultimo_login := Some now |}
          else r) <$> usuarios db;
     registros := registros db |}.

(** [SELECT ... FROM usuarios WHERE username = ? AND ativo = 1] followed
    by [fetchone()]. *)
Definition select_usuario_ativo (db : banco) (username : string)
    : option linha_usuario :=
  head (filter (fun r => u_username r = username ∧ u_ativo r = 1)
          (usuarios db)).

(** [validar_login], lines 439-487. *)
Definition validar_login (f : falhas) (now : Z) (db : banco)
    (username password : string) : option dados_usuario * banco :=
  try_except_sessao
    (sem_escrita (get_connection f);;
     sem_escrita (executar f Consultar DatabaseError);;
     user ← consultar (fun db => select_usuario_ativo db username);
     match user with
     | Some user =>
         if check_password_hash (u_password_hash user) password
         then
           escrever (fun db =>
             executar f Atualizar DatabaseError;;
             Ok (update_ultimo_login now (u_id user) db));;
           sem_escrita (executar f Confirmar DatabaseError);;
           mret (Some {| du_id := u_id user;
                         du_username := u_username user;
                         du_nome_completo := u_nome_completo user;
                         du_unidade := u_unidade user;
                         du_tipo_usuario := u_tipo_usuario user |})
         else mret None
     | None => mret None
     end)
    (fun _ => None) db.

(** [obter_usuario_por_id], lines 489-529, with the five fields that
    [User] reads. *)
Definition obter_usuario_por_id (f : falhas) (db : banco) (user_id : Z)
    : option dados_usuario :=
  try_except
    (get_connection f;;
     executar f Consultar DatabaseError;;
     match head (filter (fun r => u_id r = user_id) (usuarios db)) with
     | Some user =>
         Ok (Some {| du_id := u_id user;
                     du_username := u_username user;
                     du_nome_completo := u_nome_completo user;
                     du_unidade := u_unidade user;
                     du_tipo_usuario := u_tipo_usuario user |})
     | None => Ok None
     end)
    (fun _ => None).

(** [obter_registro_por_id], lines 234-274: the decoding is not inside an
    inner [try], so what it raises reaches the [except] of the method. *)
Definition obter_registro_por_id (f : falhas) (db : banco) (registro_id : Z)
    : option registro :=
  try_except
    (get_connection f;;
     executar f Consultar DatabaseError;;
     match head (filter (fun r => r_id r = registro_id) (registros db)) with
     | Some row => registro ← decodificar row; Ok (Some registro)
     | None => Ok None
     end)
    (fun _ => None).

(** [contar_registros], lines 276-293. *)
Definition contar_registros (f : falhas) (db : banco) : Z :=
  try_except
    (get_connection f;;
     executar f Consultar DatabaseError;;
     Ok (Z.of_nat (length (registros db))))
    (fun _ => 0).

(** [inicializar_banco], lines 60-130.  The tables of [banco] always
    exist, so [CREATE TABLE IF NOT EXISTS] changes nothing;
    [criar_tabelas_falha] says whether these two statements raise. *)
Definition inicializar_banco (f : falhas) (criar_tabelas_falha : bool)
    (now : Z) (db : banco) : bool * banco :=
  try_except_sessao
    (sem_escrita (get_connection f);;
     sem_escrita (if criar_tabelas_falha then Raise DatabaseError else Ok ());;
     sem_escrita (executar f Consultar DatabaseError);;
     admin_count ← consultar (fun db =>
       length (filter (fun r => u_tipo_usuario r = "admin") (usuarios db)));
     (if bool_decide (admin_count = 0%nat)
      then
        let admin_hash := generate_password_hash "20e10" in
        escrever (fun db =>
          insert_usuario f now db "admin" admin_hash
            "Administrador do Sistema" "Ambas" "admin")
      else mret ());;
     sem_escrita (executar f Confirmar DatabaseError);;
     mret true)
    (fun _ => false) db.

(** The dict built for one user by [obter_todos_usuarios]. *)
Record usuario_listado : Type := {
  ul_id : Z;
  ul_username : string;
  ul_nome_completo : string;
  ul_unidade : string;
  ul_tipo_usuario : string;
  ul_ativo : Z;
  ul_data_criacao : Z;
  ul_ultimo_login : option Z
}.

Definition listar_usuario (row : linha_usuario) : usuario_listado :=
  {| ul_id := u_id row;
     ul_username := u_username row;
     ul_nome_completo := u_nome_completo row;
     ul_unidade := u_unidade row;
     ul_tipo_usuario := u_tipo_usuario row;
     ul_ativo := u_ativo row;
     ul_data_criacao := u_data_criacao row;
     ul_ultimo_login := u_ultimo_login row |}.

(** [ORDER BY data_criacao DESC] on [usuarios]. *)
Definition usuario_mais_recente_primeiro (a b : linha_usuario) : Prop :=
  u_data_criacao b <= u_data_criacao a.

#[global] Instance usuario_mais_recente_primeiro_dec :
  RelDecision usuario_mais_recente_primeiro.
Proof. intros a b; unfold usuario_mais_recente_primeiro; apply _. Defined.

(** [obter_todos_usuarios], lines 531-569. *)
Definition obter_todos_usuarios (f : falhas) (db : banco)
    : list usuario_listado :=
  try_except
    (get_connection f;;
     executar f Consultar DatabaseError;;
     let rows := merge_sort usuario_mais_recente_primeiro (usuarios db) in
     Ok (listar_usuario <$> rows))
    (fun _ => []).
End Metodos.
End DatabaseManager.

(** ** [database_backup.py]: the [sqlite3] variant of the count

    Its cursor rows are [sqlite3.Row] values, read by column name; its
    [except] clauses catch [sqlite3.Error] only. *)

Module DatabaseBackup.

(** [row[nome]] on a [sqlite3.Row]: [IndexError] for a name that is not a
    column of the query. *)
Definition row_chave (row : list (string * sqlval)) (nome : string)
    : result sqlval :=
  match head (filter (fun kv => kv.1 = nome) row) with
  | Some kv => Ok kv.2
  | None => Raise IndexError
  end.

(** [SELECT unidade, COUNT( * ) as total FROM registros GROUP BY unidade
    ORDER BY unidade] *)
Definition select_contagem (db : banco) : list (list (string * sqlval)) :=
  (fun u =>
     [ ("unidade", SText u);
       ("total",
        SInt (Z.of_nat
                (length
                   (filter (fun r => r_unidade r = u) (registros db))))) ])
  <$> merge_sort DatabaseManager.ordem_unidade
        (remove_dups (r_unidade <$> registros db)).

(** [for row in rows: contagem[row['unidade']] = row['total']] *)
Fixpoint laco_contagem (rows : list (list (string * sqlval)))
    (contagem : gmap sqlval sqlval) : result (gmap sqlval sqlval) :=
  match rows with
  | [] => Ok contagem
  | row :: rows' =>
      total ← row_chave row "total";
      chave ← row_chave row "unidade";
      laco_contagem rows' (<[chave := total]> contagem)
  end.

(** The exceptions of class [sqlite3.Error]. *)
Definition erro_sqlite (e : exn) : bool :=
  match e with
  | ConnectionError | DatabaseError | IntegrityError => true
  | _ => false
  end.

(** [contar_registros_por_unidade] of [database_backup.py], lines 342-373:
    an exception that is not a [sqlite3.Error] leaves the method. *)
Definition contar_registros_por_unidade (f : falhas) (db : banco)
    : result (gmap sqlval sqlval) :=
  match
    (DatabaseManager.get_connection f;;
     executar f Consultar DatabaseError;;
     let rows := select_contagem db in
     laco_contagem rows ∅)
  with
  | Ok contagem => Ok contagem
  | Raise e => if erro_sqlite e then Ok ∅ else Raise e
  end.

End DatabaseBackup.

(** ** [app.py] *)

(** Class [User]: the identity of the session.  [id] is kept as the
    integer that [str] and [int] carry back and forth. *)
Module User.

Record t : Type := {
  id : Z;
  username : string;
  nome_completo : string;
  unidade : string;
  tipo_usuario : string
}.

(** [User.__init__(user_data)] *)
Definition init (user_data : DatabaseManager.dados_usuario) : t :=
  {| id := DatabaseManager.du_id user_data;
     username := DatabaseManager.du_username user_data;
     nome_completo := DatabaseManager.du_nome_completo user_data;
     unidade := DatabaseManager.du_unidade user_data;
     tipo_usuario := DatabaseManager.du_tipo_usuario user_data |}.

(** [is_admin] *)
Definition is_admin (self : t) : bool :=
  bool_decide (tipo_usuario self = "admin").

End User.

Module App.
Section Rotas.
Context `{plataforma : Plataforma}.

Definition virgula : ascii := ascii_of_nat 44.

(** [request.form.get(campo, padrao)] and [request.args.get]. *)
Definition form_get (campo : option string) (padrao : string) : string :=
  default padrao campo.

(** [load_user], lines 46-51. *)
Definition load_user (f : falhas) (db : banco) (user_id : Z)
    : option User.t :=
  User.init <$> DatabaseManager.obter_usuario_por_id f db user_id.

(** Lines 132-134 of [adicionar_registro]:
    [senhas = []]
    [if senhas_raw: senhas = [senha.strip() for senha in
       senhas_raw.split(',') if senha.strip()]] *)
Definition processar_senhas (senhas_raw : string) : list string :=
  if PyStr.truthy senhas_raw
  then omap (fun senha => if PyStr.truthy (PyStr.strip senha)
                          then Some (PyStr.strip senha) else None)
            (PyStr.split virgula senhas_raw)
  else [].

(** The fields posted to [/adicionar]. *)
Record form_adicionar : Type := {
  form_carteirinha : option string;
  form_unidade : option string;
  form_senhas : option string
}.

(** The message flashed by [adicionar_registro]; every path redirects to
    [index]. *)
Inductive flash_adicionar : Type :=
  | CarteirinhaObrigatoria
  | UnidadeObrigatoria
  | UnidadeNaoPermitida (unidade_do_usuario : string)
  | MaximoSenhas
  | PeloMenosUmaSenha
  | RegistroSalvo (carteirinha unidade : string) (total : nat)
  | ErroAoSalvar
  | ErroInterno.

(** [adicionar_registro], lines 103-157. *)
Definition adicionar_registro (f : falhas) (now : Z) (db : banco)
    (current_user : User.t) (form : form_adicionar)
    : flash_adicionar * banco :=
  try_except
    (let carteirinha := PyStr.strip (form_get (form_carteirinha form) "") in
     let unidade := PyStr.strip (form_get (form_unidade form) "") in
     let senhas_raw := form_get (form_senhas form) "" in
     if negb (PyStr.truthy carteirinha)
     then Ok (CarteirinhaObrigatoria, db)
     else if negb (PyStr.truthy unidade)
     then Ok (UnidadeObrigatoria, db)
     else if negb (User.is_admin current_user)
             && bool_decide (User.unidade current_user ≠ unidade)
             && bool_decide (User.unidade current_user ≠ "Ambas")
     then Ok (UnidadeNaoPermitida (User.unidade current_user), db)
     else
       let senhas := processar_senhas senhas_raw in
       if bool_decide (5 < length senhas)%nat
       then Ok (MaximoSenhas, db)
       else if bool_decide (length senhas = 0%nat)
       then Ok (PeloMenosUmaSenha, db)
       else
         let '(success, db') :=
           DatabaseManager.inserir_registro f now db carteirinha unidade
             senhas (User.id current_user) in
         if success
         then Ok (RegistroSalvo carteirinha unidade (length senhas), db')
         else Ok (ErroAoSalvar, db'))
    (fun _ => (ErroInterno, db)).

(** What [visualizar_registros] answers: the template with its three
    arguments, or the redirect of the [except] branch. *)
Inductive resposta_registros : Type :=
  | PaginaRegistros (registros : list DatabaseManager.registro)
      (estatisticas : gmap sqlval sqlval) (unidade_filtro : string)
  | ErroAoCarregarRegistros.

(** [visualizar_registros], lines 159-190; [args_unidade] is the
    [unidade] parameter of the query string. *)
Definition visualizar_registros (f : falhas) (db : banco)
    (current_user : User.t) (args_unidade : option string)
    : resposta_registros :=
  try_except
    (let unidade_filtro := form_get args_unidade "" in
     let unidade_filtro :=
       if negb (User.is_admin current_user)
          && bool_decide (User.unidade current_user ≠ "Ambas")
       then User.unidade current_user
       else unidade_filtro in
     let registros :=
       if PyStr.truthy unidade_filtro
          && bool_decide (unidade_filtro ∈ ["Belo Horizonte"; "Contagem"])
       then DatabaseManager.obter_registros_por_unidade f db unidade_filtro
       else DatabaseManager.obter_todos_registros f db in
     let estatisticas := DatabaseManager.contar_registros_por_unidade f db in
     Ok (PaginaRegistros registros estatisticas unidade_filtro))
    (fun _ => ErroAoCarregarRegistros).

(** One data row of the CSV, under the header
    [ID, Carteirinha, Unidade, Senhas, Data/Hora Criacao, Usuario ID]. *)
Record linha_csv : Type := {
  csv_id : Z;
  csv_carteirinha : string;
  csv_unidade : string;
  csv_senhas : string;
  csv_data_criacao : Z;
  csv_usuario_id : Z
}.

Inductive resposta_exportar : Type :=
  | CsvExportado (linhas : list linha_csv)
  | ErroAoExportar.

(** The body of the [for registro in registros] loop of the export. *)
Definition escrever_linha (registro : DatabaseManager.registro)
    : result linha_csv :=
  senhas_str ← py_join "; " (DatabaseManager.reg_senhas registro);
  Ok {| csv_id := DatabaseManager.reg_id registro;
        csv_carteirinha := DatabaseManager.reg_carteirinha registro;
        csv_unidade := DatabaseManager.reg_unidade registro;
        csv_senhas := senhas_str;
        csv_data_criacao := DatabaseManager.reg_data_criacao registro;
        csv_usuario_id := DatabaseManager.reg_usuario_id registro |}.

(** [exportar_dados], lines 261-308. *)
Definition exportar_dados (f : falhas) (db : banco) (current_user : User.t)
    : resposta_exportar :=
  try_except
    (let registros :=
       if User.is_admin current_user
       then DatabaseManager.obter_todos_registros f db
       else DatabaseManager.obter_registros_por_unidade f db
              (User.unidade current_user) in
     linhas ← mapM escrever_linha registros;
     Ok (CsvExportado linhas))
    (fun _ => ErroAoExportar).

(** The fields posted to [/admin/criar-usuario]. *)
Record form_usuario : Type := {
  form_username : option string;
  form_password : option string;
  form_nome_completo : option string;
  form_unidade_usuario : option string;
  form_tipo_usuario : option string
}.

Inductive resposta_criar_usuario : Type :=
  | AcessoNegado
  | Formulario
  | CamposObrigatorios
  | SenhaCurta
  | UsuarioCriado (username : string)
  | ErroAoCriarUsuario
  | ErroInternoUsuario.

(** [criar_usuario], lines 218-259; [form] is [None] for a GET request. *)
Definition criar_usuario (f : falhas) (now : Z) (db : banco)
    (current_user : User.t) (form : option form_usuario)
    : resposta_criar_usuario * banco :=
  if negb (User.is_admin current_user) then (AcessoNegado, db)
  else
    match form with
    | None => (Formulario, db)
    | Some form =>
        try_except
          (let username := PyStr.strip (form_get (form_username form) "") in
           let password := PyStr.strip (form_get (form_password form) "") in
           let nome_completo :=
             PyStr.strip (form_get (form_nome_completo form) "") in
           let unidade :=
             PyStr.strip (form_get (form_unidade_usuario form) "") in
           let tipo_usuario :=
             form_get (form_tipo_usuario form) "operador" in
           if negb (forallb PyStr.truthy
                      [username; password; nome_completo; unidade])
           then Ok (CamposObrigatorios, db)
           else if bool_decide (String.length password < 4)%nat
           then Ok (SenhaCurta, db)
           else
             let '(success, db') :=
               DatabaseManager.criar_usuario f now db username password
                 nome_completo unidade tipo_usuario in
             if success
             then Ok (UsuarioCriado username, db')
             else Ok (ErroAoCriarUsuario, db'))
          (fun _ => (ErroInternoUsuario, db))
    end.

(** The fields posted to [/login]. *)
Record form_login : Type := {
  form_login_username : option string;
  form_login_password : option string
}.

(** What [login] answers; a successful login carries the identity given
    to [login_user]. *)
Inductive resposta_login : Type :=
  | PaginaLogin
  | CamposNaoPreenchidos
  | BemVindoAdmin (user : User.t)
  | BemVindo (user : User.t)
  | UsuarioOuSenhaIncorretos.

(** [login], lines 53-81; [form] is [None] for a GET request. *)
Definition login (f : falhas) (now : Z) (db : banco)
    (form : option form_login) : resposta_login * banco :=
  match form with
  | None => (PaginaLogin, db)
  | Some form =>
      let username := PyStr.strip (form_get (form_login_username form) "") in
      let password := form_get (form_login_password form) "" in
      if negb (PyStr.truthy username) || negb (PyStr.truthy password)
      then (CamposNaoPreenchidos, db)
      else
        let '(user_data, db') :=
          DatabaseManager.validar_login f now db username password in
        match user_data with
        | Some user_data =>
            let user := User.init user_data in
            if User.is_admin user
            then (BemVindoAdmin user, db')
            else (BemVindo user, db')
        | None => (UsuarioOuSenhaIncorretos, db')
        end
  end.

Inductive resposta_admin : Type :=
  | AdminAcessoNegado
  | PainelAdmin (usuarios : list DatabaseManager.usuario_listado)
      (estatisticas : gmap sqlval sqlval) (total_registros : Z)
  | ErroAoCarregarPainel.

(** [admin_dashboard], lines 192-216. *)
Definition admin_dashboard (f : falhas) (db : banco) (current_user : User.t)
    : resposta_admin :=
  if negb (User.is_admin current_user) then AdminAcessoNegado
  else
    try_except
      (let usuarios := DatabaseManager.obter_todos_usuarios f db in
       let estatisticas :=
         DatabaseManager.contar_registros_por_unidade f db in
       let total_registros := DatabaseManager.contar_registros f db in
       Ok (PainelAdmin usuarios estatisticas total_registros))
      (fun _ => ErroAoCarregarPainel).

End Rotas.
End App.

(** ** A reference platform

    A concrete instance on which the model runs: the JSON codec of flat
    lists of strings (quotes and backslashes escaped, the separators of
    [json.dumps]; [RecursionError] on a text that opens a thousand lists),
    and a transparent hash.  The theorems below hold for
    every instance; this one evaluates them on concrete requests. *)

Module Referencia.

Definition aspas : ascii := ascii_of_nat 34.
Definition barra : ascii := ascii_of_nat 92.
Definition abre : ascii := ascii_of_nat 91.
Definition fecha : ascii := ascii_of_nat 93.

Fixpoint escapar (s : string) : string :=
  match s with
  | EmptyString => EmptyString
  | String c s' =>
      if Ascii.eqb c aspas || Ascii.eqb c barra
      then String barra (String c (escapar s'))
      else String c (escapar s')
  end.

Definition citar (s : string) : string :=
  String aspas (escapar s +:+ String aspas EmptyString).

Definition dumps (l : list string) : string :=
  String abre (PyStr.join ", " (citar <$> l) +:+ String fecha EmptyString).

(** JSON white space. *)
Definition branco (c : ascii) : bool :=
  let n := nat_of_ascii c in
  ((n =? 32) || (n =? 9) || (n =? 10) || (n =? 13))%nat.

Inductive estado : Type :=
  | Inicio
  | AposAbre
  | EmTexto
  | EmEscape
  | AposItem
  | AposVirgula
  | Fim.

Fixpoint analisar (s : string) (e : estado) (atual : string)
    (itens : list string) : option (list string) :=
  match s with
  | EmptyString => match e with Fim => Some itens | _ => None end
  | String c s' =>
      match e with
      | Inicio =>
          if Ascii.eqb c abre then analisar s' AposAbre atual itens
          else if branco c then analisar s' Inicio atual itens
          else None
      | AposAbre =>
          if Ascii.eqb c fecha then analisar s' Fim atual itens
          else if Ascii.eqb c aspas then analisar s' EmTexto EmptyString itens
          else if branco c then analisar s' AposAbre atual itens
          else None
      | EmTexto =>
          if Ascii.eqb c aspas then analisar s' AposItem atual (itens ++ [atual])
          else if Ascii.eqb c barra then analisar s' EmEscape atual itens
          else analisar s' EmTexto (atual +:+ String c EmptyString) itens
      | EmEscape =>
          if Ascii.eqb c aspas || Ascii.eqb c barra
          then analisar s' EmTexto (atual +:+ String c EmptyString) itens
          else None
      | AposItem =>
          if Ascii.eqb c fecha then analisar s' Fim atual itens
          else if Ascii.eqb c (ascii_of_nat 44)
          then analisar s' AposVirgula atual itens
          else if branco c then analisar s' AposItem atual itens
          else None
      | AposVirgula =>
          if Ascii.eqb c aspas then analisar s' EmTexto EmptyString itens
          else if branco c then analisar s' AposVirgula atual itens
          else None
      | Fim => if branco c then analisar s' Fim atual itens else None
      end
  end.

(** The number of lists that the text opens before anything else. *)
Fixpoint abre_consecutivos (s : string) : nat :=
  match s with
  | EmptyString => 0
  | String c s' => if Ascii.eqb c abre then S (abre_consecutivos s') else 0
  end.

(** The nesting from which the decoder gives up: the default recursion
    limit of the interpreter. *)
Definition limite_de_recursao : nat := 1000.

(** [json.loads] on the texts the model runs: [RecursionError] on a text
    that opens [limite_de_recursao] lists or more, the list on the text of
    a flat list of strings, [JSONDecodeError] on any other text. *)
Definition loads (s : string) : result json :=
  if (limite_de_recursao <=? abre_consecutivos s)%nat
  then Raise RecursionError
  else
    match analisar s Inicio EmptyString [] with
    | Some itens => Ok (JList (JStr <$> itens))
    | None => Raise JSONDecodeError
    end.

Definition gerar_hash (password : string) : string := "plain$" +:+ password.

Definition conferir_hash (pwhash password : string) : bool :=
  bool_decide (pwhash = gerar_hash password).

Definition plataforma : Plataforma :=
  {| json_dumps := dumps;
     json_loads := loads;
     generate_password_hash := gerar_hash;
     check_password_hash := conferir_hash |}.

End Referencia.

(** ** Predicates of the specification *)

Section Predicados.
Context `{plataforma : Plataforma}.

(** The checks of [adicionar_registro] that come before the passwords are
    read: card and unit present after trimming, unit allowed to the
    identity. *)
Definition passa_validacao_inicial (current_user : User.t)
    (form : App.form_adicionar) : Prop :=
  PyStr.strip (App.form_get (App.form_carteirinha form) "") <> EmptyString
  /\ PyStr.strip (App.form_get (App.form_unidade form) "") <> EmptyString
  /\ (User.is_admin current_user = true
      \/ User.unidade current_user
         = PyStr.strip (App.form_get (App.form_unidade form) "")
      \/ User.unidade current_user = "Ambas").

(** The store after one more row of [registros]. *)
Definition com_registro (now : Z) (db : banco) (carteirinha unidade : string)
    (senhas : list string) (usuario_id : Z) : banco :=
  {| usuarios := usuarios db;
     registros := registros db ++
       [ {| r_id := proximo_id (r_id <$> registros db);
            r_carteirinha := carteirinha;
            r_unidade := unidade;
            r_senhas := json_dumps senhas;
            r_usuario_id := usuario_id;
            r_data_criacao := now |} ] |}.

(** The stored text is the serialisation of a list of one to five
    passwords. *)
Definition senhas_de_1_a_5 (row : linha_registro) : Prop :=
  exists senhas : list string,
    r_senhas row = json_dumps senhas /\ (1 <= length senhas <= 5)%nat.

(** The invariant of the data model as the specification words it: one to
    five passwords, and a unit that is one of the two concrete units. *)
Definition invariante_do_modelo (row : linha_registro) : Prop :=
  senhas_de_1_a_5 row
  /\ (r_unidade row = "Belo Horizonte" \/ r_unidade row = "Contagem").

(** The invariant the code keeps: one to five passwords, a card and a
    unit that are not empty. *)
Definition invariante_armazenado (row : linha_registro) : Prop :=
  senhas_de_1_a_5 row
  /\ r_carteirinha row <> EmptyString
  /\ r_unidade row <> EmptyString.

(** The store can be reached and queried in this request. *)
Definition consulta_disponivel (f : falhas) : Prop :=
  f Conectar = false /\ f Consultar = false.

(** [json.loads] gives a list of strings for the row, which is what
    [inserir_registro] writes. *)
Definition lista_de_senhas (row : linha_registro) : Prop :=
  exists senhas : list string,
    json_loads (r_senhas row) = Ok (JList (JStr <$> senhas)).

(** The store can be reached, queried and written in this request. *)
Definition gravacao_disponivel (f : falhas) : Prop :=
  f Conectar = false /\ f Consultar = false /\ f Inserir = false
  /\ f Confirmar = false.

(** The row of [usuarios] written by [criar_usuario]. *)
Definition novo_usuario (now : Z) (db : banco)
    (username password nome_completo unidade tipo_usuario : string)
    : linha_usuario :=
  {| u_id := proximo_id (u_id <$> usuarios db);
     u_username := username;
     u_password_hash := generate_password_hash password;
     u_nome_completo := nome_completo;
     u_unidade := unidade;
     u_tipo_usuario := tipo_usuario;
     u_ativo := 1;
     u_data_criacao := now;
     u_ultimo_login := None |}.

(** The store after one more row of [usuarios]. *)
Definition com_usuario (db : banco) (row : linha_usuario) : banco :=
  {| usuarios := usuarios db ++ [row]; registros := registros db |}.

(** The fields of the create-user form as the handler reads them. *)
Definition campo_username (form : App.form_usuario) : string :=
  PyStr.strip (App.form_get (App.form_username form) "").

Definition campo_password (form : App.form_usuario) : string :=
  PyStr.strip (App.form_get (App.form_password form) "").

Definition campo_nome_completo (form : App.form_usuario) : string :=
  PyStr.strip (App.form_get (App.form_nome_completo form) "").

Definition campo_unidade (form : App.form_usuario) : string :=
  PyStr.strip (App.form_get (App.form_unidade_usuario form) "").

Definition campo_tipo_usuario (form : App.form_usuario) : string :=
  App.form_get (App.form_tipo_usuario form) "operador".

(** The form passes the two validations of the create-user handler: the
    four fields present, the password of four characters or more. *)
Definition campos_validos (form : App.form_usuario) : Prop :=
  campo_username form <> EmptyString
  /\ campo_password form <> EmptyString
  /\ campo_nome_completo form <> EmptyString
  /\ campo_unidade form <> EmptyString
  /\ (4 <= String.length (campo_password form))%nat.

(** What the listing loops keep of a row: its dict, or nothing when the
    inner [try] raises. *)
Definition decodificado (row : linha_registro)
    : option DatabaseManager.registro :=
  match DatabaseManager.decodificar row with
  | Ok registro => Some registro
  | Raise _ => None
  end.




(** The decoding of the row raises nothing that the inner [try] lets
    through. *)
Definition sem_erro_fatal (row : linha_registro) : Prop :=
  forall e,
    DatabaseManager.decodificar row = Raise e ->
    DatabaseManager.erro_de_decodificacao e = true.


End Predicados.

(** ** Concrete stores and requests *)

Module Exemplos.

Definition admin : User.t :=
  {| User.id := 1;
     User.username := "admin";
     User.nome_completo := "Administrador do Sistema";
     User.unidade := "Ambas";
     User.tipo_usuario := "admin" |}.

Definition op_bh : User.t :=
  {| User.id := 2;
     User.username := "op1";
     User.nome_completo := "Operador Um";
     User.unidade := "Belo Horizonte";
     User.tipo_usuario := "operador" |}.

Definition op_ambas : User.t :=
  {| User.id := 3;
     User.username := "op2";
     User.nome_completo := "Operador Dois";
     User.unidade := "Ambas";
     User.tipo_usuario := "operador" |}.

Definition op_filial : User.t :=
  {| User.id := 4;
     User.username := "op3";
     User.nome_completo := "Operador Tres";
     User.unidade := "Filial X";
     User.tipo_usuario := "operador" |}.

(** The row of [usuarios] behind an identity, with password ['1234']. *)
Definition linha_de (user : User.t) (ativo : Z) : linha_usuario :=
  {| u_id := User.id user;
     u_username := User.username user;
     u_password_hash := Referencia.gerar_hash "1234";
     u_nome_completo := User.nome_completo user;
     u_unidade := User.unidade user;
     u_tipo_usuario := User.tipo_usuario user;
     u_ativo := ativo;
     u_data_criacao := 1;
     u_ultimo_login := None |}.

(** A deactivated account. *)
Definition linha_inativa : linha_usuario :=
  {| u_id := 5;
     u_username := "op4";
     u_password_hash := Referencia.gerar_hash "1234";
     u_nome_completo := "Operador Quatro";
     u_unidade := "Contagem";
     u_tipo_usuario := "operador";
     u_ativo := 0;
     u_data_criacao := 1;
     u_ultimo_login := None |}.

Definition registro_bh : linha_registro :=
  {| r_id := 1;
     r_carteirinha := "C100";
     r_unidade := "Belo Horizonte";
     r_senhas := Referencia.dumps ["111"; "222"; "333"];
     r_usuario_id := 2;
     r_data_criacao := 10 |}.

(** A row whose password text is cut short. *)
Definition registro_corrompido : linha_registro :=
  {| r_id := 2;
     r_carteirinha := "C200";
     r_unidade := "Belo Horizonte";
     r_senhas := "[111, 222";
     r_usuario_id := 2;
     r_data_criacao := 20 |}.

Definition registro_contagem : linha_registro :=
  {| r_id := 3;
     r_carteirinha := "C300";
     r_unidade := "Contagem";
     r_senhas := Referencia.dumps ["999"];
     r_usuario_id := 1;
     r_data_criacao := 30 |}.

Definition tabela_usuarios : list linha_usuario :=
  [ linha_de admin 1; linha_de op_bh 1; linha_de op_ambas 1;
    linha_de op_filial 1; linha_inativa ].

(** One record of each unit. *)
Definition db_duas_unidades : banco :=
  {| usuarios := tabela_usuarios;
     registros := [registro_bh; registro_contagem] |}.

(** The same with the corrupted row in between. *)
Definition db_com_corrompido : banco :=
  {| usuarios := tabela_usuarios;
     registros := [registro_bh; registro_corrompido; registro_contagem] |}.

Definition db_vazio : banco := {| usuarios := []; registros := [] |}.

(** Only the update of [ultimo_login] raises. *)
Definition falha_no_update : falhas :=
  fun p => match p with Atualizar => true | _ => false end.

(** Only [commit] raises. *)
Definition falha_no_commit : falhas :=
  fun p => match p with Confirmar => true | _ => false end.

(** Only the connection raises. *)
Definition falha_na_conexao : falhas :=
  fun p => match p with Conectar => true | _ => false end.

Fixpoint repetir (c : ascii) (n : nat) : string :=
  match n with
  | O => EmptyString
  | S n' => String c (repetir c n')
  end.

(** Two thousand opening brackets: a text on which [json.loads] raises
    [RecursionError]. *)
Definition texto_profundo : string := repetir Referencia.abre 2000.



Definition form_tres_senhas : App.form_adicionar :=
  {| App.form_carteirinha := Some "C100";
     App.form_unidade := Some "Belo Horizonte";
     App.form_senhas := Some "111,222,333" |}.

(** The form of an admin who writes the unit 'Ambas' on a record. *)
Definition form_unidade_ambas : App.form_adicionar :=
  {| App.form_carteirinha := Some "C400";
     App.form_unidade := Some "Ambas";
     App.form_senhas := Some "111,222" |}.

(** The form that creates an operator of a unit outside the known set. *)
Definition form_usuario_filial : App.form_usuario :=
  {| App.form_username := Some "op9";
     App.form_password := Some "1234";
     App.form_nome_completo := Some "Operador Nove";
     App.form_unidade_usuario := Some "Filial X";
     App.form_tipo_usuario := None |}.

(** A form that asks again for the name [op1]. *)
Definition form_usuario_repetido : App.form_usuario :=
  {| App.form_username := Some " op1 ";
     App.form_password := Some "abcd";
     App.form_nome_completo := Some "Outro Operador";
     App.form_unidade_usuario := Some "Contagem";
     App.form_tipo_usuario := Some "operador" |}.

End Exemplos.

(** ** Further predicates *)

Section PredicadosAdicionais.
Context `{plataforma : Plataforma}.

(** An entry as the normaliser leaves it: not empty, without comma,
    without white space at either end. *)
Definition entrada_normalizada (s : string) : Prop :=
  s <> EmptyString
  /\ PyStr.contains App.virgula s = false
  /\ PyStr.strip s = s.

(** The keys of the two tables are distinct: the primary keys and the
    [UNIQUE] user name. *)
Definition banco_bem_formado (db : banco) : Prop :=
  NoDup (u_id <$> usuarios db)
  /\ NoDup (u_username <$> usuarios db)
  /\ NoDup (r_id <$> registros db).

(** The identity that the session gets from a row of [usuarios]. *)
Definition identidade (row : linha_usuario) : User.t :=
  {| User.id := u_id row;
     User.username := u_username row;
     User.nome_completo := u_nome_completo row;
     User.unidade := u_unidade row;
     User.tipo_usuario := u_tipo_usuario row |}.

(** A row of [usuarios] with its last login forgotten. *)
Definition sem_ultimo_login (row : linha_usuario) : linha_usuario :=
  {| u_id := u_id row;
     u_username := u_username row;
     u_password_hash := u_password_hash row;
     u_nome_completo := u_nome_completo row;
     u_unidade := u_unidade row;
     u_tipo_usuario := u_tipo_usuario row;
     u_ativo := u_ativo row;
     u_data_criacao := u_data_criacao row;
     u_ultimo_login := None |}.

(** What the [UPDATE] of the last login does to one row. *)
Definition marcar_login (now id : Z) (row : linha_usuario) : linha_usuario :=
  if bool_decide (u_id row = id)
  then {| u_id := u_id row;
          u_username := u_username row;
          u_password_hash := u_password_hash row;
          u_nome_completo := u_nome_completo row;
          u_unidade := u_unidade row;
          u_tipo_usuario := u_tipo_usuario row;
          u_ativo := u_ativo row;
          u_data_criacao := u_data_criacao row;
          u_ultimo_login := Some now |}
  else row.

(** The dict that [validar_login] builds from a row. *)
Definition dados_da_linha (row : linha_usuario)
    : DatabaseManager.dados_usuario :=
  {| DatabaseManager.du_id := u_id row;
     DatabaseManager.du_username := u_username row;
     DatabaseManager.du_nome_completo := u_nome_completo row;
     DatabaseManager.du_unidade := u_unidade row;
     DatabaseManager.du_tipo_usuario := u_tipo_usuario row |}.

(** The page of [login] for an identity. *)
Definition boas_vindas (user : User.t) : App.resposta_login :=
  if User.is_admin user then App.BemVindoAdmin user else App.BemVindo user.

(** The dict of a row whose text decodes to the list [senhas]. *)
Definition registro_com_senhas (row : linha_registro) (senhas : list string)
    : DatabaseManager.registro :=
  {| DatabaseManager.reg_id := r_id row;
     DatabaseManager.reg_carteirinha := r_carteirinha row;
     DatabaseManager.reg_unidade := r_unidade row;
     DatabaseManager.reg_senhas := JList (JStr <$> senhas);
     DatabaseManager.reg_usuario_id := r_usuario_id row;
     DatabaseManager.reg_data_criacao := r_data_criacao row;
     DatabaseManager.reg_total_senhas := length senhas |}.

(** The row written by [inserir_registro]. *)
Definition novo_registro (now : Z) (db : banco) (carteirinha unidade : string)
    (senhas : list string) (usuario_id : Z) : linha_registro :=
  {| r_id := proximo_id (r_id <$> registros db);
     r_carteirinha := carteirinha;
     r_unidade := unidade;
     r_senhas := json_dumps senhas;
     r_usuario_id := usuario_id;
     r_data_criacao := now |}.

(** The default administrator seeded by [inicializar_banco]. *)
Definition admin_padrao (now : Z) (db : banco) : linha_usuario :=
  {| u_id := proximo_id (u_id <$> usuarios db);
     u_username := "admin";
     u_password_hash := generate_password_hash "20e10";
     u_nome_completo := "Administrador do Sistema";
     u_unidade := "Ambas";
     u_tipo_usuario := "admin";
     u_ativo := 1;
     u_data_criacao := now;
     u_ultimo_login := None |}.

(** Every step of a session succeeds. *)
Definition sem_falha_alguma (f : falhas) : Prop := forall p, f p = false.

(** The number of rows of a unit. *)
Definition total_da_unidade (db : banco) (unidade : string) : nat :=
  length (filter (fun r => r_unidade r = unidade) (registros db)).

End PredicadosAdicionais.

(** ** Further stores and platforms *)

Module Cenarios.

(** A platform whose [json.loads] reads the text of a list of two
    numbers, and otherwise the reference codec. *)
Definition loads_com_numeros (s : string) : result json :=
  if bool_decide (s = "[111, 222]")
  then Ok (JList [JNumber "111"; JNumber "222"])
  else Referencia.loads s.

Definition plataforma_com_numeros : Plataforma :=
  {| json_dumps := Referencia.dumps;
     json_loads := loads_com_numeros;
     generate_password_hash := Referencia.gerar_hash;
     check_password_hash := Referencia.conferir_hash |}.

(** A row whose password text is a list of numbers. *)
Definition registro_numerico : linha_registro :=
  {| r_id := 7;
     r_carteirinha := "C700";
     r_unidade := "Contagem";
     r_senhas := "[111, 222]";
     r_usuario_id := 1;
     r_data_criacao := 70 |}.

Definition db_com_numeros : banco :=
  {| usuarios := Exemplos.tabela_usuarios;
     registros := [Exemplos.registro_bh; registro_numerico] |}.

(** A store without administrator where an operator is named 'admin'. *)
Definition operador_chamado_admin : linha_usuario :=
  {| u_id := 1;
     u_username := "admin";
     u_password_hash := Referencia.gerar_hash "1234";
     u_nome_completo := "Operador";
     u_unidade := "Contagem";
     u_tipo_usuario := "operador";
     u_ativo := 1;
     u_data_criacao := 1;
     u_ultimo_login := None |}.

Definition db_nome_ocupado : banco :=
  {| usuarios := [operador_chamado_admin]; registros := [] |}.

(** The decoded record of [Exemplos.registro_bh]. *)
Definition registro_bh_decodificado : DatabaseManager.registro :=
  {| DatabaseManager.reg_id := 1;
     DatabaseManager.reg_carteirinha := "C100";
     DatabaseManager.reg_unidade := "Belo Horizonte";
     DatabaseManager.reg_senhas :=
       JList [JStr "111"; JStr "222"; JStr "333"];
     DatabaseManager.reg_usuario_id := 2;
     DatabaseManager.reg_data_criacao := 10;
     DatabaseManager.reg_total_senhas := 3 |}.

(** The decoded record of [Exemplos.registro_contagem]. *)
Definition registro_contagem_decodificado : DatabaseManager.registro :=
  {| DatabaseManager.reg_id := 3;
     DatabaseManager.reg_carteirinha := "C300";
     DatabaseManager.reg_unidade := "Contagem";
     DatabaseManager.reg_senhas := JList [JStr "999"];
     DatabaseManager.reg_usuario_id := 1;
     DatabaseManager.reg_data_criacao := 30;
     DatabaseManager.reg_total_senhas := 1 |}.

(** The row of [Exemplos.registro_bh] in the CSV. *)
Definition linha_csv_bh : App.linha_csv :=
  {| App.csv_id := 1;
     App.csv_carteirinha := "C100";
     App.csv_unidade := "Belo Horizonte";
     App.csv_senhas := "111; 222; 333";
     App.csv_data_criacao := 10;
     App.csv_usuario_id := 2 |}.

End Cenarios.

(** ** Proof automation *)

(** Unfolding of the session combinators. *)
Ltac abrir_sessao :=
  cbv beta iota zeta delta
    [try_except_sessao mbind mret sessao_bind sessao_ret sem_escrita
     consultar escrever result_bind result_ret
     DatabaseManager.get_connection executar].

(** Decoding of a concrete row, evaluated. *)
Ltac linha_sem_erro_fatal :=
  intros ? He; vm_compute in He;
  first [discriminate He | injection He as <-; reflexivity].

(** ** Properties *)

Example referencia_roundtrip :
  Referencia.loads (Referencia.dumps ["111"; "222"; "333"])
  = Ok (JList [JStr "111"; JStr "222"; JStr "333"]).
Proof. vm_compute. reflexivity. Qed.

Example referencia_corrompido :
  Referencia.loads "[111, 222" = Raise JSONDecodeError.
Proof. vm_compute. reflexivity. Qed.

Example referencia_profundo :
  Referencia.loads Exemplos.texto_profundo = Raise RecursionError.
Proof. vm_compute. reflexivity. Qed.

(** *** Strings *)

Lemma truthy_true (s : string) : PyStr.truthy s = true <-> s <> EmptyString.
Proof. destruct s; simpl; split; intros; congruence. Qed.

Lemma split_sem_separador (sep : ascii) (s : string) :
  PyStr.contains sep s = false -> PyStr.split sep s = [s].
Proof.
  induction s as [|c s IH]; simpl; [reflexivity|].
  intros Hc. apply orb_false_iff in Hc as [Hc Hs].
  rewrite Hc, (IH Hs). reflexivity.
Qed.

Lemma split_prefixo (sep : ascii) (x resto : string) :
  PyStr.contains sep x = false ->
  PyStr.split sep (x +:+ String sep resto) = x :: PyStr.split sep resto.
Proof.
  induction x as [|c x IH]; simpl.
  - intros _. rewrite Ascii.eqb_refl. reflexivity.
  - intros Hc. apply orb_false_iff in Hc as [Hc Hx].
    rewrite Hc, (IH Hx). reflexivity.
Qed.

Lemma split_join (sep : ascii) (l : list string) :
  l <> [] ->
  Forall (fun s => PyStr.contains sep s = false) l ->
  PyStr.split sep (PyStr.join (String sep EmptyString) l) = l.
Proof.
  induction l as [|x l IH]; [congruence|].
  intros _ Hl. inversion Hl as [|? ? Hx Hl']; subst.
  destruct l as [|y l].
  - simpl. apply split_sem_separador, Hx.
  - change (PyStr.join (String sep EmptyString) (x :: y :: l))
      with (x +:+ String sep (PyStr.join (String sep EmptyString) (y :: l))).
    rewrite split_prefixo by exact Hx.
    f_equal. apply IH; [congruence | exact Hl'].
Qed.

Lemma compreensao_filter (l : list string) :
  omap (fun senha => if PyStr.truthy (PyStr.strip senha)
                     then Some (PyStr.strip senha) else None) l
  = filter (fun s => s <> EmptyString) (PyStr.strip <$> l).
Proof.
  induction l as [|x l IH]; [reflexivity|].
  cbn [omap list_omap fmap list_fmap].
  destruct (PyStr.truthy (PyStr.strip x)) eqn:E.
  - rewrite filter_cons_True by (apply truthy_true, E).
    cbn. f_equal. exact IH.
  - rewrite filter_cons_False; [exact IH|].
    intros Hne. apply truthy_true in Hne. congruence.
Qed.

Lemma processar_senhas_filter (senhas_raw : string) :
  App.processar_senhas senhas_raw
  = filter (fun s => s <> EmptyString)
      (PyStr.strip <$> PyStr.split App.virgula senhas_raw).
Proof.
  unfold App.processar_senhas.
  destruct senhas_raw as [|c s]; [reflexivity|].
  cbn [PyStr.truthy]. apply compreensao_filter.
Qed.

Lemma processar_senhas_join (l : list string) :
  Forall (fun s => PyStr.contains App.virgula s = false) l ->
  App.processar_senhas (PyStr.join "," l)
  = filter (fun s => s <> EmptyString) (PyStr.strip <$> l).
Proof.
  intros Hl. rewrite processar_senhas_filter.
  destruct l as [|x l]; [reflexivity|].
  change "," with (String App.virgula EmptyString).
  rewrite split_join; [reflexivity | congruence | exact Hl].
Qed.

Section Propriedades.
Context `{plataforma : Plataforma}.

(** *** Record creation *)

Lemma adicionar_registro_apos_validacao f now db current_user form :
  passa_validacao_inicial current_user form ->
  App.adicionar_registro f now db current_user form
  = let carteirinha :=
      PyStr.strip (App.form_get (App.form_carteirinha form) "") in
    let unidade := PyStr.strip (App.form_get (App.form_unidade form) "") in
    let senhas :=
      App.processar_senhas (App.form_get (App.form_senhas form) "") in
    if bool_decide (5 < length senhas)%nat then (App.MaximoSenhas, db)
    else if bool_decide (length senhas = 0%nat)
    then (App.PeloMenosUmaSenha, db)
    else
      let '(success, db') :=
        DatabaseManager.inserir_registro f now db carteirinha unidade senhas
          (User.id current_user) in
      if success
      then (App.RegistroSalvo carteirinha unidade (length senhas), db')
      else (App.ErroAoSalvar, db').
Proof.
  intros (Hc & Hu & Hp). unfold App.adicionar_registro.
  apply truthy_true in Hc, Hu. cbv zeta. rewrite Hc, Hu. cbn [negb].
  replace (negb (User.is_admin current_user)
           && bool_decide (User.unidade current_user
                <> PyStr.strip (App.form_get (App.form_unidade form) ""))
           && bool_decide (User.unidade current_user <> "Ambas"))
    with false.
  2:{ destruct Hp as [Hp | [Hp | Hp]].
      - rewrite Hp. reflexivity.
      - rewrite (bool_decide_eq_false_2 _ (fun n => n Hp)).
        rewrite andb_false_r. reflexivity.
      - rewrite (bool_decide_eq_false_2 (_ <> "Ambas") (fun n => n Hp)).
        rewrite andb_false_r. reflexivity. }
  repeat case_bool_decide; try reflexivity.
  destruct (DatabaseManager.inserir_registro _ _ _ _ _ _ _) as [[] db'];
    reflexivity.
Qed.

Lemma inserir_registro_casos f now db carteirinha unidade senhas usuario_id :
  DatabaseManager.inserir_registro f now db carteirinha unidade senhas
    usuario_id = (false, db)
  \/ (carteirinha <> EmptyString /\ unidade <> EmptyString
      /\ (1 <= length senhas <= 5)%nat /\ usuario_id <> 0
      /\ DatabaseManager.inserir_registro f now db carteirinha unidade senhas
           usuario_id
         = (negb (f Confirmar),
            com_registro now db carteirinha unidade senhas usuario_id)).
Proof.
  unfold DatabaseManager.inserir_registro.
  destruct (PyStr.truthy carteirinha) eqn:Hc; [|left; reflexivity].
  destruct (PyStr.truthy unidade) eqn:Hu; [|left; reflexivity].
  cbn [negb orb].
  case_bool_decide as Hs; [left; reflexivity|].
  case_bool_decide as Hi; [left; reflexivity|].
  cbn [orb]. case_bool_decide as Hn; [left; reflexivity|].
  abrir_sessao.
  destruct (f Conectar); [left; reflexivity|].
  destruct (f Inserir); [left; reflexivity|].
  right. repeat split; try (apply truthy_true; assumption); try assumption.
  - destruct senhas; [congruence | simpl; lia].
  - lia.
  - destruct (f Confirmar); reflexivity.
Qed.

Lemma inserir_registro_sucesso f now db carteirinha unidade senhas usuario_id :
  f Conectar = false -> f Inserir = false -> f Confirmar = false ->
  carteirinha <> EmptyString -> unidade <> EmptyString ->
  (1 <= length senhas <= 5)%nat -> usuario_id <> 0 ->
  DatabaseManager.inserir_registro f now db carteirinha unidade senhas
    usuario_id
  = (true, com_registro now db carteirinha unidade senhas usuario_id).
Proof.
  intros H1 H2 H3 Hc Hu Hn Hi.
  unfold DatabaseManager.inserir_registro.
  apply truthy_true in Hc, Hu. rewrite Hc, Hu. cbn [negb orb].
  rewrite bool_decide_eq_false_2
    by (destruct senhas; [simpl in Hn; lia | congruence]).
  rewrite (bool_decide_eq_false_2 (usuario_id = 0)) by assumption.
  cbn [orb]. rewrite bool_decide_eq_false_2 by lia.
  abrir_sessao. rewrite H1, H2, H3. reflexivity.
Qed.

(** C2.  Record creation splits the raw password string on commas, trims
    each entry and drops the empty ones: the list is the filtered, trimmed
    image of the split, so order and duplicates are those of the input
    (entries joined with commas come back as they were, trimmed).  For a
    request that passes the card and unit checks, a list of 0 entries is
    answered with the message asking for at least one password, a list of
    more than 5 with the message on the maximum, both leaving the store
    as it was; a list of 1 to 5 entries goes to [inserir_registro] and is
    saved when the store works.  The input ["a, ,b"] gives [["a"; "b"]]. *)
Theorem C2_senhas_normalizadas f now db current_user form
    (entradas : list string) :
  passa_validacao_inicial current_user form ->
  Forall (fun s => PyStr.contains App.virgula s = false) entradas ->
  let carteirinha :=
    PyStr.strip (App.form_get (App.form_carteirinha form) "") in
  let unidade := PyStr.strip (App.form_get (App.form_unidade form) "") in
  let senhas_raw := App.form_get (App.form_senhas form) "" in
  let senhas := App.processar_senhas senhas_raw in
  let resposta := App.adicionar_registro f now db current_user form in
  senhas = filter (fun s => s <> EmptyString)
             (PyStr.strip <$> PyStr.split App.virgula senhas_raw)
  /\ App.processar_senhas (PyStr.join "," entradas)
     = filter (fun s => s <> EmptyString) (PyStr.strip <$> entradas)
  /\ (length senhas = 0%nat -> resposta = (App.PeloMenosUmaSenha, db))
  /\ ((5 < length senhas)%nat -> resposta = (App.MaximoSenhas, db))
  /\ ((1 <= length senhas <= 5)%nat ->
      (resposta.1 = App.RegistroSalvo carteirinha unidade (length senhas)
       \/ resposta.1 = App.ErroAoSalvar)
      /\ (f Conectar = false -> f Inserir = false -> f Confirmar = false ->
          User.id current_user <> 0 ->
          resposta
          = (App.RegistroSalvo carteirinha unidade (length senhas),
             com_registro now db carteirinha unidade senhas
               (User.id current_user))))
  /\ App.processar_senhas "a, ,b" = ["a"; "b"].
Proof.
  intros Hv Hent carteirinha unidade senhas_raw senhas resposta.
  assert (Hr := adicionar_registro_apos_validacao f now db _ _ Hv).
  cbv zeta in Hr. fold carteirinha unidade senhas_raw senhas resposta in Hr.
  split; [apply processar_senhas_filter|].
  split; [apply processar_senhas_join, Hent|].
  split; [|split; [|split; [|reflexivity]]].
  - intros H0. rewrite Hr.
    rewrite bool_decide_eq_false_2 by lia.
    rewrite bool_decide_eq_true_2 by assumption. reflexivity.
  - intros H5. rewrite Hr. rewrite bool_decide_eq_true_2 by assumption.
    reflexivity.
  - intros H15. rewrite Hr.
    rewrite bool_decide_eq_false_2 by lia.
    rewrite bool_decide_eq_false_2 by lia.
    split.
    + destruct (DatabaseManager.inserir_registro _ _ _ _ _ _ _) as [[] db'];
        [left | right]; reflexivity.
    + intros H1 H2 H3 Hid.
      destruct Hv as (Hc & Hu & _).
      rewrite inserir_registro_sucesso by assumption. reflexivity.
Qed.

(** *** Listing *)

Lemma decodificar_unidade row registro :
  DatabaseManager.decodificar row = Ok registro ->
  DatabaseManager.reg_unidade registro = r_unidade row
  /\ DatabaseManager.reg_id registro = r_id row.
Proof.
  unfold DatabaseManager.decodificar.
  destruct (json_loads (r_senhas row)) as [v|]; cbn; [|discriminate].
  destruct (py_len v); cbn; [|discriminate].
  intros [= <-]. split; reflexivity.
Qed.

Lemma decodificar_com_senhas row senhas :
  json_loads (r_senhas row) = Ok (JList (JStr <$> senhas)) ->
  DatabaseManager.decodificar row = Ok (registro_com_senhas row senhas).
Proof.
  intros E. unfold DatabaseManager.decodificar, registro_com_senhas.
  rewrite E. cbn. rewrite length_fmap. reflexivity.
Qed.


Lemma decodificado_Some row registro :
  decodificado row = Some registro
  <-> DatabaseManager.decodificar row = Ok registro.
Proof.
  unfold decodificado.
  destruct (DatabaseManager.decodificar row); split; congruence.
Qed.

Lemma lista_sem_erro_fatal row : lista_de_senhas row -> sem_erro_fatal row.
Proof.
  intros [senhas E] e He.
  rewrite (decodificar_com_senhas _ _ E) in He. discriminate.
Qed.


(** When the loop ends, it has appended the rows it decoded, in order. *)
Lemma laco_registros_Ok rows acumulados listados :
  DatabaseManager.laco_registros rows acumulados = Ok listados ->
  listados = acumulados ++ omap decodificado rows.
Proof.
  revert acumulados. induction rows as [|row rows IH]; intros acc.
  - cbn. intros [= <-]. rewrite app_nil_r. reflexivity.
  - cbn [DatabaseManager.laco_registros omap list_omap].
    unfold decodificado at 1.
    destruct (DatabaseManager.decodificar row) as [registro|e] eqn:E.
    + intros H. rewrite (IH _ H), <- app_assoc. reflexivity.
    + destruct (DatabaseManager.erro_de_decodificacao e);
        [apply IH | discriminate].
Qed.

(** The loop ends when no row raises past the inner [try]. *)
Lemma laco_registros_omap rows acumulados :
  Forall sem_erro_fatal rows ->
  DatabaseManager.laco_registros rows acumulados
  = Ok (acumulados ++ omap decodificado rows).
Proof.
  intros Hrows. revert acumulados.
  induction Hrows as [|row rows Hrow _ IH]; intros acc.
  - cbn. rewrite app_nil_r. reflexivity.
  - cbn [DatabaseManager.laco_registros omap list_omap].
    unfold decodificado at 1.
    destruct (DatabaseManager.decodificar row) as [registro|e] eqn:E.
    + rewrite IH, <- app_assoc. reflexivity.
    + rewrite (Hrow e E). apply IH.
Qed.


Lemma select_todos_linhas db row :
  row ∈ DatabaseManager.select_todos db <-> row ∈ registros db.
Proof.
  unfold DatabaseManager.select_todos.
  rewrite merge_sort_Permutation. reflexivity.
Qed.

Lemma select_por_unidade_linhas db unidade row :
  row ∈ DatabaseManager.select_por_unidade db unidade
  <-> r_unidade row = unidade /\ row ∈ registros db.
Proof.
  unfold DatabaseManager.select_por_unidade.
  rewrite merge_sort_Permutation.
  apply (list_elem_of_filter (fun r => r_unidade r = unidade)).
Qed.

Lemma obter_todos_registros_disponivel f db :
  consulta_disponivel f ->
  Forall sem_erro_fatal (registros db) ->
  DatabaseManager.obter_todos_registros f db
  = omap decodificado (DatabaseManager.select_todos db).
Proof.
  intros [H1 H2] Hrows.
  unfold DatabaseManager.obter_todos_registros,
    DatabaseManager.get_connection, executar.
  rewrite H1, H2. cbn. rewrite laco_registros_omap; [reflexivity|].
  apply Forall_forall. intros row Hrow%select_todos_linhas.
  exact (proj1 (Forall_forall _ _) Hrows row Hrow).
Qed.

Lemma obter_registros_por_unidade_disponivel f db unidade :
  consulta_disponivel f ->
  (forall row,
     row ∈ registros db -> r_unidade row = unidade -> sem_erro_fatal row) ->
  DatabaseManager.obter_registros_por_unidade f db unidade
  = omap decodificado (DatabaseManager.select_por_unidade db unidade).
Proof.
  intros [H1 H2] Hrows.
  unfold DatabaseManager.obter_registros_por_unidade,
    DatabaseManager.get_connection, executar.
  rewrite H1, H2. cbn. rewrite laco_registros_omap; [reflexivity|].
  apply Forall_forall. intros row [Hu Hrow]%select_por_unidade_linhas.
  apply Hrows; assumption.
Qed.



Lemma obter_registros_por_unidade_subconjunto f db unidade registro :
  registro ∈ DatabaseManager.obter_registros_por_unidade f db unidade ->
  exists row,
    row ∈ registros db /\ r_unidade row = unidade
    /\ DatabaseManager.decodificar row = Ok registro.
Proof.
  unfold DatabaseManager.obter_registros_por_unidade,
    DatabaseManager.get_connection, executar.
  destruct (f Conectar); cbn; [intros Hin; inversion Hin|].
  destruct (f Consultar); cbn; [intros Hin; inversion Hin|].
  destruct (DatabaseManager.laco_registros _ _) as [listados|e] eqn:E;
    cbn; [|intros Hin; inversion Hin].
  apply laco_registros_Ok in E as ->. cbn.
  intros (row & Hrow & Hdec)%list_elem_of_omap.
  apply select_por_unidade_linhas in Hrow as [Hu Hrow].
  exists row. repeat split; try assumption.
  apply decodificado_Some, Hdec.
Qed.

Lemma obter_todos_registros_subconjunto f db registro :
  registro ∈ DatabaseManager.obter_todos_registros f db ->
  exists row,
    row ∈ registros db /\ DatabaseManager.decodificar row = Ok registro.
Proof.
  unfold DatabaseManager.obter_todos_registros,
    DatabaseManager.get_connection, executar.
  destruct (f Conectar); cbn; [intros Hin; inversion Hin|].
  destruct (f Consultar); cbn; [intros Hin; inversion Hin|].
  destruct (DatabaseManager.laco_registros _ _) as [listados|e] eqn:E;
    cbn; [|intros Hin; inversion Hin].
  apply laco_registros_Ok in E as ->. cbn.
  intros (row & Hrow & Hdec)%list_elem_of_omap.
  apply select_todos_linhas in Hrow.
  exists row. split; [assumption | apply decodificado_Some, Hdec].
Qed.


(** *** Users *)

Lemma proximo_id_maior (ids : list Z) (x : Z) :
  x ∈ ids -> x < proximo_id ids.
Proof.
  unfold proximo_id. induction ids as [|y ids IH]; intros Hin.
  - inversion Hin.
  - apply elem_of_cons in Hin as [-> | Hin]; cbn; [lia|].
    specialize (IH Hin). lia.
Qed.

Lemma contagem_username db username :
  (0 < length (filter (fun r => u_username r = username) (usuarios db)))%nat
  <-> username ∈ u_username <$> usuarios db.
Proof.
  split.
  - intros Hlen.
    destruct (filter _ _) as [|r l] eqn:E; [cbn in Hlen; lia|].
    assert (Hr : r ∈ filter (fun r => u_username r = username) (usuarios db))
      by (rewrite E; left).
    apply list_elem_of_filter in Hr as [Hu Hr].
    apply list_elem_of_fmap. exists r. split; [congruence | assumption].
  - intros (r & -> & Hr)%list_elem_of_fmap.
    assert (Hf : r ∈ filter (fun r' => u_username r' = u_username r)
                       (usuarios db))
      by (apply list_elem_of_filter; split; [reflexivity | assumption]).
    destruct (filter _ _); [inversion Hf | cbn; lia].
Qed.

Lemma criar_usuario_existente f now db username password nome_completo
    unidade tipo_usuario :
  username ∈ u_username <$> usuarios db ->
  DatabaseManager.criar_usuario f now db username password nome_completo
    unidade tipo_usuario = (false, db).
Proof.
  intros Hin. apply contagem_username in Hin.
  unfold DatabaseManager.criar_usuario. abrir_sessao.
  destruct (f Conectar); [reflexivity|].
  destruct (f Consultar); [reflexivity|].
  rewrite (bool_decide_eq_true_2 _ Hin). reflexivity.
Qed.

Lemma criar_usuario_sucesso f now db username password nome_completo
    unidade tipo_usuario :
  gravacao_disponivel f ->
  username ∉ u_username <$> usuarios db ->
  DatabaseManager.criar_usuario f now db username password nome_completo
    unidade tipo_usuario
  = (true,
     com_usuario db
       (novo_usuario now db username password nome_completo unidade
          tipo_usuario)).
Proof.
  intros (H1 & H2 & H3 & H4) Hfresh.
  unfold DatabaseManager.criar_usuario, DatabaseManager.insert_usuario.
  abrir_sessao. rewrite H1, H2.
  rewrite bool_decide_eq_false_2
    by (intros Hc; apply Hfresh, contagem_username, Hc).
  rewrite H3, (bool_decide_eq_false_2 _ Hfresh), H4. reflexivity.
Qed.

Lemma app_criar_usuario_valido f now db current_user form :
  User.is_admin current_user = true ->
  campos_validos form ->
  App.criar_usuario f now db current_user (Some form)
  = let '(success, db') :=
      DatabaseManager.criar_usuario f now db (campo_username form)
        (campo_password form) (campo_nome_completo form)
        (campo_unidade form) (campo_tipo_usuario form) in
    if success then (App.UsuarioCriado (campo_username form), db')
    else (App.ErroAoCriarUsuario, db').
Proof.
  intros Hadm (Hu & Hp & Hn & Hun & Hlen).
  unfold App.criar_usuario. rewrite Hadm. cbn [negb].
  fold (campo_username form) (campo_password form)
    (campo_nome_completo form) (campo_unidade form)
    (campo_tipo_usuario form).
  cbv zeta. apply truthy_true in Hu, Hp, Hn, Hun.
  cbn [forallb]. rewrite Hu, Hp, Hn, Hun. cbn [andb negb].
  rewrite bool_decide_eq_false_2 by lia.
  destruct (DatabaseManager.criar_usuario _ _ _ _ _ _ _ _) as [[] db'];
    reflexivity.
Qed.


(** C9.  When the store already has a user named [username], creating a
    user with that name fails cleanly: [DatabaseManager.criar_usuario]
    returns [False] (it does not raise) and the store is the one it was
    given, whatever step of the session fails or not; the create-user
    handler posted with that name never answers that the user was created
    and leaves the store unchanged too. *)
Theorem C9_username_duplicado f now db username password nome_completo
    unidade tipo_usuario current_user form :
  username ∈ u_username <$> usuarios db ->
  campo_username form = username ->
  DatabaseManager.criar_usuario f now db username password nome_completo
    unidade tipo_usuario = (false, db)
  /\ (App.criar_usuario f now db current_user (Some form)).2 = db
  /\ (forall u,
        (App.criar_usuario f now db current_user (Some form)).1
        <> App.UsuarioCriado u).
Proof.
  intros Hin Hform. split; [apply criar_usuario_existente, Hin|].
  unfold App.criar_usuario.
  destruct (User.is_admin current_user); cbn [negb];
    [|split; [reflexivity | discriminate]].
  fold (campo_username form) (campo_password form)
    (campo_nome_completo form) (campo_unidade form)
    (campo_tipo_usuario form).
  cbv zeta.
  destruct (negb (forallb PyStr.truthy _));
    [split; [reflexivity | discriminate]|].
  case_bool_decide; [split; [reflexivity | discriminate]|].
  rewrite Hform, criar_usuario_existente by exact Hin.
  split; [reflexivity | discriminate].
Qed.


(** *** Export and statistics *)

Lemma sem_registros_da_unidade f db unidade :
  (forall row, row ∈ registros db -> r_unidade row <> unidade) ->
  DatabaseManager.obter_registros_por_unidade f db unidade = [].
Proof.
  intros Hnone.
  destruct (DatabaseManager.obter_registros_por_unidade f db unidade)
    as [|registro l] eqn:E; [reflexivity|].
  assert (Hin : registro
                ∈ DatabaseManager.obter_registros_por_unidade f db unidade)
    by (rewrite E; left).
  apply obter_registros_por_unidade_subconjunto in Hin
    as (row & Hrow & Hu & _).
  destruct (Hnone row Hrow Hu).
Qed.

(** C3.  The export does not give an operator of unit 'Ambas' the
    records of both units.  In a store whose records all belong to
    'Belo Horizonte' or 'Contagem', the export of a non-admin identity of
    unit 'Ambas' has no data row at all, with or without faults, while the
    records page of the same identity lists the result of
    [obter_todos_registros]: [exportar_dados] asks the store for the
    records whose unit is the text 'Ambas'. *)
Theorem C3_exportacao_de_ambas_vazia f db current_user args_unidade :
  User.is_admin current_user = false ->
  User.unidade current_user = "Ambas" ->
  Forall (fun row => r_unidade row = "Belo Horizonte"
                     \/ r_unidade row = "Contagem") (registros db) ->
  App.exportar_dados f db current_user = App.CsvExportado []
  /\ (args_unidade ∉ [Some "Belo Horizonte"; Some "Contagem"] ->
      App.visualizar_registros f db current_user args_unidade
      = App.PaginaRegistros (DatabaseManager.obter_todos_registros f db)
          (DatabaseManager.contar_registros_por_unidade f db)
          (App.form_get args_unidade "")).
Proof.
  intros Hadm Hun Hdb. split.
  - unfold App.exportar_dados. rewrite Hadm, Hun.
    rewrite sem_registros_da_unidade; [reflexivity|].
    intros row Hrow. rewrite Forall_forall in Hdb.
    destruct (Hdb row Hrow) as [-> | ->]; discriminate.
  - intros Hreq. unfold App.visualizar_registros.
    rewrite Hadm, Hun. cbn [negb andb].
    rewrite (bool_decide_eq_false_2 ("Ambas" <> "Ambas")) by tauto.
    cbv zeta.
    rewrite (bool_decide_eq_false_2
               (App.form_get args_unidade ""
                ∈ ["Belo Horizonte"; "Contagem"])).
    + rewrite andb_false_r. reflexivity.
    + intros Hin. apply Hreq.
      rewrite !elem_of_cons in Hin. rewrite !elem_of_cons.
      destruct args_unidade as [u|]; cbn in Hin.
      * destruct Hin as [-> | [-> | Hin]]; [tauto | tauto | inversion Hin].
      * destruct Hin as [Hin | [Hin | Hin]];
          [discriminate | discriminate | inversion Hin].
Qed.

Lemma select_contagem_largura db :
  Forall (fun row : list sqlval => length row = 2%nat)
    (DatabaseManager.select_contagem db).
Proof.
  unfold DatabaseManager.select_contagem.
  apply Forall_fmap, Forall_forall. intros u _. reflexivity.
Qed.

Lemma laco_contagem_largura_2 rows contagem :
  Forall (fun row : list sqlval => length row = 2%nat) rows ->
  DatabaseManager.laco_contagem rows contagem
  = match rows with
    | [] => Ok contagem
    | _ :: _ => Raise IndexError
    end.
Proof.
  intros Hrows. destruct rows as [|row rows]; [reflexivity|].
  inversion Hrows as [|? ? Hlen _]; subst.
  destruct row as [|a [|b [|c row]]]; try discriminate.
  reflexivity.
Qed.

(** C4.  [contar_registros_por_unidade] answers the empty dict for every
    store and every fault plan, so no unit present among the records is a
    key of the result.  Each row of the grouped query has the two cells
    [unidade] and [total], and the loop reads the key at position 2:
    [IndexError] at the first row, which the [except] turns into [{}]. *)
Theorem C4_contagem_sempre_vazia f db :
  DatabaseManager.contar_registros_por_unidade f db = ∅.
Proof.
  unfold DatabaseManager.contar_registros_por_unidade,
    DatabaseManager.get_connection, executar.
  destruct (f Conectar); [reflexivity|].
  destruct (f Consultar); [reflexivity|].
  cbn [mbind result_bind].
  rewrite laco_contagem_largura_2 by apply select_contagem_largura.
  destruct (DatabaseManager.select_contagem db); reflexivity.
Qed.

(** *** The invariant of stored records *)

Lemma adicionar_registro_casos f now db current_user form :
  let carteirinha :=
    PyStr.strip (App.form_get (App.form_carteirinha form) "") in
  let unidade := PyStr.strip (App.form_get (App.form_unidade form) "") in
  let senhas :=
    App.processar_senhas (App.form_get (App.form_senhas form) "") in
  (App.adicionar_registro f now db current_user form).2 = db
  \/ (passa_validacao_inicial current_user form
      /\ (1 <= length senhas <= 5)%nat
      /\ App.adicionar_registro f now db current_user form
         = (if f Confirmar then App.ErroAoSalvar
            else App.RegistroSalvo carteirinha unidade (length senhas),
            com_registro now db carteirinha unidade senhas
              (User.id current_user))).
Proof.
  intros carteirinha unidade senhas.
  destruct (decide (carteirinha = EmptyString)) as [Hc|Hc].
  { left. unfold App.adicionar_registro. fold carteirinha.
    rewrite Hc. reflexivity. }
  destruct (decide (unidade = EmptyString)) as [Hu|Hu].
  { left. unfold App.adicionar_registro. fold carteirinha unidade.
    apply truthy_true in Hc. cbv zeta. rewrite Hc, Hu. reflexivity. }
  destruct (User.is_admin current_user) eqn:Hadm.
  2: destruct (decide (User.unidade current_user = unidade)) as [Hown|Hown].
  3: destruct (decide (User.unidade current_user = "Ambas")) as [Hamb|Hamb].
  4:{ left. unfold App.adicionar_registro. fold carteirinha unidade.
      apply truthy_true in Hc, Hu. cbv zeta. rewrite Hc, Hu, Hadm.
      rewrite (bool_decide_eq_true_2 _ Hown), (bool_decide_eq_true_2 _ Hamb).
      reflexivity. }
  all: assert (Hv : passa_validacao_inicial current_user form)
         by (repeat split; auto).
  all: rewrite (adicionar_registro_apos_validacao _ _ _ _ _ Hv); cbv zeta;
       fold carteirinha unidade senhas.
  all: case_bool_decide as H5; [left; reflexivity|].
  all: case_bool_decide as H0; [left; reflexivity|].
  all: destruct (inserir_registro_casos f now db carteirinha unidade senhas
                   (User.id current_user)) as [E | (_ & _ & _ & _ & E)];
       rewrite E; [left; reflexivity | right].
  all: repeat split; auto; try lia.
  all: destruct (f Confirmar); reflexivity.
Qed.

Lemma com_registro_invariante now db carteirinha unidade senhas usuario_id :
  Forall invariante_armazenado (registros db) ->
  carteirinha <> EmptyString -> unidade <> EmptyString ->
  (1 <= length senhas <= 5)%nat ->
  Forall invariante_armazenado
    (registros (com_registro now db carteirinha unidade senhas usuario_id)).
Proof.
  intros Hinv Hc Hu Hlen. cbn [com_registro registros].
  apply Forall_app. split; [exact Hinv|].
  apply Forall_singleton. repeat split; cbn; auto.
  eexists; split; [reflexivity | exact Hlen].
Qed.

(** C5, as the code has it.  Every create operation, the handler
    [adicionar_registro] and the method [inserir_registro] alike, keeps
    the invariant that each stored record holds the serialisation of one
    to five passwords, with a card and a unit that are not empty.  The
    handler never touches the user table and adds at most one row, whose
    unit is the trimmed unit of the form; for a non-admin identity whose
    unit is not 'Ambas' that unit is the identity's own.  The unit is not
    compared with the two concrete units. *)
Theorem C5_invariante_armazenado f now db current_user form
    carteirinha unidade senhas usuario_id :
  Forall invariante_armazenado (registros db) ->
  let db' := (App.adicionar_registro f now db current_user form).2 in
  Forall invariante_armazenado (registros db')
  /\ Forall invariante_armazenado
       (registros
          (DatabaseManager.inserir_registro f now db carteirinha unidade
             senhas usuario_id).2)
  /\ usuarios db' = usuarios db
  /\ (registros db' = registros db
      \/ exists row,
           registros db' = registros db ++ [row]
           /\ r_unidade row
              = PyStr.strip (App.form_get (App.form_unidade form) "")
           /\ (User.is_admin current_user = false ->
               User.unidade current_user <> "Ambas" ->
               r_unidade row = User.unidade current_user)).
Proof.
  intros Hinv db'. split; [|split].
  - destruct (adicionar_registro_casos f now db current_user form)
      as [E | ((Hc & Hu & Hp) & Hlen & E)]; subst db'; rewrite E;
      [exact Hinv|].
    apply com_registro_invariante; assumption.
  - destruct (inserir_registro_casos f now db carteirinha unidade senhas
                usuario_id) as [E | (Hc & Hu & Hlen & _ & E)];
      rewrite E; [exact Hinv|].
    apply com_registro_invariante; assumption.
  - destruct (adicionar_registro_casos f now db current_user form)
      as [E | ((Hc & Hu & Hp) & Hlen & E)]; subst db'; rewrite E.
    + split; [reflexivity | left; reflexivity].
    + cbn [snd com_registro registros usuarios]. split; [reflexivity|].
      right. eexists. split; [reflexivity|]. cbn. split; [reflexivity|].
      intros Hadm Hamb.
      destruct Hp as [Hp | [Hp | Hp]]; congruence.
Qed.

(** *** Login *)

Lemma validar_login_casos f now db username password :
  DatabaseManager.validar_login f now db username password
  = if f Conectar || f Consultar then (None, db)
    else match DatabaseManager.select_usuario_ativo db username with
         | Some user =>
             if check_password_hash (u_password_hash user) password
             then if f Atualizar then (None, db)
                  else
                    (if f Confirmar then None
                     else Some {| DatabaseManager.du_id := u_id user;
                                  DatabaseManager.du_username :=
                                    u_username user;
                                  DatabaseManager.du_nome_completo :=
                                    u_nome_completo user;
                                  DatabaseManager.du_unidade :=
                                    u_unidade user;
                                  DatabaseManager.du_tipo_usuario :=
                                    u_tipo_usuario user |},
                     DatabaseManager.update_ultimo_login now (u_id user) db)
             else (None, db)
         | None => (None, db)
         end.
Proof.
  unfold DatabaseManager.validar_login. abrir_sessao.
  destruct (f Conectar); [reflexivity|].
  destruct (f Consultar); [reflexivity|]. cbn [orb].
  destruct (DatabaseManager.select_usuario_ativo db username) as [user|];
    [|reflexivity].
  destruct (check_password_hash _ _); [|reflexivity].
  destruct (f Atualizar); [reflexivity|].
  destruct (f Confirmar); reflexivity.
Qed.

(** C6, as the code has it.  For an active user with the right password
    and a store that answers the query, [validar_login] returns the
    identity, with the last login written, when the update of
    [ultimo_login] and its commit succeed.  When the update raises, it
    returns no identity and the store is as it was; when the update runs
    and the commit raises, it returns no identity and the store holds the
    new [ultimo_login], the connection writing each statement as it is
    executed.  The update and the commit run inside the [try] of the
    login, before the [return] of the identity. *)
Theorem C6_login_depende_do_update f now db username password user :
  DatabaseManager.select_usuario_ativo db username = Some user ->
  check_password_hash (u_password_hash user) password = true ->
  consulta_disponivel f ->
  (f Atualizar = false -> f Confirmar = false ->
   DatabaseManager.validar_login f now db username password
   = (Some {| DatabaseManager.du_id := u_id user;
              DatabaseManager.du_username := u_username user;
              DatabaseManager.du_nome_completo := u_nome_completo user;
              DatabaseManager.du_unidade := u_unidade user;
              DatabaseManager.du_tipo_usuario := u_tipo_usuario user |},
      DatabaseManager.update_ultimo_login now (u_id user) db))
  /\ (f Atualizar = true ->
      DatabaseManager.validar_login f now db username password = (None, db))
  /\ (f Atualizar = false -> f Confirmar = true ->
      DatabaseManager.validar_login f now db username password
      = (None, DatabaseManager.update_ultimo_login now (u_id user) db)).
Proof.
  intros Hsel Hpw [H1 H2]. rewrite validar_login_casos, H1, H2, Hsel, Hpw.
  cbn [orb]. split; [|split].
  - intros -> ->. reflexivity.
  - intros ->. reflexivity.
  - intros -> ->. reflexivity.
Qed.

Lemma NoDup_fmap_eq {A B} (g : A -> B) (l : list A) (x y : A) :
  NoDup (g <$> l) -> x ∈ l -> y ∈ l -> g x = g y -> x = y.
Proof.
  induction l as [|a l IH]; intros Hnd Hx Hy Hg; [inversion Hx|].
  cbn in Hnd. apply NoDup_cons in Hnd as [Hna Hnd].
  apply elem_of_cons in Hx as [-> | Hx], Hy as [-> | Hy].
  - reflexivity.
  - destruct Hna. rewrite Hg. apply list_elem_of_fmap_2, Hy.
  - destruct Hna. rewrite <- Hg. apply list_elem_of_fmap_2, Hx.
  - apply IH; assumption.
Qed.

Lemma criar_usuario_casos f now db username password nome_completo unidade
    tipo_usuario :
  DatabaseManager.criar_usuario f now db username password nome_completo
    unidade tipo_usuario = (false, db)
  \/ ((username ∉ u_username <$> usuarios db)
      /\ DatabaseManager.criar_usuario f now db username password
           nome_completo unidade tipo_usuario
         = (negb (f Confirmar),
            com_usuario db
              (novo_usuario now db username password nome_completo unidade
                 tipo_usuario))).
Proof.
  unfold DatabaseManager.criar_usuario, DatabaseManager.insert_usuario.
  abrir_sessao.
  destruct (f Conectar); [left; reflexivity|].
  destruct (f Consultar); [left; reflexivity|].
  case_bool_decide; [left; reflexivity|].
  destruct (f Inserir); [left; reflexivity|].
  case_bool_decide as Hfresh; [left; reflexivity|].
  right. split; [exact Hfresh|].
  destruct (f Confirmar); reflexivity.
Qed.

(** The [UNIQUE] constraint on [username] is an invariant of the store:
    [criar_usuario] keeps user names distinct. *)
Lemma criar_usuario_preserva_unicidade f now db username password
    nome_completo unidade tipo_usuario :
  NoDup (u_username <$> usuarios db) ->
  NoDup (u_username <$>
         usuarios (DatabaseManager.criar_usuario f now db username password
                     nome_completo unidade tipo_usuario).2).
Proof.
  intros Hnd.
  destruct (criar_usuario_casos f now db username password nome_completo
              unidade tipo_usuario) as [E | [Hin E]]; rewrite E;
    [exact Hnd|].
  cbn [snd com_usuario usuarios].
  rewrite fmap_app. apply NoDup_app. split; [exact Hnd|]. split.
  - intros x Hx Hx'. apply list_elem_of_singleton in Hx'. cbn in Hx'.
    subst x. exact (Hin Hx).
  - apply NoDup_singleton.
Qed.

(** C8.  In a store where user names are unique, authentication against
    an account whose [ativo] is 0 returns no identity and leaves the store
    as it was, for every password, in particular one that matches the
    stored hash, and under every fault plan. *)
Theorem C8_conta_desativada f now db user password :
  NoDup (u_username <$> usuarios db) ->
  user ∈ usuarios db ->
  u_ativo user = 0 ->
  DatabaseManager.validar_login f now db (u_username user) password
  = (None, db).
Proof.
  intros Hnd Hin Hativo. rewrite validar_login_casos.
  destruct (f Conectar || f Consultar); [reflexivity|].
  destruct (DatabaseManager.select_usuario_ativo db (u_username user))
    as [r|] eqn:E; [|reflexivity].
  exfalso. unfold DatabaseManager.select_usuario_ativo in E.
  apply head_Some_elem_of, list_elem_of_filter in E as [[Hu Ha] Hr].
  assert (r = user) by (eapply NoDup_fmap_eq; eauto).
  subst r. lia.
Qed.

(** *** Undecodable rows *)


Lemma decodificar_lista row :
  lista_de_senhas row ->
  exists registro senhas,
    DatabaseManager.decodificar row = Ok registro
    /\ DatabaseManager.reg_senhas registro = JList (JStr <$> senhas)
    /\ DatabaseManager.reg_id registro = r_id row.
Proof.
  intros [senhas Hs]. unfold DatabaseManager.decodificar. rewrite Hs. cbn.
  eexists _, senhas. repeat split.
Qed.



Lemma omap_cons_Some {A B} (g : A -> option B) x y l :
  g x = Some y -> omap g (x :: l) = y :: omap g l.
Proof. intros E. cbn. rewrite E. reflexivity. Qed.


Lemma omap_decodificado_bons (rows : list linha_registro) :
  Forall lista_de_senhas rows ->
  Ok <$> omap decodificado rows = DatabaseManager.decodificar <$> rows
  /\ DatabaseManager.reg_id <$> omap decodificado rows = r_id <$> rows
  /\ Forall (fun registro =>
               exists senhas,
                 DatabaseManager.reg_senhas registro
                 = JList (JStr <$> senhas))
       (omap decodificado rows).
Proof.
  induction 1 as [|row l Hrow _ (IH1 & IH2 & IH3)].
  { split; [reflexivity | split; [reflexivity | constructor]]. }
  destruct (decodificar_lista _ Hrow) as (registro & senhas & Hd & Hs & Hi).
  rewrite (omap_cons_Some decodificado row registro)
    by (apply decodificado_Some, Hd).
  rewrite !fmap_cons, Hd, Hi, IH1, IH2.
  split; [reflexivity | split; [reflexivity|]].
  constructor; [eexists; exact Hs | exact IH3].
Qed.







End Propriedades.

(** ** Further properties of the code *)

(** *** The password normaliser *)

Lemma rstrip_cabeca (c : ascii) (t : string) :
  PyStr.isspace c = false ->
  PyStr.rstrip (String c t) = String c (PyStr.rstrip t).
Proof.
  intros Hc. cbn [PyStr.rstrip]. rewrite Hc.
  destruct (PyStr.rstrip t); reflexivity.
Qed.

Lemma rstrip_idempotente (s : string) :
  PyStr.rstrip (PyStr.rstrip s) = PyStr.rstrip s.
Proof.
  induction s as [|c s IH]; [reflexivity|].
  cbn [PyStr.rstrip].
  destruct (PyStr.rstrip s) as [|d r] eqn:E.
  - destruct (PyStr.isspace c) eqn:Hc; [reflexivity|].
    cbn [PyStr.rstrip]. rewrite Hc. reflexivity.
  - cbn [PyStr.rstrip]. cbn [PyStr.rstrip] in IH.
    destruct (match PyStr.rstrip r with
              | EmptyString =>
                  if PyStr.isspace d then EmptyString
                  else String d EmptyString
              | String a s0 => String d (String a s0)
              end) eqn:E'; [discriminate IH|].
    rewrite IH. reflexivity.
Qed.

Lemma lstrip_cabeca (s : string) c t :
  PyStr.lstrip s = String c t -> PyStr.isspace c = false.
Proof.
  induction s as [|d s IH]; [discriminate|].
  cbn [PyStr.lstrip]. destruct (PyStr.isspace d) eqn:Hd; [exact IH|].
  intros [= <- <-]. exact Hd.
Qed.

Lemma strip_idempotente (s : string) :
  PyStr.strip (PyStr.strip s) = PyStr.strip s.
Proof.
  unfold PyStr.strip.
  destruct (PyStr.lstrip s) as [|c t] eqn:E; [reflexivity|].
  assert (Hc := lstrip_cabeca _ _ _ E).
  rewrite (rstrip_cabeca _ _ Hc). cbn [PyStr.lstrip]. rewrite Hc.
  rewrite (rstrip_cabeca _ _ Hc), rstrip_idempotente. reflexivity.
Qed.

Lemma contains_lstrip c (s : string) :
  PyStr.contains c s = false -> PyStr.contains c (PyStr.lstrip s) = false.
Proof.
  induction s as [|d s IH]; [reflexivity|].
  intros Hs. cbn [PyStr.lstrip]. destruct (PyStr.isspace d); [|exact Hs].
  apply IH. cbn in Hs. apply orb_false_iff in Hs as [_ Hs]. exact Hs.
Qed.

Lemma contains_rstrip c (s : string) :
  PyStr.contains c s = false -> PyStr.contains c (PyStr.rstrip s) = false.
Proof.
  induction s as [|d s IH]; [reflexivity|].
  intros Hs. cbn in Hs. apply orb_false_iff in Hs as [Hd Hs].
  specialize (IH Hs). cbn [PyStr.rstrip].
  destruct (PyStr.rstrip s) as [|e r].
  - destruct (PyStr.isspace d); [reflexivity|]. cbn. rewrite Hd. reflexivity.
  - cbn [PyStr.contains]. rewrite Hd. exact IH.
Qed.

Lemma contains_strip c (s : string) :
  PyStr.contains c s = false -> PyStr.contains c (PyStr.strip s) = false.
Proof. intros Hs. apply contains_rstrip, contains_lstrip, Hs. Qed.

Lemma split_sem_separador_nas_partes (sep : ascii) (s : string) :
  Forall (fun w => PyStr.contains sep w = false) (PyStr.split sep s).
Proof.
  induction s as [|c s IH]; [repeat constructor|].
  cbn [PyStr.split]. destruct (Ascii.eqb c sep) eqn:Hc.
  - constructor; [reflexivity | exact IH].
  - destruct (PyStr.split sep s) as [|w ws].
    + constructor; [|constructor]. cbn. rewrite Hc. reflexivity.
    + inversion IH as [|? ? Hw Hws]; subst.
      constructor; [|exact Hws]. cbn. rewrite Hc. exact Hw.
Qed.

(** X1.  Every entry of the list built from the raw password string is
    normalised: it is not empty, holds no comma, and has no white space
    at either end. *)
Theorem X1_entradas_normalizadas (senhas_raw : string) :
  Forall entrada_normalizada (App.processar_senhas senhas_raw).
Proof.
  rewrite processar_senhas_filter. apply Forall_forall.
  intros s [Hne (w & -> & Hw)%list_elem_of_fmap]%list_elem_of_filter.
  pose proof (split_sem_separador_nas_partes App.virgula senhas_raw) as Hsp.
  rewrite Forall_forall in Hsp.
  split; [exact Hne|].
  split; [apply contains_strip, Hsp, Hw | apply strip_idempotente].
Qed.

Lemma processar_senhas_normalizadas (l : list string) :
  Forall entrada_normalizada l ->
  App.processar_senhas (PyStr.join "," l) = l.
Proof.
  intros Hl. rewrite processar_senhas_join.
  - induction Hl as [|s l (Hne & _ & Hst) _ IH]; [reflexivity|].
    rewrite fmap_cons, Hst, filter_cons_True by exact Hne.
    f_equal. exact IH.
  - eapply Forall_impl; [exact Hl|]. intros s (_ & Hc & _). exact Hc.
Qed.

(** X2.  Normalising is idempotent through the form encoding: the entries
    of a normalised list, joined again with commas and submitted, give the
    same list. *)
Theorem X2_normalizacao_idempotente (senhas_raw : string) :
  App.processar_senhas
    (PyStr.join "," (App.processar_senhas senhas_raw))
  = App.processar_senhas senhas_raw.
Proof.
  apply processar_senhas_normalizadas.
  rewrite processar_senhas_filter. apply Forall_forall.
  intros s [Hne (w & -> & Hw)%list_elem_of_fmap]%list_elem_of_filter.
  pose proof (split_sem_separador_nas_partes App.virgula senhas_raw) as Hsp.
  rewrite Forall_forall in Hsp.
  split; [exact Hne|].
  split; [apply contains_strip, Hsp, Hw | apply strip_idempotente].
Qed.

Section Extensoes.
Context `{plataforma : Plataforma}.

(** *** Lookup by key *)

Lemma head_filter_chave {A B} `{EqDecision B} (g : A -> B) (l : list A)
    (x : A) :
  NoDup (g <$> l) -> x ∈ l ->
  head (filter (fun y => g y = g x) l) = Some x.
Proof.
  induction l as [|a l IH]; intros Hnd Hx; [inversion Hx|].
  rewrite filter_cons. case_decide as Ha.
  - cbn. f_equal. eapply NoDup_fmap_eq; eauto. left.
  - apply elem_of_cons in Hx as [-> | Hx]; [congruence|].
    cbn in Hnd. apply NoDup_cons in Hnd as [_ Hnd]. apply IH; assumption.
Qed.

Lemma filter_chave_nova {A} (g : A -> Z) (l : list A) (k : Z) :
  (forall x, x ∈ l -> g x < k) -> filter (fun y => g y = k) l = [].
Proof.
  intros Hlt. induction l as [|a l IH]; [reflexivity|].
  rewrite filter_cons_False.
  - apply IH. intros x Hx. apply Hlt. right. exact Hx.
  - intros E. specialize (Hlt a ltac:(left)). lia.
Qed.

Lemma ids_abaixo_do_proximo {A} (g : A -> Z) (l : list A) (x : A) :
  x ∈ l -> g x < proximo_id (g <$> l).
Proof. intros Hx. apply proximo_id_maior, list_elem_of_fmap_2, Hx. Qed.

Lemma obter_registro_por_id_disponivel f db registro_id :
  consulta_disponivel f ->
  DatabaseManager.obter_registro_por_id f db registro_id
  = match head (filter (fun r => r_id r = registro_id) (registros db)) with
    | Some row => decodificado row
    | None => None
    end.
Proof.
  intros [H1 H2].
  unfold DatabaseManager.obter_registro_por_id,
    DatabaseManager.get_connection, executar.
  rewrite H1, H2. cbn [mbind result_bind].
  destruct (head _) as [row|]; [|reflexivity].
  unfold decodificado. destruct (DatabaseManager.decodificar row);
    reflexivity.
Qed.

Lemma na_listagem f db row registro :
  consulta_disponivel f ->
  Forall sem_erro_fatal (registros db) ->
  row ∈ registros db ->
  DatabaseManager.decodificar row = Ok registro ->
  registro ∈ DatabaseManager.obter_todos_registros f db.
Proof.
  intros Hdisp Hrows Hrow Hdec.
  rewrite obter_todos_registros_disponivel by assumption.
  apply list_elem_of_omap. exists row.
  split; [apply select_todos_linhas, Hrow | apply decodificado_Some, Hdec].
Qed.

(** X3.  When the store can be queried and record ids are distinct, the
    lookup by id returns every record of the bulk listing; and when,
    besides, no stored row makes the decoding raise outside the classes
    that the listing loop catches, the listing holds every record that
    the lookup returns, so that the two agree. *)
Theorem X3_listagem_e_busca_por_id f db registro :
  consulta_disponivel f ->
  NoDup (r_id <$> registros db) ->
  (registro ∈ DatabaseManager.obter_todos_registros f db ->
   DatabaseManager.obter_registro_por_id f db
     (DatabaseManager.reg_id registro) = Some registro)
  /\ (Forall sem_erro_fatal (registros db) ->
      DatabaseManager.obter_registro_por_id f db
        (DatabaseManager.reg_id registro) = Some registro ->
      registro ∈ DatabaseManager.obter_todos_registros f db).
Proof.
  intros Hdisp Hnd.
  rewrite obter_registro_por_id_disponivel by assumption. split.
  - intros (row & Hrow & Hdec)%obter_todos_registros_subconjunto.
    destruct (decodificar_unidade _ _ Hdec) as [_ ->].
    rewrite (head_filter_chave r_id) by assumption.
    apply decodificado_Some, Hdec.
  - intros Hrows.
    destruct (head _) as [row|] eqn:E; [|discriminate].
    intros Hdec%decodificado_Some.
    apply head_Some_elem_of, list_elem_of_filter in E as [_ Hrow].
    eapply na_listagem; eauto.
Qed.

Lemma inserir_registro_verdadeiro f now db carteirinha unidade senhas
    usuario_id db' :
  DatabaseManager.inserir_registro f now db carteirinha unidade senhas
    usuario_id = (true, db') ->
  db' = com_registro now db carteirinha unidade senhas usuario_id
  /\ carteirinha <> EmptyString /\ unidade <> EmptyString
  /\ (1 <= length senhas <= 5)%nat /\ usuario_id <> 0.
Proof.
  intros E.
  destruct (inserir_registro_casos f now db carteirinha unidade senhas
              usuario_id) as [E' | (Hc & Hu & Hl & Hi & E')];
    rewrite E' in E; [discriminate|].
  injection E as _ <-. auto.
Qed.

(** X4.  Insert and lookup round trip: after [inserir_registro] has
    answered [True], the lookup of the new id on a store that can be
    queried returns the record with the card, unit and owner that were
    given and the passwords in the order given, provided the JSON codec
    reads back what it wrote for that list. *)
Theorem X4_inserir_e_buscar f f' now db carteirinha unidade senhas
    usuario_id db' :
  DatabaseManager.inserir_registro f now db carteirinha unidade senhas
    usuario_id = (true, db') ->
  json_loads (json_dumps senhas) = Ok (JList (JStr <$> senhas)) ->
  consulta_disponivel f' ->
  DatabaseManager.obter_registro_por_id f' db'
    (proximo_id (r_id <$> registros db))
  = Some (registro_com_senhas
            (novo_registro now db carteirinha unidade senhas usuario_id)
            senhas).
Proof.
  intros (-> & _)%inserir_registro_verdadeiro Hcodec Hdisp.
  rewrite obter_registro_por_id_disponivel by assumption.
  cbn [com_registro registros]. rewrite filter_app.
  rewrite (filter_chave_nova r_id)
    by (intros x Hx; apply ids_abaixo_do_proximo, Hx).
  rewrite filter_cons_True by reflexivity. cbn [app head].
  apply decodificado_Some.
  apply (decodificar_com_senhas
           (novo_registro now db carteirinha unidade senhas usuario_id)).
  exact Hcodec.
Qed.

(** X5.  Inserting a record of one unit leaves the listing of every other
    unit, and the user table, as they were, whether the insertion
    succeeds or not. *)
Theorem X5_insercao_nao_afeta_outras_unidades f f' now db carteirinha
    unidade senhas usuario_id outra :
  outra <> unidade ->
  let db' :=
    (DatabaseManager.inserir_registro f now db carteirinha unidade senhas
       usuario_id).2 in
  DatabaseManager.obter_registros_por_unidade f' db' outra
  = DatabaseManager.obter_registros_por_unidade f' db outra
  /\ usuarios db' = usuarios db.
Proof.
  intros Hne db'. subst db'.
  destruct (inserir_registro_casos f now db carteirinha unidade senhas
              usuario_id) as [E | (_ & _ & _ & _ & E)]; rewrite E;
    [split; reflexivity|].
  split; [|reflexivity].
  unfold DatabaseManager.obter_registros_por_unidade,
    DatabaseManager.select_por_unidade.
  cbn [snd com_registro registros]. rewrite filter_app.
  rewrite (filter_cons_False _ _ []) by (cbn; congruence).
  rewrite filter_nil, app_nil_r. reflexivity.
Qed.

(** *** Counting *)

Lemma length_omap_le {A B} (g : A -> option B) (l : list A) :
  (length (omap g l) <= length l)%nat.
Proof.
  induction l as [|x l IH]; [reflexivity|].
  cbn. destruct (g x); cbn; lia.
Qed.

Lemma contar_registros_casos f db :
  DatabaseManager.contar_registros f db
  = if f Conectar || f Consultar then 0
    else Z.of_nat (length (registros db)).
Proof.
  unfold DatabaseManager.contar_registros, DatabaseManager.get_connection,
    executar.
  destruct (f Conectar); [reflexivity|].
  destruct (f Consultar); reflexivity.
Qed.

Lemma obter_todos_registros_comprimento f db :
  (length (DatabaseManager.obter_todos_registros f db)
   <= length (registros db))%nat.
Proof.
  unfold DatabaseManager.obter_todos_registros,
    DatabaseManager.get_connection, executar.
  destruct (f Conectar); cbn; [lia|].
  destruct (f Consultar); cbn; [lia|].
  destruct (DatabaseManager.laco_registros _ _) as [listados|e] eqn:E;
    cbn; [|lia].
  apply laco_registros_Ok in E as ->. cbn.
  pose proof (length_omap_le decodificado
                (DatabaseManager.select_todos db)) as Hle.
  unfold DatabaseManager.select_todos in Hle at 2.
  rewrite merge_sort_Permutation in Hle. exact Hle.
Qed.

(** X6.  The count and the listing are two requests, each with its own
    faults.  When the request of [contar_registros] can query the store,
    its total is the number of stored rows and is never below the number
    of records that the bulk listing returns, whatever happens in the
    request of the listing: the count includes the rows that the listing
    skips.  The two numbers are equal when the listing can query the
    store too and every row holds a list of strings. *)
Theorem X6_total_e_listagem f f' db :
  consulta_disponivel f' ->
  DatabaseManager.contar_registros f' db = Z.of_nat (length (registros db))
  /\ Z.of_nat (length (DatabaseManager.obter_todos_registros f db))
     <= DatabaseManager.contar_registros f' db
  /\ (consulta_disponivel f ->
      Forall lista_de_senhas (registros db) ->
      Z.of_nat (length (DatabaseManager.obter_todos_registros f db))
      = DatabaseManager.contar_registros f' db).
Proof.
  intros [H1 H2]. rewrite contar_registros_casos, H1, H2. cbn [orb].
  split; [reflexivity|]. split.
  - pose proof (obter_todos_registros_comprimento f db). lia.
  - intros Hdisp Hbons.
    assert (Hrows : Forall sem_erro_fatal (registros db))
      by (eapply Forall_impl; [exact Hbons | exact lista_sem_erro_fatal]).
    rewrite obter_todos_registros_disponivel by assumption.
    assert (Hs : Forall lista_de_senhas (DatabaseManager.select_todos db))
      by (unfold DatabaseManager.select_todos;
          rewrite merge_sort_Permutation; exact Hbons).
    destruct (omap_decodificado_bons _ Hs) as (E & _ & _).
    apply (f_equal length) in E. rewrite !length_fmap in E. rewrite E.
    unfold DatabaseManager.select_todos. rewrite merge_sort_Permutation.
    reflexivity.
Qed.

(** *** Bootstrap *)

Lemma filter_vazio {A} (P : A -> Prop) `{!forall x, Decision (P x)}
    (l : list A) :
  length (filter P l) = 0%nat <-> forall x, x ∈ l -> ~ P x.
Proof.
  split.
  - intros Hlen x Hx HP.
    assert (Hin : x ∈ filter P l)
      by (apply list_elem_of_filter; split; assumption).
    destruct (filter P l); [inversion Hin | discriminate].
  - intros Hnone.
    destruct (filter P l) as [|r k] eqn:E; [reflexivity|].
    assert (Hin : r ∈ filter P l) by (rewrite E; left).
    apply list_elem_of_filter in Hin as [HP Hr].
    destruct (Hnone r Hr HP).
Qed.

Lemma inicializar_banco_com_admin f criar_tabelas_falha now db :
  (exists row, row ∈ usuarios db /\ u_tipo_usuario row = "admin") ->
  (DatabaseManager.inicializar_banco f criar_tabelas_falha now db).2 = db.
Proof.
  intros (row & Hrow & Hadm).
  unfold DatabaseManager.inicializar_banco. abrir_sessao.
  destruct (f Conectar); [reflexivity|].
  destruct criar_tabelas_falha; [reflexivity|].
  destruct (f Consultar); [reflexivity|].
  rewrite bool_decide_eq_false_2.
  - destruct (f Confirmar); reflexivity.
  - intros E.
    exact (proj1 (filter_vazio (fun r => u_tipo_usuario r = "admin")
                    (usuarios db)) E row Hrow Hadm).
Qed.

Lemma inicializar_banco_casos f criar_tabelas_falha now db :
  DatabaseManager.inicializar_banco f criar_tabelas_falha now db
  = (false, db)
  \/ ((exists row, row ∈ usuarios db /\ u_tipo_usuario row = "admin")
      /\ DatabaseManager.inicializar_banco f criar_tabelas_falha now db
         = (true, db))
  \/ ((forall row, row ∈ usuarios db -> u_tipo_usuario row <> "admin")
      /\ ("admin" ∉ u_username <$> usuarios db)
      /\ DatabaseManager.inicializar_banco f criar_tabelas_falha now db
         = (negb (f Confirmar), com_usuario db (admin_padrao now db))).
Proof.
  unfold DatabaseManager.inicializar_banco, DatabaseManager.insert_usuario.
  abrir_sessao.
  destruct (f Conectar); [left; reflexivity|].
  destruct criar_tabelas_falha; [left; reflexivity|].
  destruct (f Consultar); [left; reflexivity|].
  case_bool_decide as Hcount.
  - pose proof (proj1 (filter_vazio (fun r => u_tipo_usuario r = "admin")
                          (usuarios db)) Hcount) as Hnone.
    clear Hcount. rename Hnone into Hcount.
    destruct (f Inserir); [left; reflexivity|].
    case_bool_decide as Hname; [left; reflexivity|].
    right. right. split; [assumption|]. split; [assumption|].
    destruct (f Confirmar); reflexivity.
  - destruct (f Confirmar); [left; reflexivity|].
    right. left. split; [|reflexivity].
    destruct (filter (fun r => u_tipo_usuario r = "admin") (usuarios db))
      as [|r l] eqn:E; [destruct Hcount; reflexivity|].
    assert (Hin : r ∈ filter (fun r => u_tipo_usuario r = "admin")
                        (usuarios db))
      by (rewrite E; left).
    apply list_elem_of_filter in Hin as [Hadm Hr]. eauto.
Qed.

(** X7.  When [inicializar_banco] answers [True], the store has an
    administrator afterwards, its records are untouched, and the user
    table is either the one it was given (an administrator was there) or
    that table followed by the default administrator 'admin' of unit
    'Ambas'. *)
Theorem X7_inicializacao_garante_admin f criar_tabelas_falha now db db' :
  DatabaseManager.inicializar_banco f criar_tabelas_falha now db
  = (true, db') ->
  (exists row, row ∈ usuarios db' /\ u_tipo_usuario row = "admin")
  /\ registros db' = registros db
  /\ (db' = db \/ db' = com_usuario db (admin_padrao now db)).
Proof.
  intros E.
  destruct (inicializar_banco_casos f criar_tabelas_falha now db)
    as [E' | [(Hadm & E') | (_ & _ & E')]]; rewrite E' in E;
    [discriminate | injection E as <- | injection E as _ <-].
  - repeat split; auto.
  - split; [|split; [reflexivity | right; reflexivity]].
    exists (admin_padrao now db). split; [|reflexivity].
    cbn [com_usuario usuarios]. apply elem_of_app. right. left.
Qed.

(** X8.  Once [inicializar_banco] has answered [True], every later
    initialisation, under any fault plan and at any time, leaves the
    store as it is: the default administrator is never seeded twice. *)
Theorem X8_inicializacao_idempotente f criar_tabelas_falha now db db'
    f' criar_tabelas_falha' now' :
  DatabaseManager.inicializar_banco f criar_tabelas_falha now db
  = (true, db') ->
  (DatabaseManager.inicializar_banco f' criar_tabelas_falha' now' db').2
  = db'.
Proof.
  intros E. apply inicializar_banco_com_admin.
  destruct (inicializar_banco_casos f criar_tabelas_falha now db)
    as [E' | [(Hadm & E') | (_ & _ & E')]]; rewrite E' in E;
    [discriminate | injection E as <- | injection E as _ <-].
  - exact Hadm.
  - exists (admin_padrao now db). split; [|reflexivity].
    cbn [com_usuario usuarios]. apply elem_of_app. right. left.
Qed.

(** X9.  When no user has the type 'admin' but the name 'admin' is taken,
    [inicializar_banco] answers [False] and leaves the store unchanged
    under every fault plan: the insertion of the default administrator
    meets the [UNIQUE] constraint on the user name. *)
Theorem X9_inicializacao_com_nome_ocupado f criar_tabelas_falha now db :
  (forall row, row ∈ usuarios db -> u_tipo_usuario row <> "admin") ->
  "admin" ∈ u_username <$> usuarios db ->
  DatabaseManager.inicializar_banco f criar_tabelas_falha now db
  = (false, db).
Proof.
  intros Hnone Hname.
  destruct (inicializar_banco_casos f criar_tabelas_falha now db)
    as [E | [((row & Hrow & Hadm) & _) | (_ & Hfresh & _)]];
    [exact E | destruct (Hnone row Hrow Hadm) | destruct (Hfresh Hname)].
Qed.

(** *** Login and the session *)

Lemma update_ultimo_login_usuarios now id db :
  usuarios (DatabaseManager.update_ultimo_login now id db)
  = marcar_login now id <$> usuarios db.
Proof. reflexivity. Qed.

Lemma marcar_login_campos now id row :
  u_id (marcar_login now id row) = u_id row
  /\ u_username (marcar_login now id row) = u_username row
  /\ sem_ultimo_login (marcar_login now id row) = sem_ultimo_login row
  /\ identidade (marcar_login now id row) = identidade row.
Proof. unfold marcar_login. case_bool_decide; repeat split. Qed.

Lemma head_filter_fmap_chave {A} (chave : A -> Z) (g : A -> A) (k : Z)
    (l : list A) :
  (forall x, chave (g x) = chave x) ->
  head (filter (fun y => chave y = k) (g <$> l))
  = g <$> head (filter (fun y => chave y = k) l).
Proof.
  intros Hg. induction l as [|a l IH]; [reflexivity|].
  rewrite fmap_cons, !filter_cons, Hg.
  case_decide; [reflexivity | exact IH].
Qed.

Lemma load_user_disponivel f db user_id :
  consulta_disponivel f ->
  App.load_user f db user_id
  = identidade <$> head (filter (fun r => u_id r = user_id) (usuarios db)).
Proof.
  intros [H1 H2].
  unfold App.load_user, DatabaseManager.obter_usuario_por_id,
    DatabaseManager.get_connection, executar.
  rewrite H1, H2. cbn [mbind result_bind try_except].
  destruct (head _); reflexivity.
Qed.

Lemma validar_login_sucesso f now db username password dados db' :
  DatabaseManager.validar_login f now db username password
  = (Some dados, db') ->
  exists row,
    DatabaseManager.select_usuario_ativo db username = Some row
    /\ check_password_hash (u_password_hash row) password = true
    /\ dados = dados_da_linha row
    /\ db' = DatabaseManager.update_ultimo_login now (u_id row) db.
Proof.
  rewrite validar_login_casos.
  destruct (f Conectar || f Consultar); [discriminate|].
  destruct (DatabaseManager.select_usuario_ativo db username) as [row|];
    [|discriminate].
  destruct (check_password_hash _ _) eqn:Hpw; [|discriminate].
  destruct (f Atualizar); [discriminate|].
  destruct (f Confirmar); [discriminate|].
  intros [= <- <-]. exists row. repeat split; auto.
Qed.

(** X12.  The session does not look at the active flag: when user ids are
    distinct and the store can be queried, [load_user] returns the
    identity of every stored user, whatever its [ativo] is, so an account
    deactivated after its login keeps its session. *)
Theorem X12_sessao_ignora_ativo f db row :
  NoDup (u_id <$> usuarios db) ->
  row ∈ usuarios db ->
  consulta_disponivel f ->
  App.load_user f db (u_id row) = Some (identidade row).
Proof.
  intros Hnd Hrow Hdisp. rewrite load_user_disponivel by assumption.
  rewrite (head_filter_chave u_id) by assumption. reflexivity.
Qed.

(** X13.  Login and session agree: when user ids are distinct, the
    identity that [validar_login] returns is the one [load_user] finds
    under its id in the store that the login leaves. *)
Theorem X13_login_e_sessao f f' now db username password dados db' :
  NoDup (u_id <$> usuarios db) ->
  DatabaseManager.validar_login f now db username password
  = (Some dados, db') ->
  consulta_disponivel f' ->
  App.load_user f' db' (DatabaseManager.du_id dados)
  = Some (User.init dados).
Proof.
  intros Hnd (row & Hsel & _ & -> & ->)%validar_login_sucesso Hdisp.
  rewrite load_user_disponivel by assumption.
  rewrite update_ultimo_login_usuarios.
  rewrite (head_filter_fmap_chave u_id)
    by (intros x; apply marcar_login_campos).
  unfold DatabaseManager.select_usuario_ativo in Hsel.
  apply head_Some_elem_of, list_elem_of_filter in Hsel as [_ Hrow].
  cbn [dados_da_linha DatabaseManager.du_id].
  rewrite (head_filter_chave u_id) by assumption.
  cbn [fmap option_fmap option_map]. f_equal.
  destruct (marcar_login_campos now (u_id row) row) as (_ & _ & _ & ->).
  reflexivity.
Qed.

(** X14.  A login attempt never touches the records, and changes nothing
    of the user table but last-login stamps: the users, in their order,
    keep their id, name, hash, unit, type and active flag.  An attempt
    that returns no identity leaves the whole store unchanged when its
    commit does not raise; when the commit raises after the update, the
    stamp of the user stays written. *)
Theorem X14_login_preserva_a_base f now db username password :
  let resultado :=
    DatabaseManager.validar_login f now db username password in
  registros resultado.2 = registros db
  /\ sem_ultimo_login <$> usuarios resultado.2
     = sem_ultimo_login <$> usuarios db
  /\ (resultado.1 = None -> f Confirmar = false -> resultado.2 = db)
  /\ (resultado.2 = db
      \/ exists row,
           DatabaseManager.select_usuario_ativo db username = Some row
           /\ resultado.2
              = DatabaseManager.update_ultimo_login now (u_id row) db).
Proof.
  cbv zeta. rewrite validar_login_casos.
  destruct (f Conectar || f Consultar); [repeat split; left; reflexivity|].
  destruct (DatabaseManager.select_usuario_ativo db username) as [row|];
    [|repeat split; left; reflexivity].
  destruct (check_password_hash _ _); [|repeat split; left; reflexivity].
  destruct (f Atualizar); [repeat split; left; reflexivity|].
  cbn [fst snd]. split; [reflexivity|]. split; [|split].
  - rewrite update_ultimo_login_usuarios, <- list_fmap_compose.
    apply list_fmap_ext. intros i x _. cbn [compose].
    apply marcar_login_campos.
  - destruct (f Confirmar); [discriminate | discriminate].
  - right. exists row. split; reflexivity.
Qed.

(** X15.  An identity returned by [validar_login] is that of a stored
    user with the given name, whose [ativo] is 1 and whose hash accepts
    the password; in the store the login leaves, that user's last login
    is the time of the login. *)
Theorem X15_login_correto f now db username password dados db' :
  DatabaseManager.validar_login f now db username password
  = (Some dados, db') ->
  exists row,
    row ∈ usuarios db
    /\ u_username row = username
    /\ u_ativo row = 1
    /\ check_password_hash (u_password_hash row) password = true
    /\ dados = dados_da_linha row
    /\ marcar_login now (u_id row) row ∈ usuarios db'
    /\ u_ultimo_login (marcar_login now (u_id row) row) = Some now.
Proof.
  intros (row & Hsel & Hpw & -> & ->)%validar_login_sucesso.
  unfold DatabaseManager.select_usuario_ativo in Hsel.
  apply head_Some_elem_of, list_elem_of_filter in Hsel as [[Hu Ha] Hrow].
  exists row. repeat split; auto.
  - rewrite update_ultimo_login_usuarios. apply list_elem_of_fmap_2, Hrow.
  - unfold marcar_login. rewrite bool_decide_eq_true_2 by reflexivity.
    reflexivity.
Qed.

Lemma select_usuario_ativo_novo db row :
  u_username row ∉ u_username <$> usuarios db ->
  u_ativo row = 1 ->
  DatabaseManager.select_usuario_ativo (com_usuario db row) (u_username row)
  = Some row.
Proof.
  intros Hfresh Hativo. unfold DatabaseManager.select_usuario_ativo.
  cbn [com_usuario usuarios]. rewrite filter_app.
  replace (filter (fun r => u_username r = u_username row /\ u_ativo r = 1)
             (usuarios db)) with (@nil linha_usuario).
  - rewrite filter_cons_True by (split; [reflexivity | exact Hativo]).
    reflexivity.
  - symmetry.
    destruct (filter _ (usuarios db)) as [|r l] eqn:E; [reflexivity|].
    assert (Hin : r ∈ filter (fun r => u_username r = u_username row
                                       /\ u_ativo r = 1) (usuarios db))
      by (rewrite E; left).
    apply list_elem_of_filter in Hin as [[Hu _] Hr].
    destruct Hfresh. rewrite <- Hu. apply list_elem_of_fmap_2, Hr.
Qed.

Lemma login_de_usuario_ativo f now db username password row :
  sem_falha_alguma f ->
  PyStr.strip username <> EmptyString ->
  password <> EmptyString ->
  DatabaseManager.select_usuario_ativo db (PyStr.strip username) = Some row ->
  App.login f now db
    (Some {| App.form_login_username := Some username;
             App.form_login_password := Some password |})
  = if check_password_hash (u_password_hash row) password
    then (boas_vindas (identidade row),
          DatabaseManager.update_ultimo_login now (u_id row) db)
    else (App.UsuarioOuSenhaIncorretos, db).
Proof.
  intros Hf Hu Hp Hsel.
  cbv beta iota zeta delta [App.login App.form_get default from_option id
    App.form_login_username App.form_login_password].
  apply truthy_true in Hu, Hp. rewrite Hu, Hp. cbn [negb orb].
  rewrite validar_login_casos, !Hf, Hsel. cbn [orb].
  destruct (check_password_hash _ _); [|reflexivity].
  unfold boas_vindas.
  change (User.init _) with (identidade row).
  destruct (User.is_admin (identidade row)); reflexivity.
Qed.

(** X10.  Bootstrap and login compose: on a store with no administrator
    and no user named 'admin', an initialisation without faults seeds the
    default administrator, and a login as 'admin' with the password
    '20e10' is then welcomed as an administrator of unit 'Ambas', provided
    the hash accepts the password it was made from.  The password
    'admin123' that the log line names is refused when the hash of
    '20e10' does not accept it. *)
Theorem X10_admin_padrao_entra f f' now now' db :
  sem_falha_alguma f ->
  sem_falha_alguma f' ->
  (forall row, row ∈ usuarios db -> u_tipo_usuario row <> "admin") ->
  "admin" ∉ u_username <$> usuarios db ->
  check_password_hash (generate_password_hash "20e10") "20e10" = true ->
  let db1 := com_usuario db (admin_padrao now db) in
  DatabaseManager.inicializar_banco f false now db = (true, db1)
  /\ App.login f' now' db1
       (Some {| App.form_login_username := Some "admin";
                App.form_login_password := Some "20e10" |})
     = (App.BemVindoAdmin (identidade (admin_padrao now db)),
        DatabaseManager.update_ultimo_login now'
          (u_id (admin_padrao now db)) db1)
  /\ (check_password_hash (generate_password_hash "20e10") "admin123"
      = false ->
      App.login f' now' db1
        (Some {| App.form_login_username := Some "admin";
                 App.form_login_password := Some "admin123" |})
      = (App.UsuarioOuSenhaIncorretos, db1)).
Proof.
  intros Hf Hf' Hnone Hfresh Hhash db1.
  assert (Hsel : DatabaseManager.select_usuario_ativo db1
                   (PyStr.strip "admin") = Some (admin_padrao now db))
    by (apply (select_usuario_ativo_novo db (admin_padrao now db));
        [exact Hfresh | reflexivity]).
  split; [|split].
  - destruct (inicializar_banco_casos f false now db)
      as [E | [((row & Hrow & Hadm) & _) | (_ & _ & E)]];
      [| destruct (Hnone row Hrow Hadm) | rewrite E, Hf; reflexivity].
    exfalso. revert E.
    unfold DatabaseManager.inicializar_banco,
      DatabaseManager.insert_usuario.
    abrir_sessao. rewrite !Hf.
    rewrite bool_decide_eq_true_2
      by (apply (proj2 (filter_vazio
                          (fun r => u_tipo_usuario r = "admin")
                          (usuarios db))); exact Hnone).
    rewrite (bool_decide_eq_false_2 _ Hfresh). discriminate.
  - rewrite (login_de_usuario_ativo f' now' db1 "admin" "20e10"
               (admin_padrao now db) Hf')
      by (discriminate || exact Hsel).
    cbn [admin_padrao u_password_hash]. rewrite Hhash. reflexivity.
  - intros Hno.
    rewrite (login_de_usuario_ativo f' now' db1 "admin" "admin123"
               (admin_padrao now db) Hf')
      by (discriminate || exact Hsel).
    cbn [admin_padrao u_password_hash]. rewrite Hno. reflexivity.
Qed.

(** X11.  User creation and login compose: after an administrator has
    created a user through the handler (valid form, fresh name, store
    without faults), a login with the name of the form and its trimmed
    password is welcomed with the name, unit and type of the form,
    provided the hash accepts the password it was made from. *)
Theorem X11_usuario_criado_entra f f' now now' db admin form :
  User.is_admin admin = true ->
  campos_validos form ->
  campo_username form ∉ u_username <$> usuarios db ->
  gravacao_disponivel f ->
  sem_falha_alguma f' ->
  check_password_hash (generate_password_hash (campo_password form))
    (campo_password form) = true ->
  let row :=
    novo_usuario now db (campo_username form) (campo_password form)
      (campo_nome_completo form) (campo_unidade form)
      (campo_tipo_usuario form) in
  let db1 := (App.criar_usuario f now db admin (Some form)).2 in
  db1 = com_usuario db row
  /\ App.login f' now' db1
       (Some {| App.form_login_username :=
                  Some (App.form_get (App.form_username form) "");
                App.form_login_password := Some (campo_password form) |})
     = (boas_vindas (identidade row),
        DatabaseManager.update_ultimo_login now' (u_id row) db1).
Proof.
  intros Hadm Hval Hfresh Hgrav Hf' Hhash row db1.
  assert (E : db1 = com_usuario db row).
  { subst db1. rewrite app_criar_usuario_valido by assumption.
    rewrite criar_usuario_sucesso by assumption. reflexivity. }
  split; [exact E|]. rewrite E.
  destruct Hval as (Hu & Hp & _).
  rewrite (login_de_usuario_ativo f' now' (com_usuario db row) _ _ row Hf').
  - cbn [row novo_usuario u_password_hash]. rewrite Hhash. reflexivity.
  - exact Hu.
  - exact Hp.
  - apply (select_usuario_ativo_novo db row); [exact Hfresh | reflexivity].
Qed.

(** *** Administrator routes *)

(** X16.  A non-admin identity, whatever its unit, gets the access-denied
    answer from the dashboard and from the create-user handler, for every
    request and fault plan; neither of these handlers nor the
    create-record handler changes the user table for it. *)
Theorem X16_rotas_de_admin_negadas f now db current_user form_u form_r :
  User.is_admin current_user = false ->
  App.admin_dashboard f db current_user = App.AdminAcessoNegado
  /\ App.criar_usuario f now db current_user form_u = (App.AcessoNegado, db)
  /\ usuarios (App.adicionar_registro f now db current_user form_r).2
     = usuarios db.
Proof.
  intros Hadm. unfold App.admin_dashboard, App.criar_usuario.
  rewrite Hadm. split; [reflexivity | split; [reflexivity|]].
  destruct (adicionar_registro_casos f now db current_user form_r)
    as [E | (_ & _ & E)]; rewrite E; reflexivity.
Qed.

Lemma obter_todos_usuarios_casos f db :
  DatabaseManager.obter_todos_usuarios f db
  = if f Conectar || f Consultar then []
    else DatabaseManager.listar_usuario
           <$> merge_sort DatabaseManager.usuario_mais_recente_primeiro
                 (usuarios db).
Proof.
  unfold DatabaseManager.obter_todos_usuarios,
    DatabaseManager.get_connection, executar.
  destruct (f Conectar); [reflexivity|].
  destruct (f Consultar); reflexivity.
Qed.

(** X17.  The dashboard of an administrator never answers with the error
    page.  On a store that can be queried it shows every stored user,
    active or not, and the number of stored records; when the connection
    fails it shows no user and a total of 0. *)
Theorem X17_painel_do_admin f db current_user :
  User.is_admin current_user = true ->
  exists listados estatisticas total,
    App.admin_dashboard f db current_user
    = App.PainelAdmin listados estatisticas total
    /\ (consulta_disponivel f ->
        listados ≡ₚ DatabaseManager.listar_usuario <$> usuarios db
        /\ total = Z.of_nat (length (registros db)))
    /\ (f Conectar = true -> listados = [] /\ total = 0).
Proof.
  intros Hadm. unfold App.admin_dashboard. rewrite Hadm. cbn [negb].
  eexists _, _, _. split; [reflexivity|].
  rewrite obter_todos_usuarios_casos, contar_registros_casos. split.
  - intros [-> ->]. cbn [orb]. split; [|reflexivity].
    rewrite merge_sort_Permutation. reflexivity.
  - intros ->. split; reflexivity.
Qed.

(** *** Export *)

Lemma mapM_Ok {A B} (g : A -> result B) (l : list A) (k : list B) :
  mapM g l = Ok k -> Forall2 (fun x y => g x = Ok y) l k.
Proof.
  revert k. induction l as [|x l IH]; intros k.
  - cbn. intros [= <-]. constructor.
  - cbn [mapM]. destruct (g x) as [y|e] eqn:Ex; [|discriminate].
    cbn [mbind result_bind].
    destruct (mapM g l) as [k'|e] eqn:El; [|discriminate].
    cbn. intros [= <-]. constructor; [exact Ex | apply IH; reflexivity].
Qed.

Lemma mapM_Raise {A B} (g : A -> result B) (l : list A) (x : A) e :
  x ∈ l -> g x = Raise e -> exists e', mapM g l = Raise e'.
Proof.
  intros Hx Hg. induction l as [|a l IH]; [inversion Hx|].
  cbn [mapM]. destruct (g a) as [y|e0] eqn:Ea; [|eexists; reflexivity].
  cbn [mbind result_bind].
  apply elem_of_cons in Hx as [-> | Hx]; [congruence|].
  destruct (IH Hx) as [e' ->]. eexists; reflexivity.
Qed.

Lemma escrever_linha_campos registro linha :
  App.escrever_linha registro = Ok linha ->
  App.csv_id linha = DatabaseManager.reg_id registro
  /\ App.csv_unidade linha = DatabaseManager.reg_unidade registro.
Proof.
  unfold App.escrever_linha.
  destruct (py_join _ _); [|discriminate]. cbn.
  intros [= <-]. split; reflexivity.
Qed.

(** X18.  Whenever the export completes, its rows are those of the
    records that the listing of the identity returns, one per record and
    in the same order; for a non-admin identity every row carries the
    identity's own unit. *)
Theorem X18_exportacao_segue_a_listagem f db current_user linhas :
  App.exportar_dados f db current_user = App.CsvExportado linhas ->
  App.csv_id <$> linhas
  = DatabaseManager.reg_id
      <$> (if User.is_admin current_user
           then DatabaseManager.obter_todos_registros f db
           else DatabaseManager.obter_registros_por_unidade f db
                  (User.unidade current_user))
  /\ (User.is_admin current_user = false ->
      Forall (fun linha => App.csv_unidade linha = User.unidade current_user)
        linhas).
Proof.
  unfold App.exportar_dados.
  set (listados := if User.is_admin current_user then _ else _).
  destruct (mapM App.escrever_linha listados) as [k|e] eqn:E; [|discriminate].
  cbn. intros [= <-]. apply mapM_Ok in E. split.
  - induction E as [|registro linha l k Hx _ IH]; [reflexivity|].
    rewrite !fmap_cons, IH.
    destruct (escrever_linha_campos _ _ Hx) as [-> _]. reflexivity.
  - intros Hadm. subst listados. rewrite Hadm in E.
    assert (Hun : Forall (fun registro =>
                            DatabaseManager.reg_unidade registro
                            = User.unidade current_user)
                    (DatabaseManager.obter_registros_por_unidade f db
                       (User.unidade current_user))).
    { apply Forall_forall. intros registro Hin.
      apply obter_registros_por_unidade_subconjunto in Hin
        as (row & _ & Hu & Hdec).
      apply decodificar_unidade in Hdec as [-> _]. exact Hu. }
    induction E as [|registro linha l k Hx _ IH]; [constructor|].
    inversion Hun as [|? ? Hr Hl]; subst.
    constructor; [|apply IH, Hl].
    destruct (escrever_linha_campos _ _ Hx) as [_ ->]. exact Hr.
Qed.

(** X19.  On a store that can be queried and where no row makes the
    decoding raise outside the classes that the listing loop catches, one
    record whose stored text decodes to a list with an item that is not a
    string aborts the whole export of an administrator: the listing keeps
    the record, the join of its passwords raises, and the handler answers
    with the error redirect instead of the CSV. *)
Theorem X19_exportacao_abortada f db current_user row itens item :
  User.is_admin current_user = true ->
  consulta_disponivel f ->
  Forall sem_erro_fatal (registros db) ->
  row ∈ registros db ->
  json_loads (r_senhas row) = Ok (JList itens) ->
  item ∈ itens ->
  (forall s, item <> JStr s) ->
  App.exportar_dados f db current_user = App.ErroAoExportar
  /\ exists registro,
       registro ∈ DatabaseManager.obter_todos_registros f db
       /\ DatabaseManager.reg_id registro = r_id row.
Proof.
  intros Hadm Hdisp Hrows Hrow Hjson Hitem Hnstr.
  assert (Hdec : exists registro,
             DatabaseManager.decodificar row = Ok registro
             /\ DatabaseManager.reg_senhas registro = JList itens
             /\ DatabaseManager.reg_id registro = r_id row).
  { unfold DatabaseManager.decodificar. rewrite Hjson. cbn.
    eexists. repeat split. }
  destruct Hdec as (registro & Hdec & Hs & Hid).
  assert (Hin : registro ∈ DatabaseManager.obter_todos_registros f db)
    by (eapply na_listagem; eauto).
  split; [|exists registro; split; assumption].
  unfold App.exportar_dados. rewrite Hadm.
  assert (Hraise : exists e, App.escrever_linha registro = Raise e).
  { unfold App.escrever_linha. rewrite Hs. cbn [py_join].
    destruct (mapM_Raise item_str itens item TypeError Hitem) as [e ->].
    - destruct item; try reflexivity. destruct (Hnstr s eq_refl).
    - eexists; reflexivity. }
  destruct Hraise as [e He].
  destruct (mapM_Raise _ _ _ _ Hin He) as [e' ->]. reflexivity.
Qed.

(** *** The records page *)

Lemma visualizar_registros_filtrado f db current_user args_unidade unidade :
  (if negb (User.is_admin current_user)
      && bool_decide (User.unidade current_user <> "Ambas")
   then User.unidade current_user
   else App.form_get args_unidade "") = unidade ->
  App.visualizar_registros f db current_user args_unidade
  = App.PaginaRegistros
      (if PyStr.truthy unidade
          && bool_decide (unidade ∈ ["Belo Horizonte"; "Contagem"])
       then DatabaseManager.obter_registros_por_unidade f db unidade
       else DatabaseManager.obter_todos_registros f db)
      (DatabaseManager.contar_registros_por_unidade f db) unidade.
Proof.
  intros E. unfold App.visualizar_registros. cbv zeta. rewrite E.
  reflexivity.
Qed.

(** X20.  An administrator, or an operator of unit 'Ambas', who asks for
    'Belo Horizonte' or 'Contagem' is shown the listing of that unit, all
    of whose records have that unit; any other request (no parameter, an
    empty or an unknown unit) is shown the listing of all records. *)
Theorem X20_filtro_de_quem_ve_tudo f db current_user unidade args_unidade :
  User.is_admin current_user = true \/ User.unidade current_user = "Ambas" ->
  unidade = "Belo Horizonte" \/ unidade = "Contagem" ->
  App.visualizar_registros f db current_user (Some unidade)
  = App.PaginaRegistros
      (DatabaseManager.obter_registros_por_unidade f db unidade)
      (DatabaseManager.contar_registros_por_unidade f db) unidade
  /\ Forall (fun registro => DatabaseManager.reg_unidade registro = unidade)
       (DatabaseManager.obter_registros_por_unidade f db unidade)
  /\ (args_unidade ∉ [Some "Belo Horizonte"; Some "Contagem"] ->
      App.visualizar_registros f db current_user args_unidade
      = App.PaginaRegistros (DatabaseManager.obter_todos_registros f db)
          (DatabaseManager.contar_registros_por_unidade f db)
          (App.form_get args_unidade "")).
Proof.
  intros Hquem Hun.
  assert (Hsel : forall args,
             (if negb (User.is_admin current_user)
                 && bool_decide (User.unidade current_user <> "Ambas")
              then User.unidade current_user
              else App.form_get args "") = App.form_get args "").
  { intros args. destruct Hquem as [-> | ->]; [reflexivity|].
    rewrite (bool_decide_eq_false_2 ("Ambas" <> "Ambas")) by tauto.
    rewrite andb_false_r. reflexivity. }
  split; [|split].
  - rewrite (visualizar_registros_filtrado _ _ _ _ _ (Hsel (Some unidade))).
    cbn [App.form_get default from_option id].
    destruct Hun as [-> | ->]; reflexivity.
  - apply Forall_forall. intros registro Hin.
    apply obter_registros_por_unidade_subconjunto in Hin
      as (row & _ & Hu & Hdec).
    apply decodificar_unidade in Hdec as [-> _]. exact Hu.
  - intros Hreq.
    rewrite (visualizar_registros_filtrado _ _ _ _ _ (Hsel args_unidade)).
    rewrite (bool_decide_eq_false_2
               (App.form_get args_unidade ""
                ∈ ["Belo Horizonte"; "Contagem"])).
    + rewrite andb_false_r. reflexivity.
    + intros Hin. apply Hreq.
      rewrite !elem_of_cons in Hin. rewrite !elem_of_cons.
      destruct args_unidade as [u|]; cbn in Hin.
      * destruct Hin as [-> | [-> | Hin]]; [tauto | tauto | inversion Hin].
      * destruct Hin as [Hin | [Hin | Hin]];
          [discriminate | discriminate | inversion Hin].
Qed.

(** X21.  Creation and listing compose: after an operator of
    'Belo Horizonte' or 'Contagem' has created a record (form accepted,
    one to five entries, store without faults), the records page of that
    operator, whatever unit it asks for, shows the new record with its
    passwords in the order they were typed, provided the JSON codec reads
    back what it wrote for that list and no row that the store already
    had for the operator's unit makes the decoding raise outside the
    classes that the listing loop catches. *)
Theorem X21_registro_criado_aparece f f' now db current_user form
    args_unidade :
  User.is_admin current_user = false ->
  User.unidade current_user = "Belo Horizonte"
  \/ User.unidade current_user = "Contagem" ->
  passa_validacao_inicial current_user form ->
  let carteirinha :=
    PyStr.strip (App.form_get (App.form_carteirinha form) "") in
  let senhas :=
    App.processar_senhas (App.form_get (App.form_senhas form) "") in
  (1 <= length senhas <= 5)%nat ->
  sem_falha_alguma f ->
  User.id current_user <> 0 ->
  json_loads (json_dumps senhas) = Ok (JList (JStr <$> senhas)) ->
  (forall row,
     row ∈ registros db -> r_unidade row = User.unidade current_user ->
     sem_erro_fatal row) ->
  consulta_disponivel f' ->
  let db' := (App.adicionar_registro f now db current_user form).2 in
  exists listados estatisticas,
    App.visualizar_registros f' db' current_user args_unidade
    = App.PaginaRegistros listados estatisticas (User.unidade current_user)
    /\ registro_com_senhas
         (novo_registro now db carteirinha (User.unidade current_user)
            senhas (User.id current_user)) senhas
       ∈ listados.
Proof.
  intros Hadm Hun Hv carteirinha senhas Hlen Hf Hid Hcodec Hrows Hdisp db'.
  pose proof (decodificar_com_senhas
                (novo_registro now db carteirinha (User.unidade current_user)
                   senhas (User.id current_user)) senhas Hcodec) as Hnovo.
  assert (Hna : User.unidade current_user <> "Ambas")
    by (destruct Hun as [-> | ->]; discriminate).
  assert (Hform : PyStr.strip (App.form_get (App.form_unidade form) "")
                  = User.unidade current_user).
  { destruct Hv as (_ & _ & [Hp | [Hp | Hp]]); congruence. }
  assert (Edb : db' = com_registro now db carteirinha
                        (User.unidade current_user) senhas
                        (User.id current_user)).
  { subst db'. rewrite adicionar_registro_apos_validacao by exact Hv.
    cbv zeta. fold carteirinha senhas. rewrite Hform.
    rewrite bool_decide_eq_false_2 by lia.
    rewrite bool_decide_eq_false_2 by lia.
    destruct Hv as (Hc & Hu & _). rewrite Hform in Hu.
    rewrite inserir_registro_sucesso by (auto using Hf). reflexivity. }
  rewrite Edb.
  rewrite (visualizar_registros_filtrado _ _ _ _ (User.unidade current_user))
    by (rewrite Hadm, (bool_decide_eq_true_2 _ Hna); reflexivity).
  replace (PyStr.truthy (User.unidade current_user)
           && bool_decide (User.unidade current_user
                           ∈ ["Belo Horizonte"; "Contagem"])) with true
    by (destruct Hun as [-> | ->]; reflexivity).
  eexists _, _. split; [reflexivity|].
  rewrite obter_registros_por_unidade_disponivel.
  - apply list_elem_of_omap.
    exists (novo_registro now db carteirinha (User.unidade current_user)
              senhas (User.id current_user)).
    split; [|apply decodificado_Some, Hnovo].
    apply select_por_unidade_linhas.
    split; [reflexivity|]. cbn [com_registro registros].
    apply elem_of_app. right. left.
  - exact Hdisp.
  - cbn [com_registro registros].
    intros row [Hrow | Hrow%list_elem_of_singleton]%elem_of_app Hu;
      [apply Hrows; assumption|].
    subst row. apply lista_sem_erro_fatal. exists senhas. exact Hcodec.
Qed.

(** *** The count of [database_backup.py] *)

Lemma laco_contagem_backup (total : string -> Z) (unidades : list string)
    (contagem : gmap sqlval sqlval) :
  DatabaseBackup.laco_contagem
    ((fun u => [("unidade", SText u); ("total", SInt (total u))])
       <$> unidades) contagem
  = Ok (foldl (fun m u => <[SText u := SInt (total u)]> m) contagem
          unidades).
Proof.
  revert contagem. induction unidades as [|u us IH]; intros contagem.
  - reflexivity.
  - rewrite fmap_cons. cbn [DatabaseBackup.laco_contagem foldl].
    change (DatabaseBackup.row_chave
              [("unidade", SText u); ("total", SInt (total u))] "total")
      with (@Ok sqlval (SInt (total u))).
    change (DatabaseBackup.row_chave
              [("unidade", SText u); ("total", SInt (total u))] "unidade")
      with (@Ok sqlval (SText u)).
    cbn [mbind result_bind]. apply IH.
Qed.

Lemma lookup_foldl_contagem (total : string -> Z) (unidades : list string)
    (contagem : gmap sqlval sqlval) (u : string) :
  foldl (fun m v => <[SText v := SInt (total v)]> m) contagem unidades
    !! SText u
  = if bool_decide (u ∈ unidades) then Some (SInt (total u))
    else contagem !! SText u.
Proof.
  revert contagem. induction unidades as [|a us IH]; intros contagem.
  - cbn [foldl]. rewrite bool_decide_eq_false_2; [reflexivity|].
    intros Hin. inversion Hin.
  - cbn [foldl]. rewrite IH.
    destruct (decide (u ∈ us)) as [Hin | Hnin].
    + rewrite !bool_decide_eq_true_2; [reflexivity | right; exact Hin
                                       | exact Hin].
    + rewrite (bool_decide_eq_false_2 _ Hnin).
      destruct (decide (u = a)) as [-> | Hne].
      * rewrite bool_decide_eq_true_2 by left.
        apply lookup_insert_eq.
      * rewrite bool_decide_eq_false_2
          by (intros [-> | H0]%elem_of_cons; [apply Hne | apply Hnin];
              auto).
        apply lookup_insert_ne. congruence.
Qed.

Lemma unidade_presente db u :
  u ∈ merge_sort DatabaseManager.ordem_unidade
        (remove_dups (r_unidade <$> registros db))
  <-> total_da_unidade db u <> 0%nat.
Proof.
  rewrite merge_sort_Permutation, elem_of_remove_dups.
  unfold total_da_unidade. split.
  - intros (row & -> & Hrow)%list_elem_of_fmap Hlen.
    exact (proj1 (filter_vazio (fun r => r_unidade r = r_unidade row)
                    (registros db)) Hlen row Hrow eq_refl).
  - intros Hlen.
    destruct (filter (fun r => r_unidade r = u) (registros db))
      as [|r l] eqn:E; [destruct Hlen; reflexivity|].
    assert (Hin : r ∈ filter (fun r => r_unidade r = u) (registros db))
      by (rewrite E; left).
    apply list_elem_of_filter in Hin as [<- Hr].
    apply list_elem_of_fmap_2, Hr.
Qed.

(** X22.  The count of [database_backup.py], which reads its rows by
    column name, never raises and groups as its docstring says: on a
    store that can be queried, a unit is a key of the result exactly when
    a stored record has it, and its value is the number of those records;
    when the connection or the query fails the result is the empty
    dict. *)
Theorem X22_contagem_do_backup f db :
  exists contagem,
    DatabaseBackup.contar_registros_por_unidade f db = Ok contagem
    /\ (consulta_disponivel f ->
        forall u,
          contagem !! SText u
          = if bool_decide (total_da_unidade db u = 0%nat) then None
            else Some (SInt (Z.of_nat (total_da_unidade db u))))
    /\ (f Conectar || f Consultar = true -> contagem = ∅).
Proof.
  unfold DatabaseBackup.contar_registros_por_unidade,
    DatabaseManager.get_connection, executar,
    DatabaseBackup.select_contagem.
  destruct (f Conectar) eqn:H1.
  { exists ∅. split; [reflexivity|].
    split; [intros [? _]; congruence | intros _; reflexivity]. }
  destruct (f Consultar) eqn:H2.
  { exists ∅. split; [reflexivity|].
    split; [intros [_ ?]; congruence | intros _; reflexivity]. }
  cbn [mbind result_bind].
  rewrite (laco_contagem_backup
             (fun u => Z.of_nat (total_da_unidade db u))).
  eexists. split; [reflexivity|]. split; [|discriminate].
  intros _ u. rewrite lookup_foldl_contagem, lookup_empty.
  destruct (decide (total_da_unidade db u = 0%nat)) as [E | E].
  - rewrite (bool_decide_eq_true_2 _ E).
    rewrite bool_decide_eq_false_2; [reflexivity|]. intros Hin.
    apply unidade_presente in Hin. exact (Hin E).
  - rewrite (bool_decide_eq_false_2 _ E).
    rewrite bool_decide_eq_true_2; [reflexivity|].
    apply unidade_presente, E.
Qed.

(** *** Distinct keys *)

Lemma NoDup_com_proximo_id (ids : list Z) :
  NoDup ids -> NoDup (ids ++ [proximo_id ids]).
Proof.
  intros Hnd. apply NoDup_app. split; [exact Hnd|]. split.
  - intros x Hx Hx'. apply list_elem_of_singleton in Hx'.
    apply proximo_id_maior in Hx. lia.
  - apply NoDup_singleton.
Qed.

Lemma com_registro_bem_formado now db carteirinha unidade senhas usuario_id :
  banco_bem_formado db ->
  banco_bem_formado
    (com_registro now db carteirinha unidade senhas usuario_id).
Proof.
  intros (H1 & H2 & H3). repeat split; [exact H1 | exact H2|].
  cbn [com_registro registros]. rewrite fmap_app.
  apply NoDup_com_proximo_id, H3.
Qed.

Lemma com_usuario_bem_formado db row :
  banco_bem_formado db ->
  u_id row = proximo_id (u_id <$> usuarios db) ->
  u_username row ∉ u_username <$> usuarios db ->
  banco_bem_formado (com_usuario db row).
Proof.
  intros (H1 & H2 & H3) Hid Hfresh. repeat split; [| |exact H3].
  - cbn [com_usuario usuarios]. rewrite fmap_app. cbn [fmap list_fmap].
    rewrite Hid. apply NoDup_com_proximo_id, H1.
  - cbn [com_usuario usuarios]. rewrite fmap_app.
    apply NoDup_app. split; [exact H2|]. split; [|apply NoDup_singleton].
    intros x Hx Hx'. apply list_elem_of_singleton in Hx'. cbn in Hx'.
    subst x. exact (Hfresh Hx).
Qed.

Lemma update_ultimo_login_bem_formado now id db :
  banco_bem_formado db ->
  banco_bem_formado (DatabaseManager.update_ultimo_login now id db).
Proof.
  intros (H1 & H2 & H3). repeat split; [| |exact H3].
  - rewrite update_ultimo_login_usuarios, <- list_fmap_compose.
    erewrite list_fmap_ext; [exact H1|].
    intros i x _. cbn [compose]. apply marcar_login_campos.
  - rewrite update_ultimo_login_usuarios, <- list_fmap_compose.
    erewrite list_fmap_ext; [exact H2|].
    intros i x _. cbn [compose]. apply marcar_login_campos.
Qed.

(** X23.  Every operation that writes keeps the keys of the store
    distinct: after [inserir_registro], [criar_usuario], [validar_login]
    or [inicializar_banco], under any fault plan and for any arguments,
    user ids, user names and record ids are still without repetition. *)
Theorem X23_chaves_distintas f criar_tabelas_falha now db carteirinha
    unidade senhas usuario_id username password nome_completo
    unidade_usuario tipo_usuario login_username login_password :
  banco_bem_formado db ->
  banco_bem_formado
    (DatabaseManager.inserir_registro f now db carteirinha unidade senhas
       usuario_id).2
  /\ banco_bem_formado
       (DatabaseManager.criar_usuario f now db username password
          nome_completo unidade_usuario tipo_usuario).2
  /\ banco_bem_formado
       (DatabaseManager.validar_login f now db login_username
          login_password).2
  /\ banco_bem_formado
       (DatabaseManager.inicializar_banco f criar_tabelas_falha now db).2.
Proof.
  intros Hbf. split; [|split; [|split]].
  - destruct (inserir_registro_casos f now db carteirinha unidade senhas
                usuario_id) as [E | (_ & _ & _ & _ & E)]; rewrite E;
      [exact Hbf | apply com_registro_bem_formado, Hbf].
  - destruct (criar_usuario_casos f now db username password nome_completo
                unidade_usuario tipo_usuario) as [E | (Hfresh & E)];
      rewrite E; [exact Hbf|].
    apply com_usuario_bem_formado; [exact Hbf | reflexivity | exact Hfresh].
  - rewrite validar_login_casos.
    destruct (f Conectar || f Consultar); [exact Hbf|].
    destruct (DatabaseManager.select_usuario_ativo db login_username);
      [|exact Hbf].
    destruct (check_password_hash _ _); [|exact Hbf].
    destruct (f Atualizar); [exact Hbf|]. cbn [snd].
    apply update_ultimo_login_bem_formado, Hbf.
  - destruct (inicializar_banco_casos f criar_tabelas_falha now db)
      as [E | [(_ & E) | (_ & Hfresh & E)]]; rewrite E;
      [exact Hbf | exact Hbf|].
    apply com_usuario_bem_formado; [exact Hbf | reflexivity | exact Hfresh].
Qed.

End Extensoes.

(** ** The theorems on the reference platform *)

#[local] Existing Instance Referencia.plataforma.

Lemma db_com_corrompido_sem_erro_fatal :
  Forall sem_erro_fatal (registros Exemplos.db_com_corrompido).
Proof.
  apply Forall_cons; split; [linha_sem_erro_fatal|].
  apply Forall_cons; split; [linha_sem_erro_fatal|].
  apply Forall_cons; split; [linha_sem_erro_fatal | apply Forall_nil_2].
Qed.




Lemma C2_senhas_normalizadas_witness :
  passa_validacao_inicial Exemplos.op_bh Exemplos.form_tres_senhas
  /\ Forall (fun s => PyStr.contains App.virgula s = false)
       ["a"; " b "; "a"]
  /\ App.processar_senhas (PyStr.join "," ["a"; " b "; "a"])
     = ["a"; "b"; "a"]
  /\ App.adicionar_registro sem_falhas 40 Exemplos.db_vazio Exemplos.op_bh
       Exemplos.form_tres_senhas
     = (App.RegistroSalvo "C100" "Belo Horizonte" 3,
        com_registro 40 Exemplos.db_vazio "C100" "Belo Horizonte"
          ["111"; "222"; "333"] 2).
Proof.
  assert (H1 : passa_validacao_inicial Exemplos.op_bh
                 Exemplos.form_tres_senhas).
  { split; [discriminate | split; [discriminate | right; left; reflexivity]]. }
  assert (H2 : Forall (fun s => PyStr.contains App.virgula s = false)
                 ["a"; " b "; "a"])
    by (repeat constructor).
  destruct (C2_senhas_normalizadas sem_falhas 40 Exemplos.db_vazio
              Exemplos.op_bh Exemplos.form_tres_senhas ["a"; " b "; "a"]
              H1 H2) as (_ & E2 & _ & _ & E5 & _).
  split; [exact H1 | split; [exact H2 | split; [exact E2|]]].
  refine (proj2 (E5 _) eq_refl eq_refl eq_refl _).
  - vm_compute. split; apply Nat.leb_le; reflexivity.
  - discriminate.
Defined.

Lemma C3_exportacao_de_ambas_vazia_witness :
  User.is_admin Exemplos.op_ambas = false
  /\ User.unidade Exemplos.op_ambas = "Ambas"
  /\ Forall (fun row => r_unidade row = "Belo Horizonte"
                        \/ r_unidade row = "Contagem")
       (registros Exemplos.db_duas_unidades)
  /\ App.exportar_dados sem_falhas Exemplos.db_duas_unidades
       Exemplos.op_ambas = App.CsvExportado []
  /\ length (DatabaseManager.obter_todos_registros sem_falhas
               Exemplos.db_duas_unidades) = 2%nat.
Proof.
  assert (H1 : User.is_admin Exemplos.op_ambas = false) by reflexivity.
  assert (H2 : User.unidade Exemplos.op_ambas = "Ambas") by reflexivity.
  assert (H3 : Forall (fun row => r_unidade row = "Belo Horizonte"
                                  \/ r_unidade row = "Contagem")
                 (registros Exemplos.db_duas_unidades)).
  { apply Forall_cons; split; [left; reflexivity|].
    apply Forall_cons; split; [right; reflexivity | apply Forall_nil_2]. }
  split; [exact H1 | split; [exact H2 | split; [exact H3 | split]]].
  - exact (proj1 (C3_exportacao_de_ambas_vazia sem_falhas
                    Exemplos.db_duas_unidades Exemplos.op_ambas None
                    H1 H2 H3)).
  - vm_compute. reflexivity.
Defined.

(** At the store with one record of each unit the grouped query has a row
    for 'Belo Horizonte', and the dict returned has no such key. *)
Example contagem_no_banco_de_duas_unidades :
  DatabaseManager.select_contagem Exemplos.db_duas_unidades
  = [[SText "Belo Horizonte"; SInt 1]; [SText "Contagem"; SInt 1]]
  /\ DatabaseManager.contar_registros_por_unidade sem_falhas
       Exemplos.db_duas_unidades !! SText "Belo Horizonte" = None.
Proof. split; vm_compute; reflexivity. Qed.

(** The invariant of the data model does not survive an admin who writes
    the unit 'Ambas' on a record. *)
Lemma C5_contraexemplo_unidade_ambas :
  Forall invariante_do_modelo (registros Exemplos.db_duas_unidades)
  /\ ~ Forall invariante_do_modelo
         (registros
            (App.adicionar_registro sem_falhas 40 Exemplos.db_duas_unidades
               Exemplos.admin Exemplos.form_unidade_ambas).2).
Proof.
  split.
  - apply Forall_cons; split.
    { split; [|left; reflexivity].
      exists ["111"; "222"; "333"]. split; [reflexivity | cbn; lia]. }
    apply Forall_cons; split; [|apply Forall_nil_2].
    split; [|right; reflexivity].
    exists ["999"]. split; [reflexivity | cbn; lia].
  - intros HF.
    assert (Hin : {| r_id := 4;
                     r_carteirinha := "C400";
                     r_unidade := "Ambas";
                     r_senhas := Referencia.dumps ["111"; "222"];
                     r_usuario_id := 1;
                     r_data_criacao := 40 |}
                  ∈ registros
                      (App.adicionar_registro sem_falhas 40
                         Exemplos.db_duas_unidades Exemplos.admin
                         Exemplos.form_unidade_ambas).2).
    { vm_compute. do 2 right. left. }
    rewrite Forall_forall in HF.
    destruct (HF _ Hin) as [_ [E | E]]; discriminate E.
Qed.

Lemma C5_invariante_armazenado_witness :
  Forall invariante_armazenado (registros Exemplos.db_duas_unidades)
  /\ Forall invariante_armazenado
       (registros
          (App.adicionar_registro sem_falhas 40 Exemplos.db_duas_unidades
             Exemplos.admin Exemplos.form_unidade_ambas).2).
Proof.
  assert (H1 : Forall invariante_armazenado
                 (registros Exemplos.db_duas_unidades)).
  { apply Forall_cons; split.
    { split; [|split; discriminate].
      exists ["111"; "222"; "333"]. split; [reflexivity | cbn; lia]. }
    apply Forall_cons; split; [|apply Forall_nil_2].
    split; [|split; discriminate].
    exists ["999"]. split; [reflexivity | cbn; lia]. }
  split; [exact H1|].
  exact (proj1 (C5_invariante_armazenado sem_falhas 40
                  Exemplos.db_duas_unidades Exemplos.admin
                  Exemplos.form_unidade_ambas "C500" "Contagem" ["555"] 1
                  H1)).
Defined.

(** An active user with the right password is refused when the update of
    [ultimo_login] raises. *)
Lemma C6_contraexemplo_update_falha :
  DatabaseManager.select_usuario_ativo Exemplos.db_duas_unidades "op1"
  = Some (Exemplos.linha_de Exemplos.op_bh 1)
  /\ check_password_hash
       (u_password_hash (Exemplos.linha_de Exemplos.op_bh 1)) "1234" = true
  /\ Exemplos.falha_no_update Conectar = false
  /\ Exemplos.falha_no_update Consultar = false
  /\ (DatabaseManager.validar_login Exemplos.falha_no_update 50
        Exemplos.db_duas_unidades "op1" "1234").1 = None.
Proof. repeat split; vm_compute; reflexivity. Qed.

Lemma C6_login_depende_do_update_witness :
  DatabaseManager.select_usuario_ativo Exemplos.db_duas_unidades "op1"
  = Some (Exemplos.linha_de Exemplos.op_bh 1)
  /\ check_password_hash
       (u_password_hash (Exemplos.linha_de Exemplos.op_bh 1)) "1234" = true
  /\ consulta_disponivel sem_falhas
  /\ consulta_disponivel Exemplos.falha_no_update
  /\ consulta_disponivel Exemplos.falha_no_commit
  /\ (DatabaseManager.validar_login sem_falhas 50 Exemplos.db_duas_unidades
        "op1" "1234").1
     = Some {| DatabaseManager.du_id := 2;
               DatabaseManager.du_username := "op1";
               DatabaseManager.du_nome_completo := "Operador Um";
               DatabaseManager.du_unidade := "Belo Horizonte";
               DatabaseManager.du_tipo_usuario := "operador" |}
  /\ DatabaseManager.validar_login Exemplos.falha_no_update 50
       Exemplos.db_duas_unidades "op1" "1234"
     = (None, Exemplos.db_duas_unidades)
  /\ DatabaseManager.validar_login Exemplos.falha_no_commit 50
       Exemplos.db_duas_unidades "op1" "1234"
     = (None,
        DatabaseManager.update_ultimo_login 50 2 Exemplos.db_duas_unidades)
  /\ u_ultimo_login
       <$> usuarios
             (DatabaseManager.validar_login Exemplos.falha_no_commit 50
                Exemplos.db_duas_unidades "op1" "1234").2
     = [None; Some 50; None; None; None].
Proof.
  assert (H1 : DatabaseManager.select_usuario_ativo
                 Exemplos.db_duas_unidades "op1"
               = Some (Exemplos.linha_de Exemplos.op_bh 1))
    by (vm_compute; reflexivity).
  assert (H2 : check_password_hash
                 (u_password_hash (Exemplos.linha_de Exemplos.op_bh 1))
                 "1234" = true)
    by (vm_compute; reflexivity).
  assert (H3 : consulta_disponivel sem_falhas) by (split; reflexivity).
  assert (H4 : consulta_disponivel Exemplos.falha_no_update)
    by (split; reflexivity).
  assert (H5 : consulta_disponivel Exemplos.falha_no_commit)
    by (split; reflexivity).
  assert (E : DatabaseManager.validar_login Exemplos.falha_no_commit 50
                Exemplos.db_duas_unidades "op1" "1234"
              = (None,
                 DatabaseManager.update_ultimo_login 50 2
                   Exemplos.db_duas_unidades))
    by exact (proj2 (proj2 (C6_login_depende_do_update
                              Exemplos.falha_no_commit 50
                              Exemplos.db_duas_unidades "op1" "1234" _
                              H1 H2 H5)) eq_refl eq_refl).
  split; [exact H1 | split; [exact H2 | split; [exact H3 | split;
    [exact H4 | split; [exact H5 | split; [|split; [|split]]]]]]].
  - rewrite (proj1 (C6_login_depende_do_update sem_falhas 50
                      Exemplos.db_duas_unidades "op1" "1234" _ H1 H2 H3)
               eq_refl eq_refl).
    reflexivity.
  - exact (proj1 (proj2 (C6_login_depende_do_update
                           Exemplos.falha_no_update 50
                           Exemplos.db_duas_unidades "op1" "1234" _
                           H1 H2 H4)) eq_refl).
  - exact E.
  - rewrite E. vm_compute. reflexivity.
Defined.



Lemma C8_conta_desativada_witness :
  NoDup (u_username <$> usuarios Exemplos.db_duas_unidades)
  /\ (Exemplos.linha_inativa ∈ usuarios Exemplos.db_duas_unidades)
  /\ u_ativo Exemplos.linha_inativa = 0
  /\ check_password_hash (u_password_hash Exemplos.linha_inativa) "1234"
     = true
  /\ DatabaseManager.validar_login sem_falhas 50 Exemplos.db_duas_unidades
       "op4" "1234"
     = (None, Exemplos.db_duas_unidades).
Proof.
  assert (H1 : NoDup (u_username <$> usuarios Exemplos.db_duas_unidades))
    by (apply (bool_decide_unpack _); vm_compute; exact I).
  assert (H2 : Exemplos.linha_inativa ∈ usuarios Exemplos.db_duas_unidades)
    by (apply (bool_decide_unpack _); vm_compute; exact I).
  assert (H3 : u_ativo Exemplos.linha_inativa = 0) by reflexivity.
  split; [exact H1 | split; [exact H2 | split; [exact H3 | split]]].
  - vm_compute. reflexivity.
  - exact (C8_conta_desativada sem_falhas 50 Exemplos.db_duas_unidades
             Exemplos.linha_inativa "1234" H1 H2 H3).
Defined.

Lemma C9_username_duplicado_witness :
  ("op1" ∈ u_username <$> usuarios Exemplos.db_duas_unidades)
  /\ campo_username Exemplos.form_usuario_repetido = "op1"
  /\ DatabaseManager.criar_usuario sem_falhas 50 Exemplos.db_duas_unidades
       "op1" "abcd" "Outro Operador" "Contagem" "operador"
     = (false, Exemplos.db_duas_unidades)
  /\ (App.criar_usuario sem_falhas 50 Exemplos.db_duas_unidades
        Exemplos.admin (Some Exemplos.form_usuario_repetido)).2
     = Exemplos.db_duas_unidades.
Proof.
  assert (H1 : "op1" ∈ u_username <$> usuarios Exemplos.db_duas_unidades)
    by (apply (bool_decide_unpack _); vm_compute; exact I).
  assert (H2 : campo_username Exemplos.form_usuario_repetido = "op1")
    by (vm_compute; reflexivity).
  destruct (C9_username_duplicado sem_falhas 50 Exemplos.db_duas_unidades
              "op1" "abcd" "Outro Operador" "Contagem" "operador"
              Exemplos.admin Exemplos.form_usuario_repetido H1 H2)
    as (E1 & E2 & _).
  split; [exact H1 | split; [exact H2 | split; [exact E1 | exact E2]]].
Defined.



(** ** The further properties on concrete stores *)

Lemma X3_listagem_e_busca_por_id_witness :
  consulta_disponivel sem_falhas
  /\ NoDup (r_id <$> registros Exemplos.db_com_corrompido)
  /\ Forall sem_erro_fatal (registros Exemplos.db_com_corrompido)
  /\ DatabaseManager.obter_registro_por_id sem_falhas
       Exemplos.db_com_corrompido 1
     = Some Cenarios.registro_bh_decodificado
  /\ (Cenarios.registro_bh_decodificado
      ∈ DatabaseManager.obter_todos_registros sem_falhas
          Exemplos.db_com_corrompido)
  /\ DatabaseManager.obter_registro_por_id sem_falhas
       Exemplos.db_com_corrompido 3
     = Some Cenarios.registro_contagem_decodificado.
Proof.
  assert (H1 : consulta_disponivel sem_falhas) by (split; reflexivity).
  assert (H2 : NoDup (r_id <$> registros Exemplos.db_com_corrompido))
    by (apply (bool_decide_unpack _); vm_compute; exact I).
  pose proof db_com_corrompido_sem_erro_fatal as H3.
  assert (H4 : DatabaseManager.obter_registro_por_id sem_falhas
                 Exemplos.db_com_corrompido 1
               = Some Cenarios.registro_bh_decodificado)
    by (vm_compute; reflexivity).
  assert (H5 : Cenarios.registro_contagem_decodificado
               ∈ DatabaseManager.obter_todos_registros sem_falhas
                   Exemplos.db_com_corrompido)
    by (vm_compute; left).
  split; [exact H1 | split; [exact H2 | split; [exact H3 | split;
    [exact H4 | split]]]].
  - exact (proj2 (X3_listagem_e_busca_por_id sem_falhas
                    Exemplos.db_com_corrompido
                    Cenarios.registro_bh_decodificado H1 H2) H3 H4).
  - exact (proj1 (X3_listagem_e_busca_por_id sem_falhas
                    Exemplos.db_com_corrompido
                    Cenarios.registro_contagem_decodificado H1 H2) H5).
Defined.

Lemma X4_inserir_e_buscar_witness :
  DatabaseManager.inserir_registro sem_falhas 40 Exemplos.db_duas_unidades
    "C500" "Contagem" ["555"; "666"] 1
  = (true,
     com_registro 40 Exemplos.db_duas_unidades "C500" "Contagem"
       ["555"; "666"] 1)
  /\ json_loads (json_dumps ["555"; "666"])
     = Ok (JList (JStr <$> ["555"; "666"]))
  /\ consulta_disponivel sem_falhas
  /\ DatabaseManager.obter_registro_por_id sem_falhas
       (com_registro 40 Exemplos.db_duas_unidades "C500" "Contagem"
          ["555"; "666"] 1) 4
     = Some {| DatabaseManager.reg_id := 4;
               DatabaseManager.reg_carteirinha := "C500";
               DatabaseManager.reg_unidade := "Contagem";
               DatabaseManager.reg_senhas := JList [JStr "555"; JStr "666"];
               DatabaseManager.reg_usuario_id := 1;
               DatabaseManager.reg_data_criacao := 40;
               DatabaseManager.reg_total_senhas := 2 |}.
Proof.
  assert (H1 : DatabaseManager.inserir_registro sem_falhas 40
                 Exemplos.db_duas_unidades "C500" "Contagem"
                 ["555"; "666"] 1
               = (true,
                  com_registro 40 Exemplos.db_duas_unidades "C500"
                    "Contagem" ["555"; "666"] 1))
    by (vm_compute; reflexivity).
  assert (H2 : json_loads (json_dumps ["555"; "666"])
               = Ok (JList (JStr <$> ["555"; "666"])))
    by (vm_compute; reflexivity).
  assert (H3 : consulta_disponivel sem_falhas) by (split; reflexivity).
  split; [exact H1 | split; [exact H2 | split; [exact H3|]]].
  exact (X4_inserir_e_buscar sem_falhas sem_falhas 40
           Exemplos.db_duas_unidades "C500" "Contagem" ["555"; "666"] 1 _
           H1 H2 H3).
Defined.

Lemma X5_insercao_nao_afeta_outras_unidades_witness :
  "Belo Horizonte" <> "Contagem"
  /\ DatabaseManager.obter_registros_por_unidade sem_falhas
       (DatabaseManager.inserir_registro sem_falhas 40
          Exemplos.db_duas_unidades "C500" "Contagem" ["555"] 1).2
       "Belo Horizonte"
     = DatabaseManager.obter_registros_por_unidade sem_falhas
         Exemplos.db_duas_unidades "Belo Horizonte".
Proof.
  assert (H1 : "Belo Horizonte" <> "Contagem") by discriminate.
  split; [exact H1|].
  exact (proj1 (X5_insercao_nao_afeta_outras_unidades sem_falhas sem_falhas
                  40 Exemplos.db_duas_unidades "C500" "Contagem" ["555"] 1
                  "Belo Horizonte" H1)).
Defined.

Lemma X6_total_e_listagem_witness :
  consulta_disponivel sem_falhas
  /\ Forall lista_de_senhas (registros Exemplos.db_duas_unidades)
  /\ DatabaseManager.contar_registros sem_falhas Exemplos.db_com_corrompido
     = 3
  /\ Z.of_nat (length (DatabaseManager.obter_todos_registros
                         Exemplos.falha_na_conexao
                         Exemplos.db_com_corrompido))
     <= DatabaseManager.contar_registros sem_falhas
          Exemplos.db_com_corrompido
  /\ length (DatabaseManager.obter_todos_registros sem_falhas
               Exemplos.db_com_corrompido) = 2%nat
  /\ Z.of_nat (length (DatabaseManager.obter_todos_registros sem_falhas
                         Exemplos.db_duas_unidades))
     = DatabaseManager.contar_registros sem_falhas Exemplos.db_duas_unidades.
Proof.
  assert (H1 : consulta_disponivel sem_falhas) by (split; reflexivity).
  assert (H2 : Forall lista_de_senhas
                 (registros Exemplos.db_duas_unidades)).
  { apply Forall_cons; split;
      [exists ["111"; "222"; "333"]; vm_compute; reflexivity|].
    apply Forall_cons; split; [|apply Forall_nil_2].
    exists ["999"]; vm_compute; reflexivity. }
  destruct (X6_total_e_listagem Exemplos.falha_na_conexao sem_falhas
              Exemplos.db_com_corrompido H1) as (E1 & E2 & _).
  split; [exact H1 | split; [exact H2 | split; [exact E1 | split;
    [exact E2 | split]]]].
  - vm_compute. reflexivity.
  - exact (proj2 (proj2 (X6_total_e_listagem sem_falhas sem_falhas
                           Exemplos.db_duas_unidades H1)) H1 H2).
Defined.

Lemma X7_inicializacao_garante_admin_witness :
  DatabaseManager.inicializar_banco sem_falhas false 5 Exemplos.db_vazio
  = (true, com_usuario Exemplos.db_vazio (admin_padrao 5 Exemplos.db_vazio))
  /\ exists row,
       row ∈ usuarios
               (com_usuario Exemplos.db_vazio
                  (admin_padrao 5 Exemplos.db_vazio))
       /\ u_tipo_usuario row = "admin".
Proof.
  assert (H1 : DatabaseManager.inicializar_banco sem_falhas false 5
                 Exemplos.db_vazio
               = (true,
                  com_usuario Exemplos.db_vazio
                    (admin_padrao 5 Exemplos.db_vazio)))
    by (vm_compute; reflexivity).
  split; [exact H1|].
  exact (proj1 (X7_inicializacao_garante_admin sem_falhas false 5
                  Exemplos.db_vazio _ H1)).
Defined.

Lemma X8_inicializacao_idempotente_witness :
  DatabaseManager.inicializar_banco sem_falhas false 5 Exemplos.db_vazio
  = (true, com_usuario Exemplos.db_vazio (admin_padrao 5 Exemplos.db_vazio))
  /\ (DatabaseManager.inicializar_banco sem_falhas false 9
        (com_usuario Exemplos.db_vazio (admin_padrao 5 Exemplos.db_vazio))).2
     = com_usuario Exemplos.db_vazio (admin_padrao 5 Exemplos.db_vazio).
Proof.
  assert (H1 : DatabaseManager.inicializar_banco sem_falhas false 5
                 Exemplos.db_vazio
               = (true,
                  com_usuario Exemplos.db_vazio
                    (admin_padrao 5 Exemplos.db_vazio)))
    by (vm_compute; reflexivity).
  split; [exact H1|].
  exact (X8_inicializacao_idempotente sem_falhas false 5 Exemplos.db_vazio
           _ sem_falhas false 9 H1).
Defined.

Lemma X9_inicializacao_com_nome_ocupado_witness :
  (forall row,
     row ∈ usuarios Cenarios.db_nome_ocupado ->
     u_tipo_usuario row <> "admin")
  /\ ("admin" ∈ u_username <$> usuarios Cenarios.db_nome_ocupado)
  /\ DatabaseManager.inicializar_banco sem_falhas false 5
       Cenarios.db_nome_ocupado
     = (false, Cenarios.db_nome_ocupado).
Proof.
  assert (H1 : forall row,
             row ∈ usuarios Cenarios.db_nome_ocupado ->
             u_tipo_usuario row <> "admin").
  { intros row Hrow. apply list_elem_of_singleton in Hrow. subst row.
    discriminate. }
  assert (H2 : "admin" ∈ u_username <$> usuarios Cenarios.db_nome_ocupado)
    by (apply (bool_decide_unpack _); vm_compute; exact I).
  split; [exact H1 | split; [exact H2|]].
  exact (X9_inicializacao_com_nome_ocupado sem_falhas false 5
           Cenarios.db_nome_ocupado H1 H2).
Defined.

Lemma X10_admin_padrao_entra_witness :
  sem_falha_alguma sem_falhas
  /\ (forall row,
        row ∈ usuarios Exemplos.db_vazio -> u_tipo_usuario row <> "admin")
  /\ ("admin" ∉ u_username <$> usuarios Exemplos.db_vazio)
  /\ check_password_hash (generate_password_hash "20e10") "20e10" = true
  /\ check_password_hash (generate_password_hash "20e10") "admin123" = false
  /\ (App.login sem_falhas 9
        (com_usuario Exemplos.db_vazio (admin_padrao 5 Exemplos.db_vazio))
        (Some {| App.form_login_username := Some "admin";
                 App.form_login_password := Some "20e10" |})).1
     = App.BemVindoAdmin
         {| User.id := 1;
            User.username := "admin";
            User.nome_completo := "Administrador do Sistema";
            User.unidade := "Ambas";
            User.tipo_usuario := "admin" |}
  /\ (App.login sem_falhas 9
        (com_usuario Exemplos.db_vazio (admin_padrao 5 Exemplos.db_vazio))
        (Some {| App.form_login_username := Some "admin";
                 App.form_login_password := Some "admin123" |})).1
     = App.UsuarioOuSenhaIncorretos.
Proof.
  assert (H1 : sem_falha_alguma sem_falhas) by (intros p; reflexivity).
  assert (H2 : forall row,
             row ∈ usuarios Exemplos.db_vazio ->
             u_tipo_usuario row <> "admin")
    by (intros row Hrow; inversion Hrow).
  assert (H3 : "admin" ∉ u_username <$> usuarios Exemplos.db_vazio)
    by (intros Hin; inversion Hin).
  assert (H4 : check_password_hash (generate_password_hash "20e10") "20e10"
               = true) by (vm_compute; reflexivity).
  assert (H5 : check_password_hash (generate_password_hash "20e10")
                 "admin123" = false) by (vm_compute; reflexivity).
  destruct (X10_admin_padrao_entra sem_falhas sem_falhas 5 9
              Exemplos.db_vazio H1 H1 H2 H3 H4) as (_ & E2 & E3).
  split; [exact H1 | split; [exact H2 | split; [exact H3 | split;
    [exact H4 | split; [exact H5 | split]]]]].
  - rewrite E2. reflexivity.
  - rewrite (E3 H5). reflexivity.
Defined.

Lemma X11_usuario_criado_entra_witness :
  User.is_admin Exemplos.admin = true
  /\ campos_validos Exemplos.form_usuario_filial
  /\ (campo_username Exemplos.form_usuario_filial
      ∉ u_username <$> usuarios Exemplos.db_duas_unidades)
  /\ gravacao_disponivel sem_falhas
  /\ check_password_hash
       (generate_password_hash (campo_password Exemplos.form_usuario_filial))
       (campo_password Exemplos.form_usuario_filial) = true
  /\ (App.login sem_falhas 60
        (App.criar_usuario sem_falhas 50 Exemplos.db_duas_unidades
           Exemplos.admin (Some Exemplos.form_usuario_filial)).2
        (Some {| App.form_login_username := Some "op9";
                 App.form_login_password := Some "1234" |})).1
     = App.BemVindo
         {| User.id := 6;
            User.username := "op9";
            User.nome_completo := "Operador Nove";
            User.unidade := "Filial X";
            User.tipo_usuario := "operador" |}.
Proof.
  assert (H1 : User.is_admin Exemplos.admin = true) by reflexivity.
  assert (H2 : campos_validos Exemplos.form_usuario_filial).
  { repeat split; try discriminate. vm_compute. apply Nat.leb_le.
    reflexivity. }
  assert (H3 : campo_username Exemplos.form_usuario_filial
               ∉ u_username <$> usuarios Exemplos.db_duas_unidades)
    by (apply (bool_decide_unpack _); vm_compute; exact I).
  assert (H4 : gravacao_disponivel sem_falhas) by (repeat split; reflexivity).
  assert (H5 : check_password_hash
                 (generate_password_hash
                    (campo_password Exemplos.form_usuario_filial))
                 (campo_password Exemplos.form_usuario_filial) = true)
    by (vm_compute; reflexivity).
  assert (H6 : sem_falha_alguma sem_falhas) by (intros p; reflexivity).
  destruct (X11_usuario_criado_entra sem_falhas sem_falhas 50 60
              Exemplos.db_duas_unidades Exemplos.admin
              Exemplos.form_usuario_filial H1 H2 H3 H4 H6 H5) as (_ & E).
  split; [exact H1 | split; [exact H2 | split; [exact H3 | split;
    [exact H4 | split; [exact H5|]]]]].
  change (Some "op9") with
    (Some (App.form_get
             (App.form_username Exemplos.form_usuario_filial) "")).
  change (Some "1234") with
    (Some (campo_password Exemplos.form_usuario_filial)).
  rewrite E. reflexivity.
Defined.

Lemma X12_sessao_ignora_ativo_witness :
  NoDup (u_id <$> usuarios Exemplos.db_duas_unidades)
  /\ (Exemplos.linha_inativa ∈ usuarios Exemplos.db_duas_unidades)
  /\ u_ativo Exemplos.linha_inativa = 0
  /\ consulta_disponivel sem_falhas
  /\ App.load_user sem_falhas Exemplos.db_duas_unidades 5
     = Some {| User.id := 5;
               User.username := "op4";
               User.nome_completo := "Operador Quatro";
               User.unidade := "Contagem";
               User.tipo_usuario := "operador" |}.
Proof.
  assert (H1 : NoDup (u_id <$> usuarios Exemplos.db_duas_unidades))
    by (apply (bool_decide_unpack _); vm_compute; exact I).
  assert (H2 : Exemplos.linha_inativa ∈ usuarios Exemplos.db_duas_unidades)
    by (apply (bool_decide_unpack _); vm_compute; exact I).
  assert (H3 : consulta_disponivel sem_falhas) by (split; reflexivity).
  split; [exact H1 | split; [exact H2 | split; [reflexivity | split;
    [exact H3|]]]].
  exact (X12_sessao_ignora_ativo sem_falhas Exemplos.db_duas_unidades
           Exemplos.linha_inativa H1 H2 H3).
Defined.

Lemma X13_login_e_sessao_witness :
  NoDup (u_id <$> usuarios Exemplos.db_duas_unidades)
  /\ DatabaseManager.validar_login sem_falhas 50 Exemplos.db_duas_unidades
       "op1" "1234"
     = (Some (dados_da_linha (Exemplos.linha_de Exemplos.op_bh 1)),
        DatabaseManager.update_ultimo_login 50 2 Exemplos.db_duas_unidades)
  /\ consulta_disponivel sem_falhas
  /\ App.load_user sem_falhas
       (DatabaseManager.update_ultimo_login 50 2 Exemplos.db_duas_unidades)
       2
     = Some Exemplos.op_bh.
Proof.
  assert (H1 : NoDup (u_id <$> usuarios Exemplos.db_duas_unidades))
    by (apply (bool_decide_unpack _); vm_compute; exact I).
  assert (H2 : DatabaseManager.validar_login sem_falhas 50
                 Exemplos.db_duas_unidades "op1" "1234"
               = (Some (dados_da_linha (Exemplos.linha_de Exemplos.op_bh 1)),
                  DatabaseManager.update_ultimo_login 50 2
                    Exemplos.db_duas_unidades))
    by (vm_compute; reflexivity).
  assert (H3 : consulta_disponivel sem_falhas) by (split; reflexivity).
  split; [exact H1 | split; [exact H2 | split; [exact H3|]]].
  exact (X13_login_e_sessao sem_falhas sem_falhas 50
           Exemplos.db_duas_unidades "op1" "1234" _ _ H1 H2 H3).
Defined.

Lemma X14_login_preserva_a_base_witness :
  (DatabaseManager.validar_login sem_falhas 50 Exemplos.db_duas_unidades
     "op1" "errada").1 = None
  /\ (DatabaseManager.validar_login sem_falhas 50 Exemplos.db_duas_unidades
        "op1" "errada").2 = Exemplos.db_duas_unidades
  /\ registros
       (DatabaseManager.validar_login sem_falhas 50
          Exemplos.db_duas_unidades "op1" "1234").2
     = registros Exemplos.db_duas_unidades
  /\ (DatabaseManager.validar_login Exemplos.falha_no_commit 50
        Exemplos.db_duas_unidades "op1" "1234").1 = None
  /\ sem_ultimo_login
       <$> usuarios
             (DatabaseManager.validar_login Exemplos.falha_no_commit 50
                Exemplos.db_duas_unidades "op1" "1234").2
     = sem_ultimo_login <$> usuarios Exemplos.db_duas_unidades
  /\ u_ultimo_login
       <$> usuarios
             (DatabaseManager.validar_login Exemplos.falha_no_commit 50
                Exemplos.db_duas_unidades "op1" "1234").2
     = [None; Some 50; None; None; None].
Proof.
  assert (H1 : (DatabaseManager.validar_login sem_falhas 50
                  Exemplos.db_duas_unidades "op1" "errada").1 = None)
    by (vm_compute; reflexivity).
  split; [exact H1 | split; [|split; [|split; [|split]]]];
    [| | vm_compute; reflexivity
     | exact (proj1 (proj2 (X14_login_preserva_a_base
                              Exemplos.falha_no_commit 50
                              Exemplos.db_duas_unidades "op1" "1234")))
     | vm_compute; reflexivity].
  - exact (proj1 (proj2 (proj2 (X14_login_preserva_a_base sem_falhas 50
                                  Exemplos.db_duas_unidades "op1"
                                  "errada"))) H1 eq_refl).
  - exact (proj1 (X14_login_preserva_a_base sem_falhas 50
                    Exemplos.db_duas_unidades "op1" "1234")).
Defined.

Lemma X15_login_correto_witness :
  DatabaseManager.validar_login sem_falhas 50 Exemplos.db_duas_unidades
    "op1" "1234"
  = (Some (dados_da_linha (Exemplos.linha_de Exemplos.op_bh 1)),
     DatabaseManager.update_ultimo_login 50 2 Exemplos.db_duas_unidades)
  /\ exists row,
       row ∈ usuarios Exemplos.db_duas_unidades
       /\ u_username row = "op1"
       /\ u_ativo row = 1
       /\ check_password_hash (u_password_hash row) "1234" = true.
Proof.
  assert (H1 : DatabaseManager.validar_login sem_falhas 50
                 Exemplos.db_duas_unidades "op1" "1234"
               = (Some (dados_da_linha (Exemplos.linha_de Exemplos.op_bh 1)),
                  DatabaseManager.update_ultimo_login 50 2
                    Exemplos.db_duas_unidades))
    by (vm_compute; reflexivity).
  split; [exact H1|].
  destruct (X15_login_correto sem_falhas 50 Exemplos.db_duas_unidades
              "op1" "1234" _ _ H1) as (row & Hr & Hu & Ha & Hp & _).
  exists row. repeat split; assumption.
Defined.

Lemma X16_rotas_de_admin_negadas_witness :
  User.is_admin Exemplos.op_ambas = false
  /\ App.admin_dashboard sem_falhas Exemplos.db_duas_unidades
       Exemplos.op_ambas = App.AdminAcessoNegado
  /\ App.criar_usuario sem_falhas 50 Exemplos.db_duas_unidades
       Exemplos.op_ambas (Some Exemplos.form_usuario_filial)
     = (App.AcessoNegado, Exemplos.db_duas_unidades).
Proof.
  assert (H1 : User.is_admin Exemplos.op_ambas = false) by reflexivity.
  destruct (X16_rotas_de_admin_negadas sem_falhas 50
              Exemplos.db_duas_unidades Exemplos.op_ambas
              (Some Exemplos.form_usuario_filial) Exemplos.form_tres_senhas
              H1) as (E1 & E2 & _).
  split; [exact H1 | split; [exact E1 | exact E2]].
Defined.

Lemma X17_painel_do_admin_witness :
  User.is_admin Exemplos.admin = true
  /\ consulta_disponivel sem_falhas
  /\ exists listados estatisticas,
       App.admin_dashboard sem_falhas Exemplos.db_com_corrompido
         Exemplos.admin
       = App.PainelAdmin listados estatisticas 3
       /\ length listados = 5%nat.
Proof.
  assert (H1 : User.is_admin Exemplos.admin = true) by reflexivity.
  assert (H2 : consulta_disponivel sem_falhas) by (split; reflexivity).
  destruct (X17_painel_do_admin sem_falhas Exemplos.db_com_corrompido
              Exemplos.admin H1)
    as (listados & estatisticas & total & E & Hdisp & _).
  destruct (Hdisp H2) as (Hperm & Htotal).
  split; [exact H1 | split; [exact H2|]].
  exists listados, estatisticas. split.
  - rewrite E, Htotal. reflexivity.
  - apply Permutation_length in Hperm. rewrite Hperm. reflexivity.
Defined.

Lemma X18_exportacao_segue_a_listagem_witness :
  App.exportar_dados sem_falhas Exemplos.db_duas_unidades Exemplos.op_bh
  = App.CsvExportado [Cenarios.linha_csv_bh]
  /\ User.is_admin Exemplos.op_bh = false
  /\ Forall (fun linha => App.csv_unidade linha = "Belo Horizonte")
       [Cenarios.linha_csv_bh].
Proof.
  assert (H1 : App.exportar_dados sem_falhas Exemplos.db_duas_unidades
                 Exemplos.op_bh
               = App.CsvExportado [Cenarios.linha_csv_bh])
    by (vm_compute; reflexivity).
  assert (H2 : User.is_admin Exemplos.op_bh = false) by reflexivity.
  split; [exact H1 | split; [exact H2|]].
  exact (proj2 (X18_exportacao_segue_a_listagem sem_falhas
                  Exemplos.db_duas_unidades Exemplos.op_bh _ H1) H2).
Defined.

Lemma X19_exportacao_abortada_witness :
  User.is_admin Exemplos.admin = true
  /\ consulta_disponivel sem_falhas
  /\ Forall (sem_erro_fatal (plataforma := Cenarios.plataforma_com_numeros))
       (registros Cenarios.db_com_numeros)
  /\ (Cenarios.registro_numerico ∈ registros Cenarios.db_com_numeros)
  /\ Cenarios.loads_com_numeros (r_senhas Cenarios.registro_numerico)
     = Ok (JList [JNumber "111"; JNumber "222"])
  /\ (JNumber "111" ∈ [JNumber "111"; JNumber "222"])
  /\ (forall s, JNumber "111" <> JStr s)
  /\ App.exportar_dados (plataforma := Cenarios.plataforma_com_numeros)
       sem_falhas Cenarios.db_com_numeros Exemplos.admin
     = App.ErroAoExportar
  /\ length (DatabaseManager.obter_todos_registros
               (plataforma := Cenarios.plataforma_com_numeros) sem_falhas
               Cenarios.db_com_numeros) = 2%nat.
Proof.
  assert (H1 : User.is_admin Exemplos.admin = true) by reflexivity.
  assert (H2 : consulta_disponivel sem_falhas) by (split; reflexivity).
  assert (H3 : Cenarios.registro_numerico ∈ registros Cenarios.db_com_numeros)
    by (right; left).
  assert (H4 : Cenarios.loads_com_numeros
                 (r_senhas Cenarios.registro_numerico)
               = Ok (JList [JNumber "111"; JNumber "222"]))
    by (vm_compute; reflexivity).
  assert (H5 : JNumber "111" ∈ [JNumber "111"; JNumber "222"]) by left.
  assert (H6 : forall s, JNumber "111" <> JStr s) by discriminate.
  assert (H7 : Forall
                 (sem_erro_fatal
                    (plataforma := Cenarios.plataforma_com_numeros))
                 (registros Cenarios.db_com_numeros)).
  { apply Forall_cons; split; [linha_sem_erro_fatal|].
    apply Forall_cons; split; [linha_sem_erro_fatal | apply Forall_nil_2]. }
  split; [exact H1 | split; [exact H2 | split; [exact H7 | split;
    [exact H3 | split; [exact H4 | split; [exact H5 | split;
    [exact H6 | split]]]]]]].
  - exact (proj1 (X19_exportacao_abortada
                    (plataforma := Cenarios.plataforma_com_numeros)
                    sem_falhas Cenarios.db_com_numeros Exemplos.admin
                    Cenarios.registro_numerico _ _ H1 H2 H7 H3 H4 H5 H6)).
  - vm_compute. reflexivity.
Defined.

Lemma X20_filtro_de_quem_ve_tudo_witness :
  (User.is_admin Exemplos.op_ambas = true
   \/ User.unidade Exemplos.op_ambas = "Ambas")
  /\ ("Contagem" = "Belo Horizonte" \/ "Contagem" = "Contagem")
  /\ App.visualizar_registros sem_falhas Exemplos.db_duas_unidades
       Exemplos.op_ambas (Some "Contagem")
     = App.PaginaRegistros
         (DatabaseManager.obter_registros_por_unidade sem_falhas
            Exemplos.db_duas_unidades "Contagem")
         (DatabaseManager.contar_registros_por_unidade sem_falhas
            Exemplos.db_duas_unidades)
         "Contagem"
  /\ length (DatabaseManager.obter_registros_por_unidade sem_falhas
               Exemplos.db_duas_unidades "Contagem") = 1%nat.
Proof.
  assert (H1 : User.is_admin Exemplos.op_ambas = true
               \/ User.unidade Exemplos.op_ambas = "Ambas")
    by (right; reflexivity).
  assert (H2 : "Contagem" = "Belo Horizonte" \/ "Contagem" = "Contagem")
    by (right; reflexivity).
  split; [exact H1 | split; [exact H2 | split]].
  - exact (proj1 (X20_filtro_de_quem_ve_tudo sem_falhas
                    Exemplos.db_duas_unidades Exemplos.op_ambas "Contagem"
                    None H1 H2)).
  - vm_compute. reflexivity.
Defined.

Lemma X21_registro_criado_aparece_witness :
  User.is_admin Exemplos.op_bh = false
  /\ (User.unidade Exemplos.op_bh = "Belo Horizonte"
      \/ User.unidade Exemplos.op_bh = "Contagem")
  /\ passa_validacao_inicial Exemplos.op_bh Exemplos.form_tres_senhas
  /\ sem_falha_alguma sem_falhas
  /\ User.id Exemplos.op_bh <> 0
  /\ json_loads (json_dumps ["111"; "222"; "333"])
     = Ok (JList (JStr <$> ["111"; "222"; "333"]))
  /\ (forall row,
        row ∈ registros Exemplos.db_com_corrompido ->
        r_unidade row = User.unidade Exemplos.op_bh -> sem_erro_fatal row)
  /\ consulta_disponivel sem_falhas
  /\ exists listados estatisticas,
       App.visualizar_registros sem_falhas
         (App.adicionar_registro sem_falhas 40 Exemplos.db_com_corrompido
            Exemplos.op_bh Exemplos.form_tres_senhas).2
         Exemplos.op_bh (Some "Contagem")
       = App.PaginaRegistros listados estatisticas "Belo Horizonte"
       /\ {| DatabaseManager.reg_id := 4;
             DatabaseManager.reg_carteirinha := "C100";
             DatabaseManager.reg_unidade := "Belo Horizonte";
             DatabaseManager.reg_senhas :=
               JList [JStr "111"; JStr "222"; JStr "333"];
             DatabaseManager.reg_usuario_id := 2;
             DatabaseManager.reg_data_criacao := 40;
             DatabaseManager.reg_total_senhas := 3 |}
          ∈ listados.
Proof.
  assert (H1 : User.is_admin Exemplos.op_bh = false) by reflexivity.
  assert (H2 : User.unidade Exemplos.op_bh = "Belo Horizonte"
               \/ User.unidade Exemplos.op_bh = "Contagem")
    by (left; reflexivity).
  assert (H3 : passa_validacao_inicial Exemplos.op_bh
                 Exemplos.form_tres_senhas).
  { split; [discriminate | split; [discriminate | right; left; reflexivity]]. }
  assert (H4 : sem_falha_alguma sem_falhas) by (intros p; reflexivity).
  assert (H5 : User.id Exemplos.op_bh <> 0) by discriminate.
  assert (H6 : json_loads (json_dumps ["111"; "222"; "333"])
               = Ok (JList (JStr <$> ["111"; "222"; "333"])))
    by (vm_compute; reflexivity).
  assert (H7 : consulta_disponivel sem_falhas) by (split; reflexivity).
  assert (H8 : (1 <= length
                       (App.processar_senhas
                          (App.form_get
                             (App.form_senhas Exemplos.form_tres_senhas) ""))
                <= 5)%nat)
    by (vm_compute; split; apply Nat.leb_le; reflexivity).
  assert (H9 : forall row,
             row ∈ registros Exemplos.db_com_corrompido ->
             r_unidade row = User.unidade Exemplos.op_bh ->
             sem_erro_fatal row)
    by (intros row Hrow _;
        exact (proj1 (Forall_forall _ _) db_com_corrompido_sem_erro_fatal
                 row Hrow)).
  split; [exact H1 | split; [exact H2 | split; [exact H3 | split;
    [exact H4 | split; [exact H5 | split; [exact H6 | split;
    [exact H9 | split; [exact H7|]]]]]]]].
  exact (X21_registro_criado_aparece sem_falhas sem_falhas 40
           Exemplos.db_com_corrompido Exemplos.op_bh
           Exemplos.form_tres_senhas (Some "Contagem") H1 H2 H3 H8 H4 H5 H6
           H9 H7).
Defined.

Lemma X22_contagem_do_backup_witness :
  consulta_disponivel sem_falhas
  /\ exists contagem,
       DatabaseBackup.contar_registros_por_unidade sem_falhas
         Exemplos.db_com_corrompido = Ok contagem
       /\ contagem !! SText "Belo Horizonte" = Some (SInt 2)
       /\ contagem !! SText "Contagem" = Some (SInt 1)
       /\ contagem !! SText "Ambas" = None.
Proof.
  assert (H1 : consulta_disponivel sem_falhas) by (split; reflexivity).
  destruct (X22_contagem_do_backup sem_falhas Exemplos.db_com_corrompido)
    as (contagem & E & Hdisp & _).
  split; [exact H1|]. exists contagem. split; [exact E|].
  split; [|split]; rewrite (Hdisp H1); reflexivity.
Defined.

Lemma X23_chaves_distintas_witness :
  banco_bem_formado Exemplos.db_duas_unidades
  /\ banco_bem_formado
       (DatabaseManager.inserir_registro sem_falhas 40
          Exemplos.db_duas_unidades "C500" "Contagem" ["555"] 1).2
  /\ banco_bem_formado
       (DatabaseManager.criar_usuario sem_falhas 50
          Exemplos.db_duas_unidades "op9" "1234" "Operador Nove" "Filial X"
          "operador").2.
Proof.
  assert (H1 : banco_bem_formado Exemplos.db_duas_unidades).
  { repeat split; apply (bool_decide_unpack _); vm_compute; exact I. }
  destruct (X23_chaves_distintas sem_falhas false 40
              Exemplos.db_duas_unidades "C500" "Contagem" ["555"] 1 "op9"
              "1234" "Operador Nove" "Filial X" "operador" "op1" "1234" H1)
    as (E1 & _).
  destruct (X23_chaves_distintas sem_falhas false 50
              Exemplos.db_duas_unidades "C500" "Contagem" ["555"] 1 "op9"
              "1234" "Operador Nove" "Filial X" "operador" "op1" "1234" H1)
    as (_ & E2 & _).
  split; [exact H1 | split; [exact E1 | exact E2]].
Defined.
